(** * spiderweb: the endpoint execution pipeline and its ETag post-processing

    A shallow embedding of [endpoint/etag.go] and of the endpoint executor
    ([NewEndpoint], [Execute], [processErrorResponse] and their helpers).
    The sources hold two revisions of the executor: the one on a [Requester],
    which [etag.go] belongs to (module [Endpoint]), and an earlier one on a
    fasthttp request context (module [FastHttpEndpoint]).

    Conventions.
    - Go [int] is [Z]; the code only compares and prints these numbers.
    - Go [[]byte] is [list byte]; a nil slice and an empty slice are both [[]]
      (the code only looks at them through [len] and [bytes.Equal]).
    - Go [string] is [string]; [[]byte(s)] is [list_byte_of_string s].
    - Maps are stdpp [gmap]s.
    - Logging, tracing spans and profiling timers do not influence any
      returned value or response field and are left out. *)

From Stdlib Require Import ZArith NArith List Bool Lia.
From Stdlib Require Import Strings.String Strings.Ascii Strings.Byte.
From Stdlib Require Import Numbers.DecimalString.
From stdpp Require Import base decidable option list gmap strings.

Import ListNotations.
Local Open Scope Z_scope.

Abbreviation bytes := (list byte) (only parsing).

(** ** Go standard library functions used by the code *)

Module GoBytes.

#[export] Instance byte_eq_decision : EqDecision byte := Byte.byte_eq_dec.

(** [[]byte(s)] *)
Definition of_string (s : string) : bytes := list_byte_of_string s.

(** [string(b)] *)
Definition to_string (b : bytes) : string := string_of_list_byte b.

(** [len(b)] *)
Definition len (b : bytes) : Z := Z.of_nat (length b).

(** [bytes.Equal] *)
Definition Equal (a b : bytes) : bool := bool_decide (a = b).

(** [bytes.HasPrefix] *)
Fixpoint HasPrefix (s p : bytes) {struct p} : bool :=
  match p, s with
  | [], _ => true
  | _ :: _, [] => false
  | x :: p', y :: s' => bool_decide (x = y) && HasPrefix s' p'
  end.

(** [bytes.Contains]: [sub] occurs somewhere in [s]. *)
Fixpoint Contains (s sub : bytes) : bool :=
  HasPrefix s sub ||
  match s with
  | [] => false
  | _ :: s' => Contains s' sub
  end.

(** [bytes.Split(s, sep)] for a one-byte separator: all the fields between
    occurrences of [sep]; an input without [sep] (the empty one too) gives
    the single field [s]. *)
Fixpoint Split (s : bytes) (sep : byte) : list bytes :=
  match s with
  | [] => [[]]
  | c :: s' =>
      if bool_decide (c = sep) then [] :: Split s' sep
      else match Split s' sep with
           | [] => [[c]]
           | f :: fs => (c :: f) :: fs
           end
  end.

(** [bytes.Join] for a one-byte separator. *)
Fixpoint Join (fields : list bytes) (sep : byte) : bytes :=
  match fields with
  | [] => []
  | [f] => f
  | f :: fs => f ++ sep :: Join fs sep
  end.

(** The UTF-8 encodings of the code points for which [unicode.IsSpace]
    holds: tab, LF, VT, FF, CR, space, U+0085, U+00A0, U+1680,
    U+2000..U+200A, U+2028, U+2029, U+202F, U+205F, U+3000. *)
Definition spaces : list bytes :=
  [ [x09]; [x0a]; [x0b]; [x0c]; [x0d]; [x20];
    [xc2; x85]; [xc2; xa0]; [xe1; x9a; x80];
    [xe2; x80; x80]; [xe2; x80; x81]; [xe2; x80; x82]; [xe2; x80; x83];
    [xe2; x80; x84]; [xe2; x80; x85]; [xe2; x80; x86]; [xe2; x80; x87];
    [xe2; x80; x88]; [xe2; x80; x89]; [xe2; x80; x8a];
    [xe2; x80; xa8]; [xe2; x80; xa9]; [xe2; x80; xaf];
    [xe2; x81; x9f]; [xe3; x80; x80] ].

(** The rest of [s] after one leading white-space rune, if it starts with one. *)
Definition stripSpace (pats : list bytes) (s : bytes) : option bytes :=
  match List.find (HasPrefix s) pats with
  | Some p => Some (drop (length p) s)
  | None => None
  end.

Fixpoint trimLeft (pats : list bytes) (fuel : nat) (s : bytes) : bytes :=
  match fuel with
  | O => s
  | S fuel' =>
      match stripSpace pats s with
      | Some s' => trimLeft pats fuel' s'
      | None => s
      end
  end.

(** [bytes.TrimSpace]: leading, then trailing white space is sliced off. *)
Definition TrimSpace (s : bytes) : bytes :=
  let l := trimLeft spaces (length s) s in
  rev (trimLeft (map (@rev byte) spaces) (length l) (rev l)).

End GoBytes.

(** [strconv.Itoa] *)
Definition Itoa (n : Z) : string := NilZero.string_of_int (Z.to_int n).

(** [encoding/hex] *)
Module Hex.

Definition digit (n : N) : ascii :=
  match String.get (N.to_nat n) "0123456789abcdef" with
  | Some c => c
  | None => "0"%char
  end.

(** [hex.EncodeToString]: two lower-case digits per byte. *)
Fixpoint EncodeToString (b : bytes) : string :=
  match b with
  | [] => EmptyString
  | x :: b' =>
      let n := Byte.to_N x in
      String (digit (N.div n 16)) (String (digit (N.modulo n 16)) (EncodeToString b'))
  end.

End Hex.

(** [crypto/sha256] (FIPS 180-4), on 32-bit words kept in [Z]. *)
Module Sha256.

Definition w32 (x : Z) : Z := Z.land x 0xFFFFFFFF.
Definition add32 (a b : Z) : Z := w32 (a + b).
Definition rotr (n x : Z) : Z := Z.lor (Z.shiftr x n) (w32 (Z.shiftl x (32 - n))).
Definition Ch (x y z : Z) : Z := Z.lxor (Z.land x y) (Z.land (w32 (Z.lnot x)) z).
Definition Maj (x y z : Z) : Z := Z.lxor (Z.lxor (Z.land x y) (Z.land x z)) (Z.land y z).
Definition bsig0 (x : Z) : Z := Z.lxor (Z.lxor (rotr 2 x) (rotr 13 x)) (rotr 22 x).
Definition bsig1 (x : Z) : Z := Z.lxor (Z.lxor (rotr 6 x) (rotr 11 x)) (rotr 25 x).
Definition ssig0 (x : Z) : Z := Z.lxor (Z.lxor (rotr 7 x) (rotr 18 x)) (Z.shiftr x 3).
Definition ssig1 (x : Z) : Z := Z.lxor (Z.lxor (rotr 17 x) (rotr 19 x)) (Z.shiftr x 10).

(** The first [count] primes. *)
Definition is_prime (n : Z) : bool :=
  forallb (fun d => negb (n mod Z.of_nat d =? 0)) (seq 2 (Z.to_nat n - 2)).

Definition primes (count : nat) : list Z :=
  take count (List.filter is_prime (List.map Z.of_nat (seq 2 400))).

(** The largest [r] below [2 ^ bits] with [r ^ k <= n], bit by bit. *)
Fixpoint root (k n : Z) (bits : nat) (r : Z) : Z :=
  match bits with
  | O => r
  | S bits' =>
      let c := r + 2 ^ Z.of_nat bits' in
      if c ^ k <=? n then root k n bits' c else root k n bits' r
  end.

(** The first 32 bits of the fractional part of the [k]-th root of [p]. *)
Definition frac32 (k p : Z) : Z := w32 (root k (p * 2 ^ (32 * k)) 36 0).

(** The round constants: from the cube roots of the first 64 primes. *)
Definition K : list Z := List.map (frac32 3) (primes 64).

(** The initial hash value: from the square roots of the first 8 primes. *)
Definition H0 : list Z := List.map (frac32 2) (primes 8).

(** Big-endian bytes of [x], [n] of them. *)
Fixpoint be_bytes (n : nat) (x : Z) : list Z :=
  match n with
  | O => []
  | S n' => Z.land (Z.shiftr x (8 * Z.of_nat n')) 0xFF :: be_bytes n' x
  end.

(** The message, a 1 bit, zeros up to 56 mod 64, and the bit length on 8 bytes. *)
Definition pad (msg : list Z) : list Z :=
  let l := Z.of_nat (length msg) in
  msg ++ [0x80] ++ repeat 0 (Z.to_nat ((55 - l) mod 64)) ++ be_bytes 8 (8 * l).

(** Big-endian 32-bit words of a byte sequence. *)
Fixpoint words (fuel : nat) (bs : list Z) : list Z :=
  match fuel, bs with
  | S fuel', b0 :: b1 :: b2 :: b3 :: bs' =>
      (Z.lor (Z.shiftl b0 24) (Z.lor (Z.shiftl b1 16) (Z.lor (Z.shiftl b2 8) b3)))
        :: words fuel' bs'
  | _, _ => []
  end.

Definition nthw (i : nat) (w : list Z) : Z := nth i w 0.

(** The 64 rounds of one block: [w] is the sliding window W[t..t+15]. *)
Fixpoint rounds (ks : list Z) (w : list Z) (st : list Z) : list Z :=
  match ks with
  | [] => st
  | k :: ks' =>
      let a := nthw 0 st in let b := nthw 1 st in let c := nthw 2 st in
      let d := nthw 3 st in let e := nthw 4 st in let f := nthw 5 st in
      let g := nthw 6 st in let h := nthw 7 st in
      let t1 := add32 (add32 (add32 (add32 h (bsig1 e)) (Ch e f g)) k) (nthw 0 w) in
      let t2 := add32 (bsig0 a) (Maj a b c) in
      let next := add32 (add32 (add32 (ssig1 (nthw 14 w)) (nthw 9 w)) (ssig0 (nthw 1 w))) (nthw 0 w) in
      rounds ks' (tl w ++ [next]) [add32 t1 t2; a; b; c; add32 d t1; e; f; g]
  end.

Definition block (st : list Z) (w : list Z) : list Z :=
  List.map (fun p : Z * Z => add32 (fst p) (snd p)) (combine st (rounds K w st)).

Fixpoint blocks (fuel : nat) (ws : list Z) (st : list Z) : list Z :=
  match fuel with
  | O => st
  | S fuel' =>
      match ws with
      | [] => st
      | _ => blocks fuel' (drop 16 ws) (block st (take 16 ws))
      end
  end.

Definition byte_of_Z (z : Z) : byte :=
  match Byte.of_N (Z.to_N z) with
  | Some b => b
  | None => x00
  end.

(** [sha256.Sum256]: the 32-byte digest. *)
Definition Sum256 (data : bytes) : bytes :=
  let p := pad (List.map (fun b => Z.of_N (Byte.to_N b)) data) in
  let ws := words (length p) p in
  let st := blocks (length ws) ws H0 in
  List.map byte_of_Z (List.concat (List.map (be_bytes 4) st)).

End Sha256.

(** ** The requester *)

(** Modelled from the spec: the [httpheader] package is not part of the
    sources at hand; the header names are those listed among the external
    interfaces. *)
Module httpheader.
Definition IfNoneMatch : string := "If-None-Match".
Definition IfMatch : string := "If-Match".
Definition CacheControl : string := "Cache-Control".
Definition ETag : string := "ETag".
Definition XRequestId : string := "X-Request-Id".
End httpheader.

(** Modelled from the spec: the [Requester] interface is declared outside the
    sources at hand. It is bound to one request/response pair: read-only
    request facts, and response fields where a later write overrides an
    earlier one. A header that is absent peeks as the empty slice. *)
Record Requester := mkRequester {
  RequestId : string;
  ContentType : bytes;
  Accept : bytes;
  RequestBody : bytes;
  requestHeaders : gmap string bytes;
  responseHeaders : gmap string string;
  responseContentType : option string;
}.

Definition PeekHeader (r : Requester) (key : string) : bytes :=
  default [] (requestHeaders r !! key).

Definition SetResponseHeader (r : Requester) (key value : string) : Requester :=
  {| RequestId := RequestId r; ContentType := ContentType r; Accept := Accept r;
     RequestBody := RequestBody r; requestHeaders := requestHeaders r;
     responseHeaders := <[key := value]> (responseHeaders r);
     responseContentType := responseContentType r |}.

Definition SetResponseContentType (r : Requester) (mime : string) : Requester :=
  {| RequestId := RequestId r; ContentType := ContentType r; Accept := Accept r;
     RequestBody := RequestBody r; requestHeaders := requestHeaders r;
     responseHeaders := responseHeaders r;
     responseContentType := Some mime |}.

(** ** endpoint/etag.go *)

Module ETag.
Import GoBytes.

Definition noCache : string := "no-cache".
Definition comma : byte := ","%byte.
Definition anything : string := "*".

Definition StatusNotModified : Z := 304.
Definition StatusPreconditionFailed : Z := 412.

Definition trimTags (tags : list bytes) : list bytes := List.map TrimSpace tags.

Fixpoint checkEtagNoneMatch (etagsToNoneMatch : list bytes) (eTagValue : bytes) : bool :=
  match etagsToNoneMatch with
  | [] => false
  | etagToNoneMatch :: rest =>
      if Equal etagToNoneMatch (of_string anything) || Equal etagToNoneMatch eTagValue
      then true
      else checkEtagNoneMatch rest eTagValue
  end.

Fixpoint checkEtagMatch (etagsToMatch : list bytes) (eTagValue : bytes) : bool :=
  match etagsToMatch with
  | [] => true
  | etagToMatch :: rest =>
      if Equal etagToMatch (of_string anything) then false
      else if Equal etagToMatch eTagValue then false
      else checkEtagMatch rest eTagValue
  end.

(** Whether the cache can be used for this request, and the status to
    answer with if so. *)
Definition isCacheFresh (ifNoneMatch ifMatch eTagValue : bytes) : Z * bool :=
  if negb (len ifNoneMatch =? 0) then
    (StatusNotModified, checkEtagNoneMatch (trimTags (Split ifNoneMatch comma)) eTagValue)
  else
    (StatusPreconditionFailed, checkEtagMatch (trimTags (Split ifMatch comma)) eTagValue).

(** The value written to the ETag header (the local [eTagValue] of
    [HandleETag]). *)
Definition eTagValue (responseBody : bytes) : string :=
  let md5Sum := Sha256.Sum256 responseBody in
  Itoa (len responseBody) ++ "-" ++ Hex.EncodeToString md5Sum.

(** The guard of the early return of [HandleETag]. *)
Definition skipped (requester : Requester) (httpStatus : Z) (responseBody : bytes) : bool :=
  let ifNoneMatch := PeekHeader requester httpheader.IfNoneMatch in
  let ifMatch := PeekHeader requester httpheader.IfMatch in
  let cacheControl := PeekHeader requester httpheader.CacheControl in
  negb ((200 <=? httpStatus) && (httpStatus <? 300)) ||
  (len responseBody =? 0) ||
  Contains cacheControl (of_string noCache) ||
  ((len ifNoneMatch =? 0) && (len ifMatch =? 0)).

(** [HandleETag]: the requester after the call, and the returned status and
    body. *)
Definition HandleETag (requester : Requester) (maxAgeSeconds : Z) (httpStatus : Z)
    (responseBody : bytes) : Requester * (Z * bytes) :=
  let ifNoneMatch := PeekHeader requester httpheader.IfNoneMatch in
  let ifMatch := PeekHeader requester httpheader.IfMatch in
  if skipped requester httpStatus responseBody then
    (requester, (httpStatus, responseBody))
  else
    let eTag := eTagValue responseBody in
    let requester := SetResponseHeader requester httpheader.ETag eTag in
    let requester :=
      if negb (maxAgeSeconds =? 0)
      then SetResponseHeader requester httpheader.CacheControl ("max-age=" ++ Itoa maxAgeSeconds)
      else requester in
    match isCacheFresh ifNoneMatch ifMatch (of_string eTag) with
    | (newHttpStatus, true) => (requester, (newHttpStatus, []))
    | (_, false) => (requester, (httpStatus, responseBody))
    end.

End ETag.

(** ** Values, errors and collaborators of the executor *)

(** A call into a collaborator either returns or panics with a payload. *)
Inductive result (any A : Type) : Type :=
| Done (a : A)
| Panics (payload : any).
Arguments Done {any A} a.
Arguments Panics {any A} payload.

#[local] Set Warnings "-register-all".

(** Error values: package-level error values, and what [errors.New],
    [errors.Wrap] and [errors.Recover] build; [Wrap] and [Recover] are kept
    symbolic, nothing is assumed about how such an error prints. *)
Inductive error (any : Type) : Type :=
| ErrValue (name : string)
| New (format : string) (args : list bytes)
| NewCoded (code format : string) (args : list bytes)
| Wrap (err : option (error any)) (wrapped : error any)
| Recover (payload : any).
Arguments ErrValue {any} name.
Arguments New {any} format args.
Arguments NewCoded {any} code format args.
Arguments Wrap {any} err wrapped.
Arguments Recover {any} payload.

Section Collaborators.
Context {any : Type}.

(** A content-type keyed pair of marshal/unmarshal functions. *)
Record MimeTypeHandler := {
  MimeType : string;
  Marshal : any → result any (bytes * option (error any));
  Unmarshal : bytes → any → result any (option (error any));
}.

Record ErrorHandler := {
  HandleError : Z → option (error any) → result any (Z * any);
}.

Record RequestValidator := {
  ValidateRequest : bytes → result any (Z * option (error any));
}.

Record ResponseValidator := {
  ValidateResponse : Z → bytes → result any (Z * option (error any));
}.

(** [Authorization(ctx, requester.PeekHeader)] *)
Record Authorizer := {
  Authorization : (string → bytes) → result any (Z * option (error any));
}.

(** The calls into collaborators, as the executor makes them. *)
Inductive Event : Type :=
| EvSetResources
| EvSetPathParameters
| EvSetQueryParameters
| EvAuthorization
| EvUnmarshal
| EvValidateRequest
| EvHandle
| EvMarshal
| EvValidateResponse
| EvHandleError (httpStatus : Z) (err : option (error any))
| EvMarshalError.

(** Modelled from the spec: [MimeTypeHandlers.Get] is not part of the
    sources at hand. [Get(contentType, allowedSubset)] returns a codec or a
    not-found signal; matching is an exact string match, within the subset
    of the registered mime types the handler allows. *)
Definition Get (handlers : gmap string MimeTypeHandler) (contentType : bytes)
    (supportedMimeTypes : list string) : option MimeTypeHandler :=
  let mime := GoBytes.to_string contentType in
  if bool_decide (mime ∈ supportedMimeTypes) then handlers !! mime else None.

(** What the package and its libraries provide outside the sources at
    hand: how [fmt.Sprintf] prints an error under a verb, the value the
    runtime panics with on a nil dereference, the default registry
    [NewMimeTypeHandlers()] and [defaultErrorHandler{}]. *)
Class Runtime := {
  Sprintf : string → option (error any) → bytes;
  nilDereference : any;
  NewMimeTypeHandlers : gmap string MimeTypeHandler;
  defaultErrorHandler : ErrorHandler;
}.

(** *** The state of one execution *)

(** The requester, the local [responseMimeType] (which the deferred
    recovery reads), and the collaborator calls made so far, latest first. *)
Record ExecState := mkExecState {
  requester : Requester;
  responseMimeType : option MimeTypeHandler;
  trace : list Event;
}.

(** A step goes on with a value, returns from [Execute], or panics. *)
Inductive outcome (A : Type) : Type :=
| Continue (a : A)
| Returned (r : Z * bytes)
| Panicked (payload : any).
Arguments Continue {A} a.
Arguments Returned {A} r.
Arguments Panicked {A} payload.

Definition M (A : Type) : Type := ExecState → outcome A * ExecState.

Definition ret {A} (a : A) : M A := λ s, (Continue a, s).

Definition bind {A B} (m : M A) (k : A → M B) : M B :=
  λ s, match m s with
       | (Continue a, s') => k a s'
       | (Returned r, s') => (Returned r, s')
       | (Panicked p, s') => (Panicked p, s')
       end.

(** [return status, body] *)
Definition Return {A} (r : Z * bytes) : M A := λ s, (Returned r, s).

Definition panic {A} (p : any) : M A := λ s, (Panicked p, s).

(** A call into a collaborator: it is recorded, then it returns or panics. *)
Definition call {A} (ev : Event) (r : result any A) : M A :=
  λ s, (match r with Done a => Continue a | Panics p => Panicked p end,
        mkExecState (requester s) (responseMimeType s) (ev :: trace s)).

Definition getRequester : M Requester := λ s, (Continue (requester s), s).

Definition setRequester (r : Requester) : M unit :=
  λ s, (Continue tt, mkExecState r (responseMimeType s) (trace s)).

Definition getResponseMimeType : M (option MimeTypeHandler) :=
  λ s, (Continue (responseMimeType s), s).

Definition setResponseMimeType (h : option MimeTypeHandler) : M unit :=
  λ s, (Continue tt, mkExecState (requester s) h (trace s)).

(** [requester.SetResponseContentType(mime)] *)
Definition setContentType (mime : string) : M unit :=
  λ s, (Continue tt,
        mkExecState (SetResponseContentType (requester s) mime) (responseMimeType s) (trace s)).

(** [return f(...)]: the value of [m] is what [Execute] returns. *)
Definition exit {A} (m : M (Z * bytes)) : M A := bind m Return.

End Collaborators.

Arguments MimeTypeHandler : clear implicits.
Arguments ErrorHandler : clear implicits.
Arguments RequestValidator : clear implicits.
Arguments ResponseValidator : clear implicits.
Arguments Authorizer : clear implicits.
Arguments Event : clear implicits.
Arguments ExecState : clear implicits.
Arguments Runtime : clear implicits.
Arguments M : clear implicits.
Arguments outcome : clear implicits.
Arguments Continue {any A} a.
Arguments Returned {any A} r.
Arguments Panicked {any A} payload.

Declare Scope exec_scope.
Delimit Scope exec_scope with exec.
Notation "'let*' x := m 'in' k" := (bind m (λ x, k))
  (at level 10, x name, m at level 100, k at level 200) : exec_scope.
Notation "'let*' ' pat := m 'in' k" := (bind m (λ x, match x with pat => k end))
  (at level 10, pat pattern, m at level 100, k at level 200) : exec_scope.

(** An invariant of executions: a step that starts in a state satisfying
    [I] ends, however it ends, in a state satisfying [I]. *)
Definition preserves {any A} (I : ExecState any → Prop) (m : M any A) : Prop :=
  ∀ s, I s → I (m s).2.

(** No collaborator call of the kind [E] has been made. *)
Definition never {any} (E : Event any → Prop) (s : ExecState any) : Prop :=
  ∀ ev, ev ∈ trace s → ¬ E ev.

(** The codec [mime] is the negotiated one, and the response content type
    satisfies [P]. *)
Definition typed {any} (mime : MimeTypeHandler any) (P : option string → Prop)
    (s : ExecState any) : Prop :=
  responseMimeType s = Some mime ∧ P (responseContentType (requester s)).

Definition mimeTypeTextPlain : string := "text/plain".

Module httpstatus.
Definition BadRequest : Z := 400.
Definition RequestTimeout : Z := 408.
Definition UnsupportedMediaType : Z := 415.
Definition InternalServerError : Z := 500.
End httpstatus.

Definition null : string := "null".
Definition nullBytes : bytes := GoBytes.of_string null.

(** The state of [ctx.Err()]. *)
Inductive CtxErr : Type := CtxNil | Canceled | DeadlineExceeded.

(** ** The endpoint executor, on a [Requester] *)

Module Endpoint.

(** The places where [Execute] polls the context. *)
Inductive PollSite : Type := BeforeHandle | AfterHandle.

(** What [ctx.Err()] answers at each poll. *)
Record Context := { Err : PollSite → CtxErr }.

(** [ShouldContinue]: the request has not been canceled and its deadline
    has not passed. *)
Definition ShouldContinue (ctx : Context) (site : PollSite) : bool :=
  match Err ctx site with
  | Canceled | DeadlineExceeded => false
  | CtxNil => true
  end.

Section WithRuntime.
Context {any : Type} `{!Runtime any}.
Local Open Scope exec_scope.

Definition ErrInvalidMimeType : error any := ErrValue "ErrInvalidMimeType".
Definition ErrInternalServerError : error any := ErrValue "ErrInternalServerError".
Definition ErrBadRequest : error any := ErrValue "ErrBadRequest".
Definition ErrRequestTimeout : error any := ErrValue "ErrRequestTimeout".

(** The behaviour of an endpoint ([LogConfig] and [Tracer] left out). *)
Record Config := {
  ErrorHandler : option (ErrorHandler any);
  RequestValidator : option (RequestValidator any);
  ResponseValidator : option (ResponseValidator any);
  MimeTypeHandlers : option (gmap string (MimeTypeHandler any));
  Resources : option (gmap string any);
  Timeout : Z;
}.

(** The handler's business logic on the bound instance. *)
Record Handler := { Handle : result any (Z * option (error any)) }.

(** A freshly allocated handler: [auth] is nil, an object that is not an
    [Authorizer], or an [Authorizer]; [responseBody] is what the slot holds
    when it is read, after [Handle]. *)
Record handlerAllocation := {
  auth : option (option (Authorizer any));
  requestBody : option any;
  responseBody : option any;
  handler : Handler;
}.

(** Modelled from the spec: the handler descriptor and its binding
    methods are not part of the sources at hand; the fields are those
    [Execute] reads, the binding methods return an error or nil. *)
Record handlerTypeData := {
  structName : string;
  hasRequestBody : bool;
  requestMimeTypes : list string;
  responseMimeTypes : list string;
  shouldValidateRequest : bool;
  shouldValidateResponse : bool;
  eTagEnabled : bool;
  maxAgeSeconds : Z;
  allocateHandler : handlerAllocation;
  setResources : option (gmap string any) → result any (option (error any));
  setPathParameters : Requester → result any (option (error any));
  setQueryParameters : Requester → result any (option (error any));
}.

Record Endpoint := {
  config : Config;
  handlerData : handlerTypeData;
}.

(** [NewEndpoint]: the configuration is cloned, with defaults for what is
    not set. *)
Definition NewEndpoint (cfg : Config) (handler : handlerTypeData) : Endpoint :=
  {| config := {|
       ErrorHandler :=
         match ErrorHandler cfg with
         | None => Some defaultErrorHandler
         | Some h => Some h
         end;
       RequestValidator := None;
       ResponseValidator := None;
       MimeTypeHandlers :=
         match MimeTypeHandlers cfg with
         | None => Some NewMimeTypeHandlers
         | Some custom =>
             Some (map_fold (λ mime handler mimeHandlers, <[mime := handler]> mimeHandlers)
                     NewMimeTypeHandlers custom)
         end;
       Resources :=
         match Resources cfg with
         | None => Some ∅
         | Some resources => Some resources
         end;
       Timeout := if Timeout cfg =? 0 then 30 * 1000000000 else Timeout cfg;
     |};
     handlerData := handler |}.

Definition Name (self : Endpoint) : string := structName (handlerData self).

Definition processErrorResponse (self : Endpoint) (responseMimeType : option (MimeTypeHandler any))
    (httpStatus : Z) (err : option (error any)) : M any (Z * bytes) :=
  match responseMimeType with
  | None =>
      let* _ := setContentType mimeTypeTextPlain in
      ret (httpStatus, Sprintf "%v" err)
  | Some mime =>
      let* '(httpStatus, errStruct) :=
        match ErrorHandler (config self) with
        | Some h => call (EvHandleError httpStatus err) (HandleError h httpStatus err)
        | None => panic nilDereference
        end in
      let* '(responseBody, err) := call EvMarshalError (Marshal mime errStruct) in
      match err with
      | Some e =>
          let* _ := setContentType mimeTypeTextPlain in
          let err := Wrap (Some e) ErrInternalServerError in
          ret (httpstatus.InternalServerError, Sprintf "%s" (Some err))
      | None => ret (httpStatus, responseBody)
      end
  end.

(** [return self.processErrorResponse(ctx, requester, responseMimeType, ...)] *)
Definition fail {A} (self : Endpoint) (httpStatus : Z) (err : option (error any)) : M any A :=
  λ s, exit (processErrorResponse self (responseMimeType s) httpStatus err) s.

Definition setHandlerRequestBody (mimeHandler : option (MimeTypeHandler any))
    (requestBody : option any) (requestBodyBytes : bytes) : M any (option (error any)) :=
  match requestBody with
  | Some target =>
      match mimeHandler with
      | Some mime =>
          let* err := call EvUnmarshal (Unmarshal mime requestBodyBytes target) in
          match err with
          | Some e => ret (Some (Wrap (Some e) ErrBadRequest))
          | None => ret None
          end
      | None => panic nilDereference
      end
  | None => ret None
  end.

Definition getHandlerResponseBody (mimeHandler : option (MimeTypeHandler any))
    (responseBody : option any) : M any (bytes * option (error any)) :=
  match responseBody with
  | Some value =>
      match mimeHandler with
      | Some mime =>
          let* _ := setContentType (MimeType mime) in
          let* '(responseBodyBytes, err) := call EvMarshal (Marshal mime value) in
          match err with
          | Some e => ret ([], Some (Wrap (Some e) ErrInternalServerError))
          | None =>
              if (GoBytes.len responseBodyBytes =? 4) && GoBytes.Equal responseBodyBytes nullBytes
              then ret ([], Some (Wrap None ErrInternalServerError))
              else ret (responseBodyBytes, None)
          end
      | None => panic nilDereference
      end
  | None => ret ([], None)
  end.

(** Content-Type and Accept; the result is the local [requestMimeType]. *)
Definition setupMimeTypes (self : Endpoint) : M any (option (MimeTypeHandler any)) :=
  let handlers := default ∅ (MimeTypeHandlers (config self)) in
  let* requester := getRequester in
  let* requestMimeType :=
    if hasRequestBody (handlerData self) then
      let contentType := ContentType requester in
      if GoBytes.len contentType =? 0 then
        fail self httpstatus.UnsupportedMediaType
          (Some (Wrap (Some ErrInvalidMimeType) (New "Content-Type MIME type not provided" [])))
      else
        match Get handlers contentType (requestMimeTypes (handlerData self)) with
        | None =>
            fail self httpstatus.UnsupportedMediaType
              (Some (Wrap (Some ErrInvalidMimeType)
                       (New "Content-Type MIME type not supported: %s" [contentType])))
        | Some mime => ret (Some mime)
        end
    else ret None in
  (* Always process the Accept header since an error may be returned even
     if there is no response body. *)
  let accept := Accept requester in
  if GoBytes.len accept =? 0 then
    fail self httpstatus.UnsupportedMediaType
      (Some (Wrap (Some ErrInvalidMimeType) (New "Accept MIME type not provided" [])))
  else
    let* _ := setResponseMimeType (Get handlers accept (responseMimeTypes (handlerData self))) in
    match Get handlers accept (responseMimeTypes (handlerData self)) with
    | None =>
        fail self httpstatus.UnsupportedMediaType
          (Some (Wrap (Some ErrInvalidMimeType) (New "Accept MIME type not supported: %s" [accept])))
    | Some mime =>
        (* All responses after this must be marshalable to the mime type. *)
        let* _ := setContentType (MimeType mime) in
        ret requestMimeType
    end.

Definition allocation (self : Endpoint) : M any handlerAllocation :=
  let handlerAlloc := allocateHandler (handlerData self) in
  let* err := call EvSetResources (setResources (handlerData self) (Resources (config self))) in
  match err with
  | Some e => fail self httpstatus.InternalServerError (Some (Wrap (Some e) ErrInternalServerError))
  | None =>
      let* requester := getRequester in
      let* err := call EvSetPathParameters (setPathParameters (handlerData self) requester) in
      match err with
      | Some e => fail self httpstatus.BadRequest (Some (Wrap (Some e) ErrBadRequest))
      | None =>
          let* err := call EvSetQueryParameters (setQueryParameters (handlerData self) requester) in
          match err with
          | Some e => fail self httpstatus.BadRequest (Some (Wrap (Some e) ErrBadRequest))
          | None => ret handlerAlloc
          end
      end
  end.

Definition authorization (self : Endpoint) (handlerAlloc : handlerAllocation) : M any unit :=
  match auth handlerAlloc with
  | Some (Some asAuthorizer) =>
      let* requester := getRequester in
      let* '(httpStatus, err) :=
        call EvAuthorization (Authorization asAuthorizer (PeekHeader requester)) in
      match err with
      | Some e => fail self httpStatus (Some e)
      | None => ret tt
      end
  | Some None =>
      fail self httpstatus.InternalServerError (Some (Wrap None ErrInternalServerError))
  | None => ret tt
  end.

Definition processRequestBody (self : Endpoint) (requestMimeType : option (MimeTypeHandler any))
    (handlerAlloc : handlerAllocation) : M any unit :=
  if hasRequestBody (handlerData self) then
    let* requester := getRequester in
    let requestBodyBytes := RequestBody requester in
    let* err := setHandlerRequestBody requestMimeType (requestBody handlerAlloc) requestBodyBytes in
    match err with
    | Some e => fail self httpstatus.BadRequest (Some e)
    | None =>
        match RequestValidator (config self) with
        | Some validator =>
            if shouldValidateRequest (handlerData self) then
              let* '(httpStatus, validationFailure) :=
                call EvValidateRequest (ValidateRequest validator requestBodyBytes) in
              match validationFailure with
              | Some failure => fail self httpStatus (Some failure)
              | None => ret tt
              end
            else ret tt
        | None => ret tt
        end
    end
  else ret tt.

(** The request id header, then Content-Type and Accept. *)
Definition negotiation (self : Endpoint) : M any (option (MimeTypeHandler any)) :=
  let* requester := getRequester in
  let* _ := setRequester (SetResponseHeader requester httpheader.XRequestId (RequestId requester)) in
  setupMimeTypes self.

(** Allocation and binding, authorization, and the request body. *)
Definition binding (self : Endpoint) (requestMimeType : option (MimeTypeHandler any)) :
    M any handlerAllocation :=
  let* handlerAlloc := allocation self in
  let* _ := authorization self handlerAlloc in
  let* _ := processRequestBody self requestMimeType handlerAlloc in
  ret handlerAlloc.

(** Everything [Execute] does before it polls the context ahead of the
    handler. *)
Definition beforeHandle (self : Endpoint) : M any handlerAllocation :=
  let* requestMimeType := negotiation self in
  binding self requestMimeType.

(** [return HandleETag(ctx, requester, maxAgeSeconds, httpStatus, responseBody)] *)
Definition handleETag {A} (maxAgeSeconds httpStatus : Z) (responseBody : bytes) : M any A :=
  λ s, let '(requester, out) :=
         ETag.HandleETag (requester s) maxAgeSeconds httpStatus responseBody in
       (Returned out, mkExecState requester (responseMimeType s) (trace s)).

(** The response body, its validation and the ETag post-processing. *)
Definition processResponseBody (self : Endpoint) (handlerAlloc : handlerAllocation)
    (httpStatus : Z) : M any (Z * bytes) :=
  let* mime := getResponseMimeType in
  let* '(responseBody, err) := getHandlerResponseBody mime (responseBody handlerAlloc) in
  match err with
  | Some e => fail self httpstatus.InternalServerError (Some e)
  | None =>
      let* httpStatus :=
        match ResponseValidator (config self) with
        | Some validator =>
            if shouldValidateResponse (handlerData self) then
              let* '(httpStatus, validationFailure) :=
                call EvValidateResponse (ValidateResponse validator httpStatus responseBody) in
              match validationFailure with
              | Some failure => fail self httpStatus (Some failure)
              | None => ret httpStatus
              end
            else ret httpStatus
        | None => ret httpStatus
        end in
      if eTagEnabled (handlerData self) then
        handleETag (maxAgeSeconds (handlerData self)) httpStatus responseBody
      else Return (httpStatus, responseBody)
  end.

(** From the poll ahead of the handler to the end. *)
Definition fromHandle (self : Endpoint) (ctx : Context) (handlerAlloc : handlerAllocation) :
    M any (Z * bytes) :=
  if negb (ShouldContinue ctx BeforeHandle) then
    fail self httpstatus.RequestTimeout (Some ErrRequestTimeout)
  else
    let* '(httpStatus, err) := call EvHandle (Handle (handler handlerAlloc)) in
    match err with
    | Some e => fail self httpStatus (Some e)
    | None =>
        if negb (ShouldContinue ctx AfterHandle) then
          fail self httpstatus.RequestTimeout (Some ErrRequestTimeout)
        else processResponseBody self handlerAlloc httpStatus
    end.

(** The body of [Execute], under its deferred recovery. *)
Definition pipeline (self : Endpoint) (ctx : Context) : M any (Z * bytes) :=
  let* handlerAlloc := beforeHandle self in
  fromHandle self ctx handlerAlloc.

(** The registry negotiation looks into. *)
Definition registry (self : Endpoint) : gmap string (MimeTypeHandler any) :=
  default ∅ (MimeTypeHandlers (config self)).

(** The request side of the negotiation passes: no request body is
    declared, or the Content-Type header names a registered, allowed type. *)
Definition requestTypeAccepted (self : Endpoint) (r : Requester) : Prop :=
  hasRequestBody (handlerData self) = false ∨
  (ContentType r ≠ [] ∧
   is_Some (Get (registry self) (ContentType r) (requestMimeTypes (handlerData self)))).

(** The codec encodes every payload the error handler produces. *)
Definition encodesErrors (self : Endpoint) (mime : MimeTypeHandler any) : Prop :=
  ∀ h httpStatus err httpStatus' errStruct body e,
    ErrorHandler (config self) = Some h →
    HandleError h httpStatus err = Done (httpStatus', errStruct) →
    Marshal mime errStruct ≠ Done (body, Some e).

(** The state in which the negotiation starts: the request id is on the
    response, nothing else has happened. *)
Definition started (r : Requester) : ExecState any :=
  mkExecState (SetResponseHeader r httpheader.XRequestId (RequestId r)) None [].

(** The calls of the phases after the handler, and those of the handler
    and the phases after it. *)
Definition afterHandle (ev : Event any) : Prop :=
  ev = EvMarshal ∨ ev = EvValidateResponse.

Definition fromHandleOn (ev : Event any) : Prop :=
  ev = EvHandle ∨ afterHandle ev.

(** The deferred function: a panic is recovered, wrapped as an internal
    server error, and handed to the error responder with the
    [responseMimeType] of that moment. *)
Definition recovery (self : Endpoint) (payload : any) (s : ExecState any) :
    result any (Z * bytes) * ExecState any :=
  let err := Wrap (Some (Recover payload)) ErrInternalServerError in
  match processErrorResponse self (responseMimeType s) httpstatus.InternalServerError (Some err) s with
  | (Continue out, s') | (Returned out, s') => (Done out, s')
  | (Panicked p, s') => (Panics p, s')
  end.

(** A function body under the deferred recovery. *)
Definition withRecover (self : Endpoint) (x : outcome any (Z * bytes) * ExecState any) :
    result any (Z * bytes) * ExecState any :=
  match x with
  | (Continue out, s) | (Returned out, s) => (Done out, s)
  | (Panicked payload, s) => recovery self payload s
  end.

(** [Execute]: what the caller gets, a status and a body or a panic, and
    the final state of the execution. *)
Definition Execute (self : Endpoint) (ctx : Context) (requester : Requester) :
    result any (Z * bytes) * ExecState any :=
  withRecover self (pipeline self ctx (mkExecState requester None [])).

End WithRuntime.

Arguments Config : clear implicits.
Arguments Handler : clear implicits.
Arguments handlerAllocation : clear implicits.
Arguments handlerTypeData : clear implicits.
Arguments Endpoint : clear implicits.

End Endpoint.

(** ** The endpoint executor, on a fasthttp request context

    The revision of the executor that works on [*Context] (a fasthttp request
    context with a cancel function). The request context is modelled by the
    same [Requester] record: the Content-Type and Accept request headers, the
    body, and the response content type. *)

Module FastHttpEndpoint.

(** The places where [Execute] polls the context, in program order. *)
Inductive PollSite : Type :=
| AfterMimeTypes | AfterAuth | BeforeRequest | BeforeHandle | BeforeResponse.

Record Context := { Err : PollSite → CtxErr }.

(** [Context.ShouldContinue] *)
Definition ShouldContinue (ctx : Context) (site : PollSite) : bool :=
  match Err ctx site with
  | Canceled | DeadlineExceeded => false
  | CtxNil => true
  end.

Section WithRuntime.
Context {any : Type} `{!Runtime any}.
Local Open Scope exec_scope.

Definition ErrorPanic : error any := ErrValue "ErrorPanic".
Definition ErrorRequestTimeout : error any := ErrValue "ErrorRequestTimeout".
Definition ErrorRequestBodyUnmarshalFailure : error any :=
  ErrValue "ErrorRequestBodyUnmarshalFailure".
Definition ErrorResponseBodyMarshalFailure : error any :=
  ErrValue "ErrorResponseBodyMarshalFailure".
Definition ErrorResponseBodyNull : error any := ErrValue "ErrorResponseBodyNull".

(** [Auth(ctx, ctx.Request().Header.VisitAll)] *)
Record Auther := { Auth : result any (Z * option (error any)) }.

(** The behaviour of an endpoint ([LogConfig] left out). *)
Record Config := {
  ErrorHandler : option (ErrorHandler any);
  Auther_ : option Auther;
  RequestValidator : option (RequestValidator any);
  ResponseValidator : option (ResponseValidator any);
  MimeTypeHandlers : option (gmap string (MimeTypeHandler any));
  Resources : option (gmap string any);
  Timeout : Z;
}.

Record Handler := { Handle : result any (Z * option (error any)) }.

Record handlerAllocation := {
  requestBody : option any;
  responseBody : option any;
  handler : Handler;
}.

(** Modelled from the spec: the handler descriptor and its binding
    methods are not part of the sources at hand; the fields are those
    [Execute] reads, the binding methods return nothing. *)
Record handlerTypeData := {
  structName : string;
  hasRequestBody : bool;
  hasResponseBody : bool;
  requestMimeTypes : list string;
  responseMimeTypes : list string;
  shouldValidateRequest : bool;
  shouldValidateResponse : bool;
  allocateHandler : handlerAllocation;
  setResources : option (gmap string any) → result any unit;
  setPathParameters : Requester → result any unit;
  setQueryParameters : Requester → result any unit;
}.

Record Endpoint := {
  config : Config;
  handlerData : handlerTypeData;
}.

Definition NewEndpoint (cfg : Config) (handler : handlerTypeData) : Endpoint :=
  {| config := {|
       ErrorHandler :=
         match ErrorHandler cfg with
         | None => Some defaultErrorHandler
         | Some h => Some h
         end;
       Auther_ := None;
       RequestValidator := None;
       ResponseValidator := None;
       MimeTypeHandlers :=
         match MimeTypeHandlers cfg with
         | None => Some NewMimeTypeHandlers
         | Some custom => Some custom
         end;
       Resources :=
         match Resources cfg with
         | None => Some ∅
         | Some resources => Some resources
         end;
       Timeout := if Timeout cfg =? 0 then 30 * 1000000000 else Timeout cfg;
     |};
     handlerData := handler |}.

Definition processErrorResponse (self : Endpoint) (responseMimeType : option (MimeTypeHandler any))
    (httpStatus : Z) (err : option (error any)) : M any (Z * bytes) :=
  match responseMimeType with
  | None =>
      let* _ := setContentType mimeTypeTextPlain in
      ret (httpStatus, Sprintf "%#v" err)
  | Some mime =>
      let* '(httpStatus, errStruct) :=
        match ErrorHandler (config self) with
        | Some h => call (EvHandleError httpStatus err) (HandleError h httpStatus err)
        | None => panic nilDereference
        end in
      let* '(responseBody, err) := call EvMarshalError (Marshal mime errStruct) in
      match err with
      | Some _ =>
          let* _ := setContentType mimeTypeTextPlain in
          let err := NewCoded "InternalCodeErrorParseFailure" "Internal server error" [] in
          ret (httpstatus.InternalServerError, Sprintf "%s" (Some err))
      | None => ret (httpStatus, responseBody)
      end
  end.

Definition fail {A} (self : Endpoint) (httpStatus : Z) (err : option (error any)) : M any A :=
  λ s, exit (processErrorResponse self (responseMimeType s) httpStatus err) s.

Definition setHandlerRequestBody (mimeHandler : option (MimeTypeHandler any))
    (requestBody : option any) (requestBodyBytes : bytes) : M any (option (error any)) :=
  match requestBody with
  | Some target =>
      match mimeHandler with
      | Some mime =>
          let* err := call EvUnmarshal (Unmarshal mime requestBodyBytes target) in
          match err with
          | Some _ => ret (Some ErrorRequestBodyUnmarshalFailure)
          | None => ret None
          end
      | None => panic nilDereference
      end
  | None => ret None
  end.

Definition getHandlerResponseBody (mimeHandler : option (MimeTypeHandler any))
    (responseBody : option any) : M any (bytes * option (error any)) :=
  match responseBody with
  | Some value =>
      match mimeHandler with
      | Some mime =>
          let* _ := setContentType (MimeType mime) in
          let* '(responseBodyBytes, err) := call EvMarshal (Marshal mime value) in
          match err with
          | Some _ => ret ([], Some ErrorResponseBodyMarshalFailure)
          | None =>
              if (GoBytes.len responseBodyBytes =? 4) && GoBytes.Equal responseBodyBytes nullBytes
              then ret ([], Some ErrorResponseBodyNull)
              else ret (responseBodyBytes, None)
          end
      | None => panic nilDereference
      end
  | None => ret ([], None)
  end.

(** [if !ctx.ShouldContinue() { return timeout response }] *)
Definition poll (self : Endpoint) (ctx : Context) (site : PollSite) : M any unit :=
  if negb (ShouldContinue ctx site) then
    fail self httpstatus.RequestTimeout (Some ErrorRequestTimeout)
  else ret tt.

(** Content-Type and Accept; the result is the local [requestMimeType]. *)
Definition setupMimeTypes (self : Endpoint) : M any (option (MimeTypeHandler any)) :=
  let handlers := default ∅ (MimeTypeHandlers (config self)) in
  let* requester := getRequester in
  let* requestMimeType :=
    if hasRequestBody (handlerData self) then
      let contentType := ContentType requester in
      if GoBytes.len contentType =? 0 then
        fail self httpstatus.UnsupportedMediaType
          (Some (NewCoded "InternalCodeRequestMimeTypeMissing"
                   "Content-Type MIME type not provided" []))
      else
        match Get handlers contentType (requestMimeTypes (handlerData self)) with
        | None =>
            fail self httpstatus.UnsupportedMediaType
              (Some (NewCoded "InternalCodeRequestMimeTypeUnsupported"
                       "Content-Type MIME type not supported: %s" [contentType]))
        | Some mime => ret (Some mime)
        end
    else ret None in
  if hasResponseBody (handlerData self) then
    let accept := Accept requester in
    if GoBytes.len accept =? 0 then
      fail self httpstatus.UnsupportedMediaType
        (Some (NewCoded "InternalCodeResponseMimeTypeMissing" "Accept MIME type not provided" []))
    else
      let* _ := setResponseMimeType (Get handlers accept (responseMimeTypes (handlerData self))) in
      match Get handlers accept (responseMimeTypes (handlerData self)) with
      | None =>
          fail self httpstatus.UnsupportedMediaType
            (Some (NewCoded "InternalCodeResponseMimeTypeUnsupported"
                     "Accept MIME type not supported: %s" [accept]))
      | Some mime =>
          let* _ := setContentType (MimeType mime) in
          ret requestMimeType
      end
  else ret requestMimeType.

Definition authentication (self : Endpoint) : M any unit :=
  match Auther_ (config self) with
  | Some auther =>
      let* '(httpStatus, err) := call EvAuthorization (Auth auther) in
      match err with
      | Some e => fail self httpStatus (Some e)
      | None => ret tt
      end
  | None => ret tt
  end.

Definition allocation (self : Endpoint) : M any handlerAllocation :=
  let handlerAlloc := allocateHandler (handlerData self) in
  let* requester := getRequester in
  let* _ := call EvSetResources (setResources (handlerData self) (Resources (config self))) in
  let* _ := call EvSetPathParameters (setPathParameters (handlerData self) requester) in
  let* _ := call EvSetQueryParameters (setQueryParameters (handlerData self) requester) in
  ret handlerAlloc.

Definition handleRequest (self : Endpoint) (ctx : Context)
    (requestMimeType : option (MimeTypeHandler any)) (handlerAlloc : handlerAllocation) :
    M any unit :=
  let* _ := poll self ctx BeforeRequest in
  if hasRequestBody (handlerData self) then
    let* requester := getRequester in
    let requestBodyBytes := RequestBody requester in
    let* err := setHandlerRequestBody requestMimeType (requestBody handlerAlloc) requestBodyBytes in
    match err with
    | Some e => fail self httpstatus.BadRequest (Some e)
    | None =>
        match RequestValidator (config self) with
        | Some validator =>
            if shouldValidateRequest (handlerData self) then
              let* '(httpStatus, validationFailure) :=
                call EvValidateRequest (ValidateRequest validator requestBodyBytes) in
              match validationFailure with
              | Some failure => fail self httpStatus (Some failure)
              | None => ret tt
              end
            else ret tt
        | None => ret tt
        end
    end
  else ret tt.

(** The response block: the branch after [ValidateResponse] tests [err],
    the error of [getHandlerResponseBody], as the source does. *)
Definition handleResponse (self : Endpoint) (ctx : Context) (handlerAlloc : handlerAllocation)
    (httpStatus : Z) : M any (Z * bytes) :=
  let* _ := poll self ctx BeforeResponse in
  let* mime := getResponseMimeType in
  let* '(responseBody, err) := getHandlerResponseBody mime (responseBody handlerAlloc) in
  match err with
  | Some e => fail self httpstatus.InternalServerError (Some e)
  | None =>
      let* httpStatus :=
        match ResponseValidator (config self) with
        | Some validator =>
            if shouldValidateResponse (handlerData self) then
              let* '(httpStatus, validationFailure) :=
                call EvValidateResponse (ValidateResponse validator httpStatus responseBody) in
              match err with
              | Some _ => fail self httpStatus validationFailure
              | None => ret httpStatus
              end
            else ret httpStatus
        | None => ret httpStatus
        end in
      Return (httpStatus, responseBody)
  end.

Definition pipeline (self : Endpoint) (ctx : Context) : M any (Z * bytes) :=
  let* requestMimeType := setupMimeTypes self in
  let* _ := poll self ctx AfterMimeTypes in
  let* _ := authentication self in
  let* _ := poll self ctx AfterAuth in
  let* handlerAlloc := allocation self in
  let* _ := handleRequest self ctx requestMimeType handlerAlloc in
  let* _ := poll self ctx BeforeHandle in
  let* '(httpStatus, err) := call EvHandle (Handle (handler handlerAlloc)) in
  match err with
  | Some e => fail self httpStatus (Some e)
  | None => handleResponse self ctx handlerAlloc httpStatus
  end.

(** The deferred function: the error responder gets the fixed
    [ErrorPanic], the payload is only logged. *)
Definition recovery (self : Endpoint) (payload : any) (s : ExecState any) :
    result any (Z * bytes) * ExecState any :=
  match processErrorResponse self (responseMimeType s) httpstatus.InternalServerError
          (Some ErrorPanic) s with
  | (Continue out, s') | (Returned out, s') => (Done out, s')
  | (Panicked p, s') => (Panics p, s')
  end.

Definition withRecover (self : Endpoint) (x : outcome any (Z * bytes) * ExecState any) :
    result any (Z * bytes) * ExecState any :=
  match x with
  | (Continue out, s) | (Returned out, s) => (Done out, s)
  | (Panicked payload, s) => recovery self payload s
  end.

Definition Execute (self : Endpoint) (ctx : Context) (requester : Requester) :
    result any (Z * bytes) * ExecState any :=
  withRecover self (pipeline self ctx (mkExecState requester None [])).

End WithRuntime.

Arguments Config : clear implicits.
Arguments Auther : clear implicits.
Arguments Handler : clear implicits.
Arguments handlerAllocation : clear implicits.
Arguments handlerTypeData : clear implicits.
Arguments Endpoint : clear implicits.

End FastHttpEndpoint.

(** ** Inputs of the test suite *)

(** The requests and the body of [Test_handleETag]: a GET request carrying
    the client headers of a test case, and the uncached response. *)
Module Fixtures.
Import GoBytes.

Definition request (clientHeaders : list (string * string)) : Requester :=
  {| RequestId := "request-1"; ContentType := []; Accept := []; RequestBody := [];
     requestHeaders := list_to_map (List.map (fun h => (h.1, of_string h.2)) clientHeaders);
     responseHeaders := ∅; responseContentType := None |}.

Definition uncachedHttpStatus : Z := 200.
Definition uncachedResponse : bytes := of_string "response not cached".
Definition uncachedETag : string := "uncached".

(** The fingerprint of [uncachedResponse]. *)
Definition cachedETag : string :=
  "19-f563cf34dff2daac8d8e37fc17bd28ff60f79a05ed055116f82130ce136fab80".
End Fixtures.

(** ** Collaborators of the endpoint tests *)

(** Collaborators in the manner of [endpoint_test.go], over Go values given
    by their encoded text: an error handler that keeps the status and renders
    the error, a JSON codec that cannot encode a channel, validators, and a
    handler that answers 200 with a response body. *)
Module TestEndpoint.
Import GoBytes.

Abbreviation value := string (only parsing).

Fixpoint errorText (e : error value) : string :=
  match e with
  | ErrValue name => name
  | New format _ => format
  | NewCoded code format _ => "[" ++ code ++ "] " ++ format
  | Wrap cause wrapped =>
      errorText wrapped ++
      match cause with
      | Some c => ": " ++ errorText c
      | None => EmptyString
      end
  | Recover payload => "panic: " ++ payload
  end.

Definition myErrorHandler : ErrorHandler value :=
  {| HandleError := λ httpStatus err,
       Done (httpStatus, ("message:" ++ from_option errorText "nil" err)%string) |}.

(** An error handler that panics on every call. *)
Definition brokenErrorHandler : ErrorHandler value :=
  {| HandleError := λ _ _, Panics "error handler: nil map" |}.

(** An error handler whose payload holds a channel. *)
Definition channelErrorHandler : ErrorHandler value :=
  {| HandleError := λ httpStatus _, Done (httpStatus, "chan") |}.

(** An error handler that answers every error with 200. *)
Definition remappingErrorHandler : ErrorHandler value :=
  {| HandleError := λ _ _, Done (200, "recovered") |}.

(** An error handler that reports the cause of the error it is given. *)
Definition causeErrorHandler : ErrorHandler value :=
  {| HandleError := λ httpStatus err,
       Done (httpStatus,
             match err with
             | Some (Wrap (Some (Recover payload)) _) => payload
             | _ => "error"
             end) |}.

Definition jsonHandler : MimeTypeHandler value :=
  {| MimeType := "application/json";
     Marshal := λ v,
       if String.eqb v "chan"
       then Done ([], Some (New "json: unsupported type: chan" []))
       else Done (of_string v, None);
     Unmarshal := λ _ _, Done None |}.

Definition csvHandler : MimeTypeHandler value :=
  {| MimeType := "text/csv";
     Marshal := λ v, Done (of_string v, None);
     Unmarshal := λ _ _, Done None |}.

#[export] Instance runtime : Runtime value :=
  {| Sprintf := λ _ err, of_string (from_option errorText "<nil>" err);
     nilDereference := "runtime error: invalid memory address or nil pointer dereference";
     NewMimeTypeHandlers := {[ "application/json" := jsonHandler ]};
     defaultErrorHandler := myErrorHandler |}.

Definition myResponseValidator : ResponseValidator value :=
  {| ValidateResponse := λ _ _, Done (200, None) |}.

(** A request validator that rejects every request. *)
Definition strictRequestValidator : RequestValidator value :=
  {| ValidateRequest := λ _, Done (422, Some (New "request rejected" [])) |}.

(** A response validator that rejects every response. *)
Definition strictResponseValidator : ResponseValidator value :=
  {| ValidateResponse := λ _ _, Done (422, Some (New "response rejected" [])) |}.

(** A request with Content-Type and Accept [application/json], as
    [newTestContext] builds it. *)
Definition request : Requester :=
  {| RequestId := "request-1";
     ContentType := of_string "application/json";
     Accept := of_string "application/json";
     RequestBody := of_string "{my_string: hello, my_int: 5}";
     requestHeaders := ∅; responseHeaders := ∅; responseContentType := None |}.

(** The same request without an Accept header. *)
Definition requestWithoutAccept : Requester :=
  {| RequestId := "request-2";
     ContentType := of_string "application/json";
     Accept := [];
     RequestBody := of_string "{my_string: hello, my_int: 5}";
     requestHeaders := ∅; responseHeaders := ∅; responseContentType := None |}.

Definition responseText : string := "{output_string: hello, output_int: 5}".

End TestEndpoint.

(** An endpoint, a handler and a context for the [Requester] revision. *)
Module TestRequesterEndpoint.
Import Endpoint TestEndpoint.

Definition okHandler : Handler value := {| Handle := Done (200, None) |}.
Definition failingHandler : Handler value :=
  {| Handle := Done (422, Some (New "invalid input" [])) |}.
Definition panickingHandler : Handler value := {| Handle := Panics "index out of range" |}.

Definition myEndpoint (h : Handler value) : handlerTypeData value :=
  {| structName := "myEndpoint";
     hasRequestBody := true;
     requestMimeTypes := ["application/json"];
     responseMimeTypes := ["application/json"];
     shouldValidateRequest := true;
     shouldValidateResponse := true;
     eTagEnabled := false;
     maxAgeSeconds := 0;
     allocateHandler :=
       {| auth := None; requestBody := Some "request"; responseBody := Some responseText;
          handler := h |};
     setResources := λ _, Done None;
     setPathParameters := λ _, Done None;
     setQueryParameters := λ _, Done None |}.

Definition testConfig errorHandler : Config value :=
  {| ErrorHandler := Some errorHandler;
     RequestValidator := None;
     ResponseValidator := Some myResponseValidator;
     MimeTypeHandlers := Some {[ "application/json" := jsonHandler ]};
     Resources := Some {[ "db" := "myconnection" ]};
     Timeout := 0 |}.

Definition createTestEndpoint errorHandler (h : Handler value) : Endpoint value :=
  NewEndpoint (testConfig errorHandler) (myEndpoint h).

(** [NewEndpoint] does not carry the validators over; the endpoint's
    exported [Config] is given the response validator afterwards. *)
Definition withResponseValidator v (e : Endpoint value) : Endpoint value :=
  {| config :=
       {| ErrorHandler := ErrorHandler (config e);
          RequestValidator := RequestValidator (config e);
          ResponseValidator := Some v;
          MimeTypeHandlers := MimeTypeHandlers (config e);
          Resources := Resources (config e);
          Timeout := Timeout (config e) |};
     handlerData := handlerData e |}.

(** A configuration whose registry holds a CSV codec only. *)
Definition csvConfig : Config value :=
  {| ErrorHandler := None;
     RequestValidator := None;
     ResponseValidator := None;
     MimeTypeHandlers := Some {[ "text/csv" := csvHandler ]};
     Resources := None;
     Timeout := 0 |}.

(** [myEndpoint] with another allocation and another resource binder. *)
Definition endpointWith (alloc : handlerAllocation value)
    (bindResources : option (gmap string value) → result value (option (error value))) :
    handlerTypeData value :=
  {| structName := "myEndpoint";
     hasRequestBody := true;
     requestMimeTypes := ["application/json"];
     responseMimeTypes := ["application/json"];
     shouldValidateRequest := true;
     shouldValidateResponse := true;
     eTagEnabled := false;
     maxAgeSeconds := 0;
     allocateHandler := alloc;
     setResources := bindResources;
     setPathParameters := λ _, Done None;
     setQueryParameters := λ _, Done None |}.

(** A handler without a response body. *)
Definition bodilessEndpoint : handlerTypeData value :=
  endpointWith
    {| auth := None; requestBody := Some "request"; responseBody := None;
       handler := okHandler |}
    (λ _, Done None).

(** A handler whose response body encodes to the literal null. *)
Definition nullEndpoint : handlerTypeData value :=
  endpointWith
    {| auth := None; requestBody := Some "request"; responseBody := Some "null";
       handler := okHandler |}
    (λ _, Done None).

(** A handler whose resources cannot be bound. *)
Definition unboundEndpoint : handlerTypeData value :=
  endpointWith
    {| auth := None; requestBody := Some "request"; responseBody := Some responseText;
       handler := okHandler |}
    (λ _, Done (Some (New "resource not found: db" []))).

(** A handler whose authorizer turns every request away. *)
Definition guardedEndpoint : handlerTypeData value :=
  endpointWith
    {| auth := Some (Some {| Authorization := λ _, Done (401, Some (New "unauthorized" [])) |});
       requestBody := Some "request"; responseBody := Some responseText;
       handler := okHandler |}
    (λ _, Done None).

Definition withRequestValidator v (e : Endpoint value) : Endpoint value :=
  {| config :=
       {| ErrorHandler := ErrorHandler (config e);
          RequestValidator := Some v;
          ResponseValidator := ResponseValidator (config e);
          MimeTypeHandlers := MimeTypeHandlers (config e);
          Resources := Resources (config e);
          Timeout := Timeout (config e) |};
     handlerData := handlerData e |}.

Definition live : Context := {| Err := λ _, CtxNil |}.
Definition expired : Context := {| Err := λ _, DeadlineExceeded |}.

(** Canceled while the handler runs. *)
Definition canceledByHandle : Context :=
  {| Err := λ site, match site with BeforeHandle => CtxNil | AfterHandle => Canceled end |}.

End TestRequesterEndpoint.

(** The same for the fasthttp revision. *)
Module TestFastHttpEndpoint.
Import FastHttpEndpoint TestEndpoint.

Definition okHandler : Handler value := {| Handle := Done (200, None) |}.

Definition myEndpoint (h : Handler value) : handlerTypeData value :=
  {| structName := "myEndpoint";
     hasRequestBody := true;
     hasResponseBody := true;
     requestMimeTypes := ["application/json"];
     responseMimeTypes := ["application/json"];
     shouldValidateRequest := true;
     shouldValidateResponse := true;
     allocateHandler :=
       {| requestBody := Some "request"; responseBody := Some responseText; handler := h |};
     setResources := λ _, Done tt;
     setPathParameters := λ _, Done tt;
     setQueryParameters := λ _, Done tt |}.

Definition testConfig : Config value :=
  {| ErrorHandler := Some myErrorHandler;
     Auther_ := None;
     RequestValidator := None;
     ResponseValidator := Some strictResponseValidator;
     MimeTypeHandlers := Some {[ "application/json" := jsonHandler ]};
     Resources := Some {[ "db" := "myconnection" ]};
     Timeout := 0 |}.

Definition panickingEndpoint : Endpoint value :=
  NewEndpoint testConfig (myEndpoint {| Handle := Panics "index out of range" |}).

(** [NewEndpoint] does not carry the validators over; the endpoint's
    exported [Config] is given the response validator afterwards. *)
Definition withResponseValidator v (e : Endpoint value) : Endpoint value :=
  {| config :=
       {| ErrorHandler := ErrorHandler (config e);
          Auther_ := Auther_ (config e);
          RequestValidator := RequestValidator (config e);
          ResponseValidator := Some v;
          MimeTypeHandlers := MimeTypeHandlers (config e);
          Resources := Resources (config e);
          Timeout := Timeout (config e) |};
     handlerData := handlerData e |}.

Definition createTestEndpoint : Endpoint value :=
  withResponseValidator strictResponseValidator (NewEndpoint testConfig (myEndpoint okHandler)).

(** A handler that declares neither a request nor a response body. *)
Definition bodilessEndpoint : handlerTypeData value :=
  {| structName := "bodiless";
     hasRequestBody := false;
     hasResponseBody := false;
     requestMimeTypes := [];
     responseMimeTypes := [];
     shouldValidateRequest := false;
     shouldValidateResponse := false;
     allocateHandler := {| requestBody := None; responseBody := None; handler := okHandler |};
     setResources := λ _, Done tt;
     setPathParameters := λ _, Done tt;
     setQueryParameters := λ _, Done tt |}.

Definition live : Context := {| Err := λ _, CtxNil |}.

End TestFastHttpEndpoint.

(** ** Vocabulary of the further properties *)

Import GoBytes.

(** The bytes a fingerprint is made of: decimal digits, lower-case hex digits
    and the hyphen. *)
Definition fingerprintBytes : list byte := GoBytes.of_string "0123456789abcdef-".

(** None of the byte sequences [pats] starts with the byte [b]. *)
Definition apart (pats : list bytes) (b : byte) : bool :=
  forallb (λ p, match p with [] => false | x :: _ => negb (bool_decide (x = b)) end) pats.

(** [r'] carries the request of [r]: the request side of the requester is
    the same. *)
Definition sameRequest (r r' : Requester) : Prop :=
  RequestId r' = RequestId r ∧ ContentType r' = ContentType r ∧ Accept r' = Accept r ∧
  RequestBody r' = RequestBody r ∧ requestHeaders r' = requestHeaders r.

(** The requester satisfies [Q]. *)
Definition stable {any : Type} (Q : Requester → Prop) (s : ExecState any) : Prop :=
  Q (requester s).

Section RequesterVocabulary.
Import Endpoint.
Context {any : Type} `{!Runtime any}.

(** The state after one more collaborator call. *)
Definition pushed (ev : Event any) (s : ExecState any) : ExecState any :=
  mkExecState (requester s) (responseMimeType s) (ev :: trace s).

(** The collaborator call [ev] has been made. *)
Definition called (ev : Event any) (s : ExecState any) : Prop := ev ∈ trace s.

(** The calls of the phases after the authorization, and those of the
    authorization and the phases after it. *)
Definition afterAuthorization (ev : Event any) : Prop :=
  ev = EvUnmarshal ∨ ev = EvValidateRequest ∨ fromHandleOn ev.

Definition afterBinding (ev : Event any) : Prop :=
  ev = EvAuthorization ∨ afterAuthorization ev.

(** The calls of the two validators. *)
Definition validation (ev : Event any) : Prop :=
  ev = EvValidateRequest ∨ ev = EvValidateResponse.

(** The codec for the request body: the one registered for the Content-Type
    header, when the handler declares a request body. *)
Definition requestCodec (self : Endpoint any) (r : Requester) : option (MimeTypeHandler any) :=
  if hasRequestBody (handlerData self)
  then Get (registry self) (ContentType r) (requestMimeTypes (handlerData self))
  else None.

(** The requester once the codec [mime] is negotiated: the request id and the
    codec's content type are on the response. *)
Definition negotiated (r : Requester) (mime : MimeTypeHandler any) : Requester :=
  SetResponseContentType (SetResponseHeader r httpheader.XRequestId (RequestId r))
    (MimeType mime).

(** The three binders return nil. *)
Definition bound (self : Endpoint any) (r : Requester) : Prop :=
  setResources (handlerData self) (Resources (config self)) = Done None ∧
  setPathParameters (handlerData self) r = Done None ∧
  setQueryParameters (handlerData self) r = Done None.

(** There is no auth object, or it is an [Authorizer] that returns a nil
    error. *)
Definition authorized (self : Endpoint any) (r : Requester) : Prop :=
  match auth (allocateHandler (handlerData self)) with
  | None => True
  | Some None => False
  | Some (Some asAuthorizer) =>
      ∃ httpStatus, Authorization asAuthorizer (PeekHeader r) = Done (httpStatus, None)
  end.

(** The request validator, if it is to run, returns a nil failure. *)
Definition requestValid (self : Endpoint any) (r : Requester) : Prop :=
  match RequestValidator (config self) with
  | Some validator =>
      shouldValidateRequest (handlerData self) = false ∨
      ∃ httpStatus, ValidateRequest validator (RequestBody r) = Done (httpStatus, None)
  | None => True
  end.

(** No request body is declared; or the body slot, if there is one, is
    filled by the request codec without error, and the request is valid. *)
Definition decoded (self : Endpoint any) (r : Requester) : Prop :=
  hasRequestBody (handlerData self) = false ∨
  (match requestBody (allocateHandler (handlerData self)) with
   | None => True
   | Some target =>
       ∃ codec, requestCodec self r = Some codec ∧
                Unmarshal codec (RequestBody r) target = Done None
   end ∧ requestValid self r).

(** In this execution the error handler was called with [httpStatus] and
    [err], and the codec [mime] did not encode the payload it returned. *)
Definition encodeFailed (self : Endpoint any) (mime : MimeTypeHandler any)
    (s : ExecState any) : Prop :=
  ∃ h httpStatus err httpStatus' payload body e,
    ErrorHandler (config self) = Some h ∧
    called (EvHandleError httpStatus err) s ∧
    HandleError h httpStatus err = Done (httpStatus', payload) ∧
    Marshal mime payload = Done (body, Some e).

(** The codec [mime] is the negotiated one, and the response content type
    is its type, or text/plain after an error payload did not encode. *)
Definition settled (self : Endpoint any) (mime : MimeTypeHandler any)
    (s : ExecState any) : Prop :=
  responseMimeType s = Some mime ∧
  (responseContentType (requester s) = Some (MimeType mime) ∨
   (responseContentType (requester s) = Some mimeTypeTextPlain ∧ encodeFailed self mime s)).

(** The negotiation passes and resolves the response codec [mime]. *)
Definition negotiates (self : Endpoint any) (r : Requester) (mime : MimeTypeHandler any) : Prop :=
  Accept r ≠ [] ∧
  Get (registry self) (Accept r) (responseMimeTypes (handlerData self)) = Some mime ∧
  requestTypeAccepted self r.

(** Everything the handler's invocation depends on. *)
Definition admits (self : Endpoint any) (r : Requester) (mime : MimeTypeHandler any) : Prop :=
  negotiates self r mime ∧
  bound self (negotiated r mime) ∧
  authorized self (negotiated r mime) ∧
  decoded self (negotiated r mime).

Definition admitted (self : Endpoint any) (r : Requester) : Prop :=
  ∃ mime, admits self r mime.

(** What the response validator, if it is to run, makes of the handler's
    status: it returns a nil failure and the status [httpStatus']. *)
Definition validated (self : Endpoint any) (httpStatus : Z) (body : bytes) (httpStatus' : Z) :
    Prop :=
  match ResponseValidator (config self) with
  | Some validator =>
      if shouldValidateResponse (handlerData self)
      then ValidateResponse validator httpStatus body = Done (httpStatus', None)
      else httpStatus' = httpStatus
  | None => httpStatus' = httpStatus
  end.

End RequesterVocabulary.

Section FastHttpVocabulary.
Import FastHttpEndpoint.
Context {any : Type}.

(** The collaborator calls that [Execute] makes, if it gets there, after
    the poll at [site]. *)
Definition laterThan (site : PollSite) (ev : Event any) : Prop :=
  match site with
  | AfterMimeTypes =>
      ev = EvAuthorization ∨ ev = EvSetResources ∨ ev = EvSetPathParameters ∨
      ev = EvSetQueryParameters ∨ ev = EvUnmarshal ∨ ev = EvValidateRequest ∨
      ev = EvHandle ∨ ev = EvMarshal ∨ ev = EvValidateResponse
  | AfterAuth =>
      ev = EvSetResources ∨ ev = EvSetPathParameters ∨
      ev = EvSetQueryParameters ∨ ev = EvUnmarshal ∨ ev = EvValidateRequest ∨
      ev = EvHandle ∨ ev = EvMarshal ∨ ev = EvValidateResponse
  | BeforeRequest =>
      ev = EvUnmarshal ∨ ev = EvValidateRequest ∨
      ev = EvHandle ∨ ev = EvMarshal ∨ ev = EvValidateResponse
  | BeforeHandle => ev = EvHandle ∨ ev = EvMarshal ∨ ev = EvValidateResponse
  | BeforeResponse => ev = EvMarshal ∨ ev = EvValidateResponse
  end.

(** The registry the negotiation looks into. *)
Definition FastHttp_registry (self : Endpoint any) : gmap string (MimeTypeHandler any) :=
  default ∅ (MimeTypeHandlers (config self)).

(** The request side of the negotiation passes. *)
Definition FastHttp_requestTypeAccepted (self : Endpoint any) (r : Requester) : Prop :=
  hasRequestBody (handlerData self) = false ∨
  (ContentType r ≠ [] ∧
   is_Some (Get (FastHttp_registry self) (ContentType r) (requestMimeTypes (handlerData self)))).

(** In this execution the error handler was called with [httpStatus] and
    [err], and the codec [mime] did not encode the payload it returned. *)
Definition FastHttp_encodeFailed (self : Endpoint any) (mime : MimeTypeHandler any)
    (s : ExecState any) : Prop :=
  ∃ h httpStatus err httpStatus' payload body e,
    ErrorHandler (config self) = Some h ∧
    EvHandleError httpStatus err ∈ trace s ∧
    HandleError h httpStatus err = Done (httpStatus', payload) ∧
    Marshal mime payload = Done (body, Some e).

(** The codec [mime] is the negotiated one, and the response content type
    is its type, or text/plain after an error payload did not encode. *)
Definition FastHttp_settled (self : Endpoint any) (mime : MimeTypeHandler any)
    (s : ExecState any) : Prop :=
  responseMimeType s = Some mime ∧
  (responseContentType (requester s) = Some (MimeType mime) ∨
   (responseContentType (requester s) = Some mimeTypeTextPlain ∧
    FastHttp_encodeFailed self mime s)).

(** No codec is negotiated: the response content type is the one the
    request came with, or text/plain, and neither the error handler nor a
    codec has encoded anything. *)
Definition unnegotiated (r : Requester) (s : ExecState any) : Prop :=
  responseMimeType s = None ∧
  (responseContentType (requester s) = responseContentType r ∨
   responseContentType (requester s) = Some mimeTypeTextPlain) ∧
  ∀ ev, ev ∈ trace s →
        ev ≠ EvMarshal ∧ ev ≠ EvMarshalError ∧ ∀ httpStatus err, ev ≠ EvHandleError httpStatus err.

(** The calls [NewEndpoint] leaves no collaborator for. *)
Definition configured (ev : Event any) : Prop :=
  ev = EvAuthorization ∨ ev = EvValidateRequest ∨ ev = EvValidateResponse.

End FastHttpVocabulary.

(** * Properties *)

(** ** The library models *)

Section GoBytesFacts.
Import GoBytes.

Lemma Equal_true (a b : bytes) : Equal a b = true ↔ a = b.
Proof. unfold Equal. apply bool_decide_eq_true. Qed.

Lemma Equal_false (a b : bytes) : Equal a b = false ↔ a ≠ b.
Proof. unfold Equal. apply bool_decide_eq_false. Qed.

Lemma len_zero (b : bytes) : (len b =? 0) = true ↔ b = [].
Proof.
  unfold len. rewrite Z.eqb_eq. destruct b; simpl; split; intros; try done; lia.
Qed.

Lemma HasPrefix_spec (s p : bytes) : HasPrefix s p = true ↔ ∃ post, s = p ++ post.
Proof.
  revert s. induction p as [|x p IH]; intros s; simpl.
  - split; [intros _; by exists s | done].
  - destruct s as [|y s].
    + split; [done | intros [post H]; discriminate H].
    + rewrite andb_true_iff, bool_decide_eq_true, IH. split.
      * intros [-> [post ->]]. by exists post.
      * intros [post H]. injection H as -> ->. split; [done | by exists post].
Qed.

(** [Contains] is the substring test. *)
Lemma Contains_spec (s sub : bytes) :
  Contains s sub = true ↔ ∃ pre post, s = pre ++ sub ++ post.
Proof.
  induction s as [|c s IH].
  - simpl. rewrite orb_false_r, HasPrefix_spec. split.
    + intros [post H]. by exists [], post.
    + intros [pre [post H]]. destruct pre; [by exists post | discriminate H].
  - cbn [Contains]. rewrite orb_true_iff, IH, HasPrefix_spec. split.
    + intros [[post H] | [pre [post H]]].
      * by exists [], post.
      * exists (c :: pre), post. by rewrite H.
    + intros [pre [post H]]. destruct pre as [|c' pre].
      * left. by exists post.
      * right. injection H as -> ->. by exists pre, post.
Qed.

Lemma Split_nonempty (s : bytes) (sep : byte) : Split s sep ≠ [].
Proof.
  destruct s as [|c s]; simpl; [done |].
  case_bool_decide; [done |]. by destruct (Split s sep).
Qed.

(** The fields of [Split], put together again with the separator, are the
    input, and no field holds the separator. *)
Lemma Split_Join (s : bytes) (sep : byte) : Join (Split s sep) sep = s.
Proof.
  induction s as [|c s IH]; simpl; [done |].
  pose proof (Split_nonempty s sep) as Hne.
  case_bool_decide as Hc.
  - subst c. destruct (Split s sep) as [|f fs] eqn:E; [done |].
    change (Join ([] :: f :: fs) sep) with (sep :: Join (f :: fs) sep). by rewrite IH.
  - destruct (Split s sep) as [|f fs] eqn:E; [done |].
    destruct fs as [|g fs]; simpl in *; by rewrite IH.
Qed.

Lemma Split_fields (s : bytes) (sep : byte) (f : bytes) :
  f ∈ Split s sep → sep ∉ f.
Proof.
  revert f. induction s as [|c s IH]; intros f; simpl.
  - intros ->%list_elem_of_singleton. apply not_elem_of_nil.
  - case_bool_decide as Hc.
    + intros [-> | H]%elem_of_cons; [apply not_elem_of_nil | by apply IH].
    + destruct (Split s sep) as [|g gs] eqn:E.
      * intros ->%list_elem_of_singleton.
        intros [-> | H]%elem_of_cons; [done | by apply not_elem_of_nil in H].
      * intros [-> | H]%elem_of_cons.
        -- intros [-> | H]%elem_of_cons; [done |].
           revert H. apply IH. apply elem_of_cons. by left.
        -- apply IH. apply elem_of_cons. by right.
Qed.

Example TrimSpace_ascii :
  TrimSpace (of_string "  W/x y	 ") = of_string "W/x y".
Proof. reflexivity. Qed.

Example TrimSpace_nbsp :
  TrimSpace [xc2; xa0; x61; xe2; x80; x80] = [x61] ∧ TrimSpace [xa0; x61] = [xa0; x61].
Proof. split; reflexivity. Qed.

Example round_constants :
  take 2 Sha256.K = [0x428a2f98; 0x71374491] ∧ last Sha256.K = Some 0xc67178f2 ∧
  length Sha256.K = 64%nat ∧ take 2 Sha256.H0 = [0x6a09e667; 0xbb67ae85].
Proof. vm_compute. repeat split. Qed.

Example Sum256_abc :
  Hex.EncodeToString (Sha256.Sum256 (of_string "abc"))
  = "ba7816bf8f01cfea414140de5dae2223b00361a396177a9cb410ff61f20015ad"%string.
Proof. vm_compute. reflexivity. Qed.

Example Sum256_empty :
  Hex.EncodeToString (Sha256.Sum256 [])
  = "e3b0c44298fc1c149afbf4c8996fb92427ae41e4649b934ca495991b7852b855"%string.
Proof. vm_compute. reflexivity. Qed.

Example Sum256_two_blocks :
  Hex.EncodeToString
    (Sha256.Sum256 (of_string "abcdbcdecdefdefgefghfghighijhijkijkljklmklmnlmnomnopnopq"))
  = "248d6a61d20638b8e5c026930c3e6039a33ce45964ff2167f6ecedd419db06c1"%string.
Proof. vm_compute. reflexivity. Qed.

End GoBytesFacts.

(** ** endpoint/etag.go *)

Section ETagFacts.
Import GoBytes ETag.

Implicit Types (r : Requester) (body : bytes).

Lemma checkEtagNoneMatch_true (tags : list bytes) (e : bytes) :
  checkEtagNoneMatch tags e = true ↔ ∃ t, t ∈ tags ∧ (t = of_string anything ∨ t = e).
Proof.
  induction tags as [|t tags IH]; simpl.
  - split; [done | intros [t [H _]]; by apply not_elem_of_nil in H].
  - destruct (Equal t (of_string anything) || Equal t e) eqn:E.
    + split; [intros _ | done]. exists t. split; [apply elem_of_cons; by left |].
      apply orb_true_iff in E as [E | E]; apply Equal_true in E; auto.
    + apply orb_false_iff in E as [E1 E2].
      apply Equal_false in E1. apply Equal_false in E2.
      rewrite IH. split.
      * intros [u [Hu H]]. exists u. split; [apply elem_of_cons; by right | done].
      * intros [u [[-> | Hu]%elem_of_cons H]]; [by destruct H | by exists u].
Qed.

Lemma checkEtagMatch_true (tags : list bytes) (e : bytes) :
  checkEtagMatch tags e = true ↔ ∀ t, t ∈ tags → t ≠ of_string anything ∧ t ≠ e.
Proof.
  induction tags as [|t tags IH]; simpl.
  - split; [intros _ t H; by apply not_elem_of_nil in H | done].
  - destruct (Equal t (of_string anything)) eqn:E1.
    { apply Equal_true in E1. split; [done |]. intros H.
      destruct (H t) as [H1 _]; [apply elem_of_cons; by left | done]. }
    destruct (Equal t e) eqn:E2.
    { apply Equal_true in E2. split; [done |]. intros H.
      destruct (H t) as [_ H2]; [apply elem_of_cons; by left | done]. }
    apply Equal_false in E1. apply Equal_false in E2. rewrite IH. split.
    + intros H u [-> | Hu]%elem_of_cons; [done | by apply H].
    + intros H u Hu. apply H. apply elem_of_cons. by right.
Qed.

Lemma checkEtagMatch_false (tags : list bytes) (e : bytes) :
  checkEtagMatch tags e = false ↔ ∃ t, t ∈ tags ∧ (t = of_string anything ∨ t = e).
Proof.
  induction tags as [|t tags IH]; simpl.
  - split; [done | intros [t [H _]]; by apply not_elem_of_nil in H].
  - destruct (Equal t (of_string anything)) eqn:E1.
    { apply Equal_true in E1. split; [intros _ | done].
      exists t. split; [apply elem_of_cons; by left | by left]. }
    destruct (Equal t e) eqn:E2.
    { apply Equal_true in E2. split; [intros _ | done].
      exists t. split; [apply elem_of_cons; by left | by right]. }
    apply Equal_false in E1. apply Equal_false in E2. rewrite IH. split.
    + intros [u [Hu H]]. exists u. split; [apply elem_of_cons; by right | done].
    + intros [u [[-> | Hu]%elem_of_cons H]]; [by destruct H | by exists u].
Qed.

(** What the guard of the early return tests. *)
Lemma skipped_true r (httpStatus : Z) body :
  skipped r httpStatus body = true ↔
    (httpStatus < 200 ∨ 300 ≤ httpStatus) ∨
    body = [] ∨
    (∃ pre post, PeekHeader r httpheader.CacheControl = pre ++ of_string noCache ++ post) ∨
    (PeekHeader r httpheader.IfNoneMatch = [] ∧ PeekHeader r httpheader.IfMatch = []).
Proof.
  unfold skipped. rewrite !orb_true_iff, negb_true_iff, andb_false_iff, andb_true_iff.
  rewrite Z.leb_gt, Z.ltb_ge, !len_zero, Contains_spec. tauto.
Qed.

Lemma response_headers_set r (k v : string) :
  responseHeaders (SetResponseHeader r k v) = <[k := v]> (responseHeaders r).
Proof. reflexivity. Qed.

(** The requester and the result of a call that passes the guard. *)
Lemma HandleETag_unskipped r (maxAgeSeconds httpStatus : Z) body :
  skipped r httpStatus body = false →
  HandleETag r maxAgeSeconds httpStatus body =
    (let r1 := SetResponseHeader r httpheader.ETag (eTagValue body) in
     if negb (maxAgeSeconds =? 0)
     then SetResponseHeader r1 httpheader.CacheControl ("max-age=" ++ Itoa maxAgeSeconds)
     else r1,
     let fresh := isCacheFresh (PeekHeader r httpheader.IfNoneMatch)
                    (PeekHeader r httpheader.IfMatch) (of_string (eTagValue body)) in
     if fresh.2 then (fresh.1, []) else (httpStatus, body)).
Proof.
  intros Hs. unfold HandleETag. rewrite Hs. cbv zeta.
  by destruct (isCacheFresh _ _ _) as [st []].
Qed.

Lemma HandleETag_sets_ETag r (maxAgeSeconds httpStatus : Z) body :
  skipped r httpStatus body = false →
  responseHeaders (HandleETag r maxAgeSeconds httpStatus body).1 !! httpheader.ETag
  = Some (eTagValue body).
Proof.
  intros Hs. rewrite (HandleETag_unskipped _ _ _ _ Hs). cbn [fst].
  destruct (negb (maxAgeSeconds =? 0)); rewrite !response_headers_set.
  - rewrite lookup_insert_ne by done. apply lookup_insert_eq.
  - apply lookup_insert_eq.
Qed.

End ETagFacts.

Import GoBytes ETag.

Example cachedETag_is_fingerprint :
  eTagValue Fixtures.uncachedResponse = Fixtures.cachedETag.
Proof. vm_compute. reflexivity. Qed.

(** C7. When the status is outside [200,300), or the body is empty, or the
    request's Cache-Control header contains "no-cache", or neither
    If-None-Match nor If-Match is present, [HandleETag] returns the status and
    the body it was given and leaves the requester as it was: neither the ETag
    nor the Cache-Control response header is set. *)
Theorem HandleETag_skip (r : Requester) (maxAgeSeconds httpStatus : Z) (body : bytes) :
  (httpStatus < 200 ∨ 300 ≤ httpStatus) ∨
  body = [] ∨
  (∃ pre post, PeekHeader r httpheader.CacheControl = pre ++ of_string "no-cache" ++ post) ∨
  (PeekHeader r httpheader.IfNoneMatch = [] ∧ PeekHeader r httpheader.IfMatch = []) →
  HandleETag r maxAgeSeconds httpStatus body = (r, (httpStatus, body)) ∧
  responseHeaders (HandleETag r maxAgeSeconds httpStatus body).1 = responseHeaders r.
Proof.
  intros H. apply skipped_true in H.
  unfold HandleETag. by rewrite H.
Qed.

Lemma HandleETag_skip_witness :
  let r := Fixtures.request [("If-None-Match", Fixtures.cachedETag); ("Cache-Control", "no-cache")] in
  HandleETag r 300 200 Fixtures.uncachedResponse = (r, (200, Fixtures.uncachedResponse)) ∧
  responseHeaders (HandleETag r 300 200 Fixtures.uncachedResponse).1 = responseHeaders r.
Proof.
  intros r. apply (HandleETag_skip r 300 200 Fixtures.uncachedResponse).
  right. right. left. exists [], []. vm_compute. reflexivity.
Defined.

(** C6. If-None-Match, when the call is not skipped: whatever If-Match holds,
    the tokens are the comma-separated fields of If-None-Match, each trimmed;
    the ETag response header is set to the fingerprint; a token equal to "*"
    or to the fingerprint gives (304, empty body); with no such token the
    given status and body are returned. *)
Theorem HandleETag_if_none_match (r : Requester) (maxAgeSeconds httpStatus : Z) (body : bytes) :
  skipped r httpStatus body = false →
  PeekHeader r httpheader.IfNoneMatch ≠ [] →
  let tokens := List.map TrimSpace (Split (PeekHeader r httpheader.IfNoneMatch) ","%byte) in
  let fingerprint := of_string (eTagValue body) in
  let out := HandleETag r maxAgeSeconds httpStatus body in
  responseHeaders out.1 !! httpheader.ETag = Some (eTagValue body) ∧
  ((∃ t, t ∈ tokens ∧ (t = of_string "*" ∨ t = fingerprint)) → out.2 = (304, [])) ∧
  ((∀ t, t ∈ tokens → t ≠ of_string "*" ∧ t ≠ fingerprint) → out.2 = (httpStatus, body)).
Proof.
  intros Hs Hinm tokens fingerprint out.
  split; [by apply HandleETag_sets_ETag |].
  subst out. rewrite (HandleETag_unskipped _ _ _ _ Hs). cbn [snd].
  unfold isCacheFresh.
  destruct (len (PeekHeader r httpheader.IfNoneMatch) =? 0) eqn:E;
    [by apply len_zero in E |].
  cbn [negb fst snd].
  change (checkEtagNoneMatch _ _) with (checkEtagNoneMatch tokens fingerprint). split.
  - intros H. apply checkEtagNoneMatch_true in H. by rewrite H.
  - intros H. destruct (checkEtagNoneMatch tokens fingerprint) eqn:C; [| done].
    apply checkEtagNoneMatch_true in C as [t [Ht C]]. destruct (H t Ht). by destruct C.
Qed.

Lemma HandleETag_if_none_match_witness :
  let r := Fixtures.request [("If-None-Match", "uncached , *"); ("If-Match", "uncached")] in
  let out := HandleETag r 300 200 Fixtures.uncachedResponse in
  responseHeaders out.1 !! httpheader.ETag = Some Fixtures.cachedETag ∧ out.2 = (304, []).
Proof.
  intros r out.
  destruct (HandleETag_if_none_match r 300 200 Fixtures.uncachedResponse) as [H1 [H2 _]].
  - vm_compute. reflexivity.
  - vm_compute. discriminate.
  - split; [exact H1 |]. apply H2. exists (of_string "*").
    split; [vm_compute; apply elem_of_cons; right; apply elem_of_cons; by left | by left].
Defined.

(** C3, as the code has it. If-Match, when the call is not skipped and
    If-None-Match is absent: the tokens are the comma-separated fields of
    If-Match, each trimmed; the ETag response header is set; the result is
    (412, empty body) exactly when no token equals the fingerprint and no
    token equals "*"; a token "*" satisfies the precondition like the
    fingerprint does, and the given status and body are returned. *)
Theorem HandleETag_if_match (r : Requester) (maxAgeSeconds httpStatus : Z) (body : bytes) :
  skipped r httpStatus body = false →
  PeekHeader r httpheader.IfNoneMatch = [] →
  let tokens := List.map TrimSpace (Split (PeekHeader r httpheader.IfMatch) ","%byte) in
  let fingerprint := of_string (eTagValue body) in
  let out := HandleETag r maxAgeSeconds httpStatus body in
  PeekHeader r httpheader.IfMatch ≠ [] ∧
  responseHeaders out.1 !! httpheader.ETag = Some (eTagValue body) ∧
  ((∀ t, t ∈ tokens → t ≠ of_string "*" ∧ t ≠ fingerprint) → out.2 = (412, [])) ∧
  ((∃ t, t ∈ tokens ∧ (t = of_string "*" ∨ t = fingerprint)) → out.2 = (httpStatus, body)).
Proof.
  intros Hs Hinm tokens fingerprint out.
  split.
  { intros Him. assert (skipped r httpStatus body = true) as Hs'; [| congruence].
    apply skipped_true. by repeat right. }
  split; [by apply HandleETag_sets_ETag |].
  subst out. rewrite (HandleETag_unskipped _ _ _ _ Hs). cbn [snd].
  unfold isCacheFresh. rewrite Hinm. cbn [len length Z.of_nat Z.eqb negb fst snd].
  change (checkEtagMatch _ _) with (checkEtagMatch tokens fingerprint). split.
  - intros H. apply checkEtagMatch_true in H. by rewrite H.
  - intros H. apply checkEtagMatch_false in H. by rewrite H.
Qed.

Lemma HandleETag_if_match_witness :
  let r := Fixtures.request [("If-Match", Fixtures.uncachedETag)] in
  (HandleETag r 0 200 Fixtures.uncachedResponse).2 = (412, []).
Proof.
  intros r.
  destruct (HandleETag_if_match r 0 200 Fixtures.uncachedResponse) as [_ [_ [H _]]].
  - vm_compute. reflexivity.
  - vm_compute. reflexivity.
  - apply H. intros t Ht. vm_compute in Ht.
    apply list_elem_of_singleton in Ht. subst t. split; discriminate.
Defined.

(** C3, as the claim has it, fails: with If-Match: "*" no token equals the
    fingerprint and a token is "*", yet the result is the given (200, body),
    not (412, empty body). *)
Lemma HandleETag_if_match_star :
  let r := Fixtures.request [("If-Match", "*")] in
  skipped r 200 Fixtures.uncachedResponse = false ∧
  PeekHeader r httpheader.IfNoneMatch = [] ∧
  List.map TrimSpace (Split (PeekHeader r httpheader.IfMatch) ","%byte) = [of_string "*"] ∧
  of_string "*" ≠ of_string (eTagValue Fixtures.uncachedResponse) ∧
  (HandleETag r 0 200 Fixtures.uncachedResponse).2 = (200, Fixtures.uncachedResponse) ∧
  (HandleETag r 0 200 Fixtures.uncachedResponse).2 ≠ (412, []).
Proof. vm_compute. repeat split; discriminate. Qed.

(** C8, as the code has it. The fingerprint written to the ETag header is the
    decimal byte length of the body, a hyphen, and the hex-encoded SHA-256
    digest of the body; it depends on the body alone, so two calls on the same
    body set the same fingerprint whatever the requester, the status and the
    max-age are. *)
Theorem ETag_fingerprint (r1 r2 : Requester) (maxAge1 maxAge2 status1 status2 : Z) (body : bytes) :
  skipped r1 status1 body = false →
  skipped r2 status2 body = false →
  responseHeaders (HandleETag r1 maxAge1 status1 body).1 !! httpheader.ETag
  = Some (Itoa (len body) ++ "-" ++ Hex.EncodeToString (Sha256.Sum256 body))%string ∧
  responseHeaders (HandleETag r1 maxAge1 status1 body).1 !! httpheader.ETag
  = responseHeaders (HandleETag r2 maxAge2 status2 body).1 !! httpheader.ETag.
Proof.
  intros H1 H2. by rewrite !HandleETag_sets_ETag.
Qed.

Lemma ETag_fingerprint_witness :
  let r1 := Fixtures.request [("If-None-Match", Fixtures.uncachedETag)] in
  let r2 := Fixtures.request [("If-Match", Fixtures.cachedETag)] in
  responseHeaders (HandleETag r1 0 200 Fixtures.uncachedResponse).1 !! httpheader.ETag
  = Some (Itoa 19 ++ "-" ++ Hex.EncodeToString (Sha256.Sum256 Fixtures.uncachedResponse))%string ∧
  responseHeaders (HandleETag r1 0 200 Fixtures.uncachedResponse).1 !! httpheader.ETag
  = responseHeaders (HandleETag r2 300 201 Fixtures.uncachedResponse).1 !! httpheader.ETag.
Proof.
  intros r1 r2.
  apply (ETag_fingerprint r1 r2 0 300 200 201 Fixtures.uncachedResponse);
    vm_compute; reflexivity.
Defined.

(** C8, as the claim has it, fails: the fingerprint of "abc" is not its
    length followed directly by the digest; a hyphen stands between them. *)
Lemma ETag_fingerprint_has_separator :
  let r := Fixtures.request [("If-None-Match", "x")] in
  let body := of_string "abc" in
  responseHeaders (HandleETag r 0 200 body).1 !! httpheader.ETag
  = Some "3-ba7816bf8f01cfea414140de5dae2223b00361a396177a9cb410ff61f20015ad"%string ∧
  (Itoa (len body) ++ Hex.EncodeToString (Sha256.Sum256 body))%string
  = "3ba7816bf8f01cfea414140de5dae2223b00361a396177a9cb410ff61f20015ad"%string ∧
  responseHeaders (HandleETag r 0 200 body).1 !! httpheader.ETag
  ≠ Some (Itoa (len body) ++ Hex.EncodeToString (Sha256.Sum256 body))%string.
Proof. vm_compute. repeat split. discriminate. Qed.

(** C9, as the code has it. When the call is not skipped the ETag response
    header is set to the fingerprint; the Cache-Control response header is set
    to "max-age=N" exactly when the configured max-age N is not zero, negative
    values included, and is left as it was when N is zero. *)
Theorem HandleETag_response_headers (r : Requester) (maxAgeSeconds httpStatus : Z) (body : bytes) :
  skipped r httpStatus body = false →
  let r' := (HandleETag r maxAgeSeconds httpStatus body).1 in
  responseHeaders r' !! httpheader.ETag = Some (eTagValue body) ∧
  (maxAgeSeconds ≠ 0 →
   responseHeaders r' !! httpheader.CacheControl = Some ("max-age=" ++ Itoa maxAgeSeconds)%string) ∧
  (maxAgeSeconds = 0 →
   responseHeaders r' !! httpheader.CacheControl = responseHeaders r !! httpheader.CacheControl).
Proof.
  intros Hs r'. split; [by apply HandleETag_sets_ETag |].
  subst r'. rewrite (HandleETag_unskipped _ _ _ _ Hs). cbn [fst].
  split; intros Hn.
  - apply Z.eqb_neq in Hn. rewrite Hn. cbn [negb].
    rewrite response_headers_set. apply lookup_insert_eq.
  - subst maxAgeSeconds. cbn [Z.eqb negb].
    rewrite response_headers_set. by rewrite lookup_insert_ne.
Qed.

Lemma HandleETag_response_headers_witness :
  let r := Fixtures.request [("If-None-Match", Fixtures.cachedETag)] in
  let r' := (HandleETag r 300 200 Fixtures.uncachedResponse).1 in
  responseHeaders r' !! httpheader.ETag = Some Fixtures.cachedETag ∧
  responseHeaders r' !! httpheader.CacheControl = Some "max-age=300"%string.
Proof.
  intros r r'.
  destruct (HandleETag_response_headers r 300 200 Fixtures.uncachedResponse) as [H1 [H2 _]].
  - vm_compute. reflexivity.
  - split; [exact H1 | apply H2; discriminate].
Defined.

(** C9, as the claim has it, fails: the configured max-age -1 is not
    positive, and the Cache-Control response header is set all the same. *)
Lemma HandleETag_negative_max_age :
  let r := Fixtures.request [("If-None-Match", Fixtures.cachedETag)] in
  skipped r 200 Fixtures.uncachedResponse = false ∧
  ¬ (0 < -1) ∧
  responseHeaders r !! httpheader.CacheControl = None ∧
  responseHeaders (HandleETag r (-1) 200 Fixtures.uncachedResponse).1 !! httpheader.CacheControl
  = Some "max-age=-1"%string.
Proof. vm_compute. repeat split. discriminate. Qed.


(** ** Executions: invariants *)

Section Invariants.
Context {any : Type}.
Implicit Types (s : ExecState any) (I : ExecState any → Prop).

Lemma bind_run {A B} (m : M any A) (k : A → M any B) s :
  bind m k s =
  match m s with
  | (Continue a, s') => k a s'
  | (Returned r, s') => (Returned r, s')
  | (Panicked p, s') => (Panicked p, s')
  end.
Proof. reflexivity. Qed.

Lemma bind_bind_run {A B C} (m : M any A) (k : A → M any B) (k' : B → M any C) s :
  bind (bind m k) k' s =
  match m s with
  | (Continue a, s') => bind (k a) k' s'
  | (Returned r, s') => (Returned r, s')
  | (Panicked p, s') => (Panicked p, s')
  end.
Proof. unfold bind. by destruct (m s) as [[a|r|p] s']. Qed.

Lemma preserves_ret {A} I (a : A) : preserves I (ret a).
Proof. by intros s. Qed.

Lemma preserves_Return {A} I r : preserves I (@Return any A r).
Proof. by intros s. Qed.

Lemma preserves_panic {A} I p : preserves I (@panic any A p).
Proof. by intros s. Qed.

Lemma preserves_bind {A B} I (m : M any A) (k : A → M any B) :
  preserves I m → (∀ a, preserves I (k a)) → preserves I (bind m k).
Proof.
  intros Hm Hk s Hs. rewrite bind_run. specialize (Hm s Hs).
  destruct (m s) as [[a|r|p] s']; simpl in *; [by apply Hk | done | done].
Qed.

Lemma preserves_exit {A} I (m : M any (Z * bytes)) :
  preserves I m → preserves I (@exit any A m).
Proof. intros Hm. apply preserves_bind; [done | intros; apply preserves_Return]. Qed.

Lemma preserves_getRequester I : preserves I getRequester.
Proof. by intros s. Qed.

Lemma preserves_getResponseMimeType I : preserves I getResponseMimeType.
Proof. by intros s. Qed.

Lemma preserves_call {A} I ev (r : result any A) :
  (∀ s, I s → I (mkExecState (requester s) (responseMimeType s) (ev :: trace s))) →
  preserves I (call ev r).
Proof. intros H s Hs. by apply H. Qed.

Lemma preserves_setRequester I r :
  (∀ s, I s → I (mkExecState r (responseMimeType s) (trace s))) →
  preserves I (setRequester r).
Proof. intros H s Hs. by apply H. Qed.

Lemma preserves_setResponseMimeType I h :
  (∀ s, I s → I (mkExecState (requester s) h (trace s))) →
  preserves I (setResponseMimeType h).
Proof. intros H s Hs. by apply H. Qed.

Lemma preserves_setContentType I mime :
  (∀ s, I s → I (mkExecState (SetResponseContentType (requester s) mime)
                   (responseMimeType s) (trace s))) →
  preserves I (setContentType mime).
Proof. intros H s Hs. by apply H. Qed.

(** [never E] only looks at the trace. *)
Lemma never_call (E : Event any → Prop) ev s :
  ¬ E ev → never E s →
  never E (mkExecState (requester s) (responseMimeType s) (ev :: trace s)).
Proof.
  intros Hev Hs ev' [-> | Hin]%elem_of_cons; [done | by apply Hs].
Qed.

Lemma never_same_trace (E : Event any → Prop) s s' :
  trace s' = trace s → never E s → never E s'.
Proof. intros Ht Hs ev. rewrite Ht. apply Hs. Qed.

Lemma never_nil (E : Event any → Prop) r h : never E (mkExecState r h []).
Proof. intros ev Hin. by apply not_elem_of_nil in Hin. Qed.

End Invariants.

(** One step of an invariance proof: a rule for the head of the computation,
    or a case analysis on what it branches on; [side] closes the obligations
    about the state. *)
Ltac preserves_step side :=
  lazymatch goal with
  | |- preserves _ (bind getResponseMimeType _) => side
  | |- preserves _ (bind (FastHttpEndpoint.fail _ _ _) _) => side
  | |- preserves _ (bind _ _) => apply preserves_bind; [| intros ?]
  | |- preserves _ (ret _) => apply preserves_ret
  | |- preserves _ (Return _) => apply preserves_Return
  | |- preserves _ (panic _) => apply preserves_panic
  | |- preserves _ (exit _) => apply preserves_exit
  | |- preserves _ getRequester => apply preserves_getRequester
  | |- preserves _ (call _ _) => apply preserves_call; side
  | |- preserves _ (setRequester _) => apply preserves_setRequester; side
  | |- preserves _ (setResponseMimeType _) => apply preserves_setResponseMimeType; side
  | |- preserves _ (setContentType _) => apply preserves_setContentType; side
  | |- preserves _ (match ?x with _ => _ end) =>
      tryif progress cbv beta iota then idtac else destruct x
  | |- preserves _ _ => tryif progress cbv beta iota then idtac else side
  end.

(** ** The executor on a [Requester] *)

Section RequesterEndpoint.
Import Endpoint.
Context {any : Type} `{!Runtime any}.
Implicit Types (self : Endpoint any) (ctx : Context) (s : ExecState any).

Lemma handleETag_never {A} (E : Event any → Prop) maxAgeSeconds httpStatus responseBody :
  preserves (never E) (@handleETag any A maxAgeSeconds httpStatus responseBody).
Proof.
  intros s Hs. unfold handleETag. by destruct (ETag.HandleETag _ _ _ _) as [r' out].
Qed.

(** Obligations of [never E] for a class [E] given by a list of events. *)
Local Ltac never_side :=
  first
    [ intros ? ?;
      first [ apply never_call; [unfold fromHandleOn, afterHandle; intuition discriminate | assumption]
            | eapply never_same_trace; [| eassumption]; reflexivity ]
    | apply preserves_bind; [apply preserves_getResponseMimeType | intros ?]
    | apply handleETag_never
    | auto ].

Lemma processErrorResponse_never (E : Event any → Prop) self mime httpStatus err :
  (∀ st e, ¬ E (EvHandleError st e)) → ¬ E EvMarshalError →
  preserves (never E) (processErrorResponse self mime httpStatus err).
Proof.
  intros H1 H2. unfold processErrorResponse.
  repeat preserves_step
    ltac:(intros ? ?; first [ by apply never_call; auto
                            | by (eapply never_same_trace; [| eassumption]) ]).
Qed.

Lemma fail_never {A} (E : Event any → Prop) self httpStatus err :
  (∀ st e, ¬ E (EvHandleError st e)) → ¬ E EvMarshalError →
  preserves (never E) (@fail any _ A self httpStatus err).
Proof.
  intros H1 H2 s Hs. unfold fail.
  by apply (preserves_exit _ (processErrorResponse self (responseMimeType s) httpStatus err));
    [apply processErrorResponse_never |].
Qed.

Lemma fail_never_fromHandleOn {A} self httpStatus err :
  preserves (never fromHandleOn) (@fail any _ A self httpStatus err).
Proof. apply fail_never; unfold fromHandleOn, afterHandle; intuition discriminate. Qed.

Lemma fail_never_afterHandle {A} self httpStatus err :
  preserves (never afterHandle) (@fail any _ A self httpStatus err).
Proof. apply fail_never; unfold afterHandle; intuition discriminate. Qed.

#[local] Hint Resolve fail_never_fromHandleOn fail_never_afterHandle : core.

Lemma beforeHandle_never (E : Event any → Prop) self :
  E = fromHandleOn ∨ E = afterHandle →
  preserves (never E) (beforeHandle self).
Proof.
  intros [-> | ->];
    unfold beforeHandle, negotiation, binding, setupMimeTypes, allocation, authorization,
      processRequestBody, setHandlerRequestBody;
    repeat preserves_step never_side.
Qed.

Lemma fromHandle_never_expired self ctx handlerAlloc :
  ShouldContinue ctx BeforeHandle = false →
  preserves (never fromHandleOn) (fromHandle self ctx handlerAlloc).
Proof.
  intros Hpoll. unfold fromHandle. rewrite Hpoll. cbn [negb]. auto.
Qed.

Lemma fromHandle_never_afterHandle self ctx handlerAlloc :
  ShouldContinue ctx AfterHandle = false →
  preserves (never afterHandle) (fromHandle self ctx handlerAlloc).
Proof.
  intros Hpoll. unfold fromHandle. rewrite Hpoll. cbn [negb].
  repeat preserves_step never_side.
Qed.

Lemma preserves_pipeline I self ctx :
  preserves I (beforeHandle self) →
  (∀ handlerAlloc, preserves I (fromHandle self ctx handlerAlloc)) →
  preserves I (pipeline self ctx).
Proof. intros. by apply preserves_bind. Qed.

Lemma recovery_never (E : Event any → Prop) self payload s :
  (∀ st e, ¬ E (EvHandleError st e)) → ¬ E EvMarshalError →
  never E s → never E (recovery self payload s).2.
Proof.
  intros H1 H2 Hs. unfold recovery.
  pose proof (processErrorResponse_never E self (responseMimeType s)
                httpstatus.InternalServerError
                (Some (Wrap (Some (Recover payload)) ErrInternalServerError)) H1 H2 s Hs) as H.
  by destruct (processErrorResponse _ _ _ _ s) as [[out|out|p] s'].
Qed.

Lemma Execute_never (E : Event any → Prop) self ctx r :
  (∀ st e, ¬ E (EvHandleError st e)) → ¬ E EvMarshalError →
  preserves (never E) (pipeline self ctx) →
  never E (Execute self ctx r).2.
Proof.
  intros H1 H2 Hp. unfold Execute, withRecover.
  specialize (Hp (mkExecState r None []) (never_nil E r None)).
  destruct (pipeline self ctx _) as [[out|out|p] s]; simpl in *; [done | done |].
  by apply recovery_never.
Qed.


(** *** Negotiation *)

Lemma fail_run {A} self httpStatus err s :
  @fail any _ A self httpStatus err s =
  match processErrorResponse self (responseMimeType s) httpStatus err s with
  | (Continue out, s') | (Returned out, s') => (Returned out, s')
  | (Panicked p, s') => (Panicked p, s')
  end.
Proof.
  unfold fail, exit. rewrite bind_run.
  by destruct (processErrorResponse _ _ _ _ s) as [[out|out|p] s'].
Qed.

(** Before a codec is negotiated the error responder answers in plain
    text with the status it is given. *)
Lemma fail_plain {A} self httpStatus err s :
  responseMimeType s = None →
  @fail any _ A self httpStatus err s =
  (Returned (httpStatus, Sprintf "%v" err),
   mkExecState (SetResponseContentType (requester s) mimeTypeTextPlain) None (trace s)).
Proof. intros H. rewrite fail_run. destruct s as [r m t]. simpl in H. by subst m. Qed.

(** The two ways the negotiation ends: 415 in plain text, or the codec
    for the Accept header is resolved and the response content type set. *)
Lemma setupMimeTypes_run self s :
  responseMimeType s = None →
  let accept := Accept (requester s) in
  let found := Get (registry self) accept (responseMimeTypes (handlerData self)) in
  (∃ body,
     (accept = [] ∨ found = None ∨ ¬ requestTypeAccepted self (requester s)) ∧
     setupMimeTypes self s =
     (Returned (415, body),
      mkExecState (SetResponseContentType (requester s) mimeTypeTextPlain) None (trace s))) ∨
  (∃ requestMimeType mime,
     accept ≠ [] ∧ found = Some mime ∧ requestTypeAccepted self (requester s) ∧
     setupMimeTypes self s =
     (Continue requestMimeType,
      mkExecState (SetResponseContentType (requester s) (MimeType mime)) (Some mime) (trace s))).
Proof.
  intros Hnone accept found. subst accept found.
  unfold setupMimeTypes, requestTypeAccepted, registry.
  set (handlers := default ∅ (MimeTypeHandlers (config self))).
  destruct s as [r m t]. simpl in Hnone. subst m. cbn [requester].
  rewrite bind_run. cbn [getRequester requester].
  destruct (hasRequestBody (handlerData self)) eqn:Hreq.
  - destruct (GoBytes.len (ContentType r) =? 0) eqn:Hct.
    { left. eexists. split; [| by rewrite bind_run, fail_plain].
      right. right. apply len_zero in Hct. intros [? | [? ?]]; congruence. }
    destruct (Get handlers (ContentType r) _) as [rm|] eqn:Hrm.
    2:{ left. eexists. split; [| by rewrite bind_run, fail_plain].
        right. right. intros [? | [? [? ?]]]; congruence. }
    assert (ContentType r ≠ []) as Hne.
    { intros Hz. apply len_zero in Hz. congruence. }
    rewrite bind_run. cbn [ret].
    destruct (GoBytes.len (Accept r) =? 0) eqn:Hacc.
    { left. eexists. split; [| by rewrite fail_plain].
      left. by apply len_zero. }
    assert (Accept r ≠ []) as Hane.
    { intros Hz. apply len_zero in Hz. congruence. }
    destruct (Get handlers (Accept r) _) as [mime|] eqn:Hmime.
    + right. exists (Some rm), mime.
      split; [done |]. split; [done |]. split; [| reflexivity].
      right. split; [done | by eexists].
    + left. eexists. split; [by right; left |].
      rewrite bind_run. cbn [setResponseMimeType]. by rewrite fail_plain.
  - rewrite bind_run. cbn [ret].
    destruct (GoBytes.len (Accept r) =? 0) eqn:Hacc.
    { left. eexists. split; [| by rewrite fail_plain].
      left. by apply len_zero. }
    assert (Accept r ≠ []) as Hane.
    { intros Hz. apply len_zero in Hz. congruence. }
    destruct (Get handlers (Accept r) _) as [mime|] eqn:Hmime.
    + right. exists None, mime.
      split; [done |]. split; [done |]. split; [by left | reflexivity].
    + left. eexists. split; [by right; left |].
      rewrite bind_run. cbn [setResponseMimeType]. by rewrite fail_plain.
Qed.


(** *** After the negotiation *)

Section Typed.
Variables (self : Endpoint any) (mime : MimeTypeHandler any) (P : option string → Prop).
Hypothesis P_negotiated : P (Some (MimeType mime)).
Hypothesis P_fallback : P (Some mimeTypeTextPlain) ∨ encodesErrors self mime.

Lemma processErrorResponse_typed httpStatus err :
  preserves (typed mime P) (processErrorResponse self (Some mime) httpStatus err).
Proof.
  intros s [Hm HP]. unfold processErrorResponse.
  destruct (ErrorHandler (config self)) as [h|] eqn:Hh; [| done].
  rewrite bind_run. cbn [call].
  destruct (HandleError h httpStatus err) as [[st' x]|p] eqn:Hhe; [| done].
  rewrite bind_run. cbn [call].
  destruct (Marshal mime x) as [[b [e|]]|p] eqn:Hma; [| done | done].
  destruct P_fallback as [Hplain | Henc]; [done |].
  by destruct (Henc _ _ _ _ _ _ _ Hh Hhe Hma).
Qed.

Lemma fail_typed {A} httpStatus err :
  preserves (typed mime P) (@fail any _ A self httpStatus err).
Proof.
  intros s Hs. unfold fail. rewrite (proj1 Hs).
  by apply (preserves_exit _ (processErrorResponse self (Some mime) httpStatus err));
    [apply processErrorResponse_typed |].
Qed.

Lemma bind_getResponseMimeType_typed {B} (k : option (MimeTypeHandler any) → M any B) :
  preserves (typed mime P) (k (Some mime)) →
  preserves (typed mime P) (bind getResponseMimeType k).
Proof.
  intros Hk s Hs. rewrite bind_run. cbn [getResponseMimeType].
  rewrite (proj1 Hs). by apply Hk.
Qed.

Lemma HandleETag_content_type r maxAgeSeconds httpStatus body :
  responseContentType (ETag.HandleETag r maxAgeSeconds httpStatus body).1
  = responseContentType r.
Proof.
  unfold ETag.HandleETag. destruct (ETag.skipped r httpStatus body); [done |].
  cbv zeta. destruct (ETag.isCacheFresh _ _ _) as [st []];
    by destruct (negb (maxAgeSeconds =? 0)).
Qed.

Lemma handleETag_typed {A} maxAgeSeconds httpStatus body :
  preserves (typed mime P) (@handleETag any A maxAgeSeconds httpStatus body).
Proof.
  intros s [Hm HP]. unfold handleETag.
  pose proof (HandleETag_content_type (requester s) maxAgeSeconds httpStatus body) as Hct.
  destruct (ETag.HandleETag _ _ _ _) as [r' out]. split; [done |].
  simpl in *. by rewrite Hct.
Qed.

Local Ltac typed_side :=
  first
    [ apply fail_typed
    | apply bind_getResponseMimeType_typed
    | apply handleETag_typed
    | intros ? [? ?]; split; [assumption | cbn; first [assumption | exact P_negotiated]] ].

Lemma binding_typed requestMimeType :
  preserves (typed mime P) (binding self requestMimeType).
Proof.
  unfold binding, allocation, authorization, processRequestBody, setHandlerRequestBody.
  repeat preserves_step typed_side.
Qed.

Lemma fromHandle_typed ctx handlerAlloc :
  preserves (typed mime P) (fromHandle self ctx handlerAlloc).
Proof.
  unfold fromHandle, processResponseBody, getHandlerResponseBody.
  repeat preserves_step typed_side.
Qed.

Lemma recovery_typed payload s :
  typed mime P s → typed mime P (recovery self payload s).2.
Proof.
  intros Hs. unfold recovery. rewrite (proj1 Hs).
  pose proof (processErrorResponse_typed httpstatus.InternalServerError
                (Some (Wrap (Some (Recover payload)) ErrInternalServerError)) s Hs) as H.
  by destruct (processErrorResponse _ _ _ _ s) as [[out|out|p] s'].
Qed.

(** From a state where the codec is negotiated to the end of [Execute]. *)
Lemma afterNegotiation_typed ctx requestMimeType s :
  typed mime P s →
  typed mime P
    (withRecover self (bind (binding self requestMimeType) (fromHandle self ctx) s)).2.
Proof.
  intros Hs.
  assert (preserves (typed mime P) (bind (binding self requestMimeType) (fromHandle self ctx)))
    as Hp.
  { apply preserves_bind; [apply binding_typed | intros; apply fromHandle_typed]. }
  specialize (Hp s Hs). unfold withRecover.
  destruct (bind _ _ s) as [[out|out|p] s']; simpl in *; [done | done |].
  by apply recovery_typed.
Qed.

End Typed.

(** *** [Execute], phase by phase *)

Lemma Execute_run self ctx r :
  Execute self ctx r =
  withRecover self
    match setupMimeTypes self (started r) with
    | (Continue requestMimeType, s) =>
        bind (binding self requestMimeType) (fromHandle self ctx) s
    | (Returned out, s) => (Returned out, s)
    | (Panicked p, s) => (Panicked p, s)
    end.
Proof.
  unfold Execute, pipeline, beforeHandle, negotiation.
  rewrite bind_bind_run, !bind_run. reflexivity.
Qed.

Lemma beforeHandle_run self r :
  beforeHandle self (mkExecState r None []) =
  match setupMimeTypes self (started r) with
  | (Continue requestMimeType, s) => binding self requestMimeType s
  | (Returned out, s) => (Returned out, s)
  | (Panicked p, s) => (Panicked p, s)
  end.
Proof. unfold beforeHandle, negotiation. rewrite !bind_run. reflexivity. Qed.

(** A request that reaches the handler has its response codec negotiated. *)
Lemma beforeHandle_negotiated self r handlerAlloc s :
  beforeHandle self (mkExecState r None []) = (Continue handlerAlloc, s) →
  ∃ mime,
    Get (registry self) (Accept r) (responseMimeTypes (handlerData self)) = Some mime ∧
    responseMimeType s = Some mime.
Proof.
  rewrite beforeHandle_run.
  destruct (setupMimeTypes_run self (started r) eq_refl)
    as [[body [_ ->]] | [rm [mime [_ [Hfound [_ ->]]]]]]; [done |].
  intros Hb. exists mime. split; [exact Hfound |].
  assert (preserves (typed mime (λ _, True)) (binding self rm)) as Hp
    by (apply binding_typed; auto).
  match type of Hb with binding _ _ ?s1 = _ => specialize (Hp s1) end.
  rewrite Hb in Hp. by apply Hp.
Qed.

(** C5, as the code has it. When the context is expired at the poll ahead
    of the handler, [Handle] is never called, nor is any later phase; a
    request that reaches that poll gets what the error responder makes of
    (408, request timeout), whose status is 408 when the error handler keeps
    the status and the codec encodes its payload. When the context is
    expired at the poll after the handler no later phase is called, and a
    request that reaches that poll gets the timeout response as well. *)
Theorem Execute_timeout self ctx r :
  let out := Execute self ctx r in
  let timeout s := withRecover self (fail self 408 (Some ErrRequestTimeout) s) in
  (ShouldContinue ctx BeforeHandle = false →
     ((EvHandle ∉ trace out.2) ∧ (EvMarshal ∉ trace out.2) ∧
      (EvValidateResponse ∉ trace out.2)) ∧
     ∀ handlerAlloc s,
       beforeHandle self (mkExecState r None []) = (Continue handlerAlloc, s) →
       out = timeout s ∧
       ∃ mime,
         Get (registry self) (Accept r) (responseMimeTypes (handlerData self)) = Some mime ∧
         ∀ h errStruct body,
           ErrorHandler (config self) = Some h →
           HandleError h 408 (Some ErrRequestTimeout) = Done (408, errStruct) →
           Marshal mime errStruct = Done (body, None) →
           out.1 = Done (408, body)) ∧
  (ShouldContinue ctx AfterHandle = false →
     ((EvMarshal ∉ trace out.2) ∧ (EvValidateResponse ∉ trace out.2)) ∧
     ∀ handlerAlloc s httpStatus,
       beforeHandle self (mkExecState r None []) = (Continue handlerAlloc, s) →
       ShouldContinue ctx BeforeHandle = true →
       Handle (handler handlerAlloc) = Done (httpStatus, None) →
       out = timeout (mkExecState (requester s) (responseMimeType s) (EvHandle :: trace s))).
Proof.
  intros out timeout. subst out timeout. split.
  - intros Hpoll. split.
    + assert (never fromHandleOn (Execute self ctx r).2) as Hn.
      { apply Execute_never;
          [unfold fromHandleOn, afterHandle; intuition discriminate
          |unfold fromHandleOn, afterHandle; intuition discriminate |].
        apply preserves_pipeline; [apply beforeHandle_never; by left |].
        intros. by apply fromHandle_never_expired. }
      unfold never, fromHandleOn, afterHandle in Hn.
      repeat split; intros Hin; apply (Hn _ Hin); auto.
    + intros handlerAlloc s Hb.
      assert (Execute self ctx r
              = withRecover self (fail self 408 (Some ErrRequestTimeout) s)) as Hout.
      { unfold Execute, pipeline. rewrite bind_run, Hb.
        unfold fromHandle. by rewrite Hpoll. }
      split; [exact Hout |].
      destruct (beforeHandle_negotiated _ _ _ _ Hb) as [mime [Hfound Hmime]].
      exists mime. split; [exact Hfound |].
      intros h errStruct body Hh Hhe Hma. rewrite Hout, fail_run, Hmime.
      unfold processErrorResponse. rewrite Hh, bind_run.
      change httpstatus.RequestTimeout with 408. cbn [call]. rewrite Hhe.
      rewrite bind_run. cbn [call]. by rewrite Hma.
  - intros Hpoll. split.
    + assert (never afterHandle (Execute self ctx r).2) as Hn.
      { apply Execute_never;
          [unfold afterHandle; intuition discriminate
          |unfold afterHandle; intuition discriminate |].
        apply preserves_pipeline; [apply beforeHandle_never; by right |].
        intros. by apply fromHandle_never_afterHandle. }
      unfold never, afterHandle in Hn.
      repeat split; intros Hin; apply (Hn _ Hin); auto.
    + intros handlerAlloc s httpStatus Hb Hbefore Hh.
      unfold Execute, pipeline. rewrite bind_run, Hb.
      unfold fromHandle. rewrite Hbefore, Hpoll. cbn [negb].
      rewrite bind_run. cbn [call]. by rewrite Hh.
Qed.

(** Panics of the other collaborators stay inside: when the error handler
    and the negotiated codec do not panic, [Execute] returns a status and a
    body, whatever the handler, the validators, the binder or the
    authorizer do. *)
Lemma Execute_returns self ctx r h :
  ErrorHandler (config self) = Some h →
  (∀ httpStatus err p, HandleError h httpStatus err ≠ Panics p) →
  (∀ mime, Get (registry self) (Accept r) (responseMimeTypes (handlerData self)) = Some mime →
           ∀ x p, Marshal mime x ≠ Panics p) →
  ∃ httpStatus body, (Execute self ctx r).1 = Done (httpStatus, body).
Proof.
  intros Hh Hhandler Hcodec. rewrite Execute_run.
  destruct (setupMimeTypes_run self (started r) eq_refl)
    as [[body [_ ->]] | [rm [mime [_ [Hfound [_ ->]]]]]];
    cbn [started requester Accept SetResponseHeader] in *.
  { by exists 415, body. }
  set (s1 := mkExecState _ (Some mime) _).
  assert (preserves (typed mime (λ _, True))
            (bind (binding self rm) (fromHandle self ctx))) as Hp.
  { apply preserves_bind; [apply binding_typed | intros; apply fromHandle_typed]; auto. }
  specialize (Hp s1 (conj eq_refl I)).
  destruct (bind _ _ s1) as [[[st b]|[st b]|p] s]; [by exists st, b | by exists st, b |].
  destruct Hp as [Hm _]. cbn [withRecover]. unfold recovery. simpl in Hm. rewrite Hm.
  unfold processErrorResponse. rewrite Hh, bind_run. cbn [call].
  destruct (HandleError h _ _) as [[st x]|p'] eqn:Hhe; [| by destruct (Hhandler _ _ _ Hhe)].
  rewrite bind_run. cbn [call].
  destruct (Marshal mime x) as [[b [e|]]|p'] eqn:Hma;
    [by eexists _, _ | by eexists _, _ | by destruct (Hcodec _ Hfound _ _ Hma)].
Qed.

End RequesterEndpoint.

(** *** On the test endpoint *)

Section RequesterEndpointTests.
Import Endpoint TestEndpoint TestRequesterEndpoint.

Lemma myErrorHandler_encodes h :
  encodesErrors (createTestEndpoint myErrorHandler h) jsonHandler.
Proof.
  intros eh st e st' x b e' Heh Hhe. injection Heh as <-.
  injection Hhe as _ <-. discriminate.
Qed.

Lemma Execute_timeout_witness :
  let out := Execute (createTestEndpoint myErrorHandler okHandler) expired request in
  let out' := Execute (createTestEndpoint myErrorHandler okHandler) canceledByHandle request in
  ((EvHandle ∉ trace out.2) ∧ out.1 = Done (408, of_string "message:ErrRequestTimeout")) ∧
  ((EvMarshal ∉ trace out'.2) ∧ (EvValidateResponse ∉ trace out'.2)).
Proof.
  intros out out'. split.
  - destruct (Execute_timeout (createTestEndpoint myErrorHandler okHandler) expired request)
      as [H _].
    destruct H as [[Hnever _] Hreach]; [reflexivity |].
    split; [exact Hnever |].
    edestruct Hreach as [_ [mime [Hfound Hstatus]]]; [vm_compute; reflexivity |].
    assert (mime = jsonHandler) as ->.
    { vm_compute in Hfound. by injection Hfound. }
    eapply Hstatus; vm_compute; reflexivity.
  - destruct (Execute_timeout (createTestEndpoint myErrorHandler okHandler)
                canceledByHandle request) as [_ H].
    destruct H as [Hnever _]; [reflexivity | exact Hnever].
Defined.

(** C5, as the claim has it, fails: the request reaches the poll ahead of
    the handler with its deadline passed, the timeout payload does not
    encode, and [Execute] answers 500, not 408. *)
Lemma Execute_timeout_not_408 :
  let self := createTestEndpoint channelErrorHandler okHandler in
  let out := Execute self expired request in
  ShouldContinue expired BeforeHandle = false ∧
  (∃ handlerAlloc s, beforeHandle self (mkExecState request None []) = (Continue handlerAlloc, s)) ∧
  out.1 = Done (500, of_string "ErrInternalServerError: json: unsupported type: chan") ∧
  (∀ body, out.1 ≠ Done (408, body)).
Proof.
  vm_compute. split; [reflexivity |]. split; [by eexists _, _ |].
  split; [reflexivity | discriminate].
Qed.

End RequesterEndpointTests.

(** ** [NewEndpoint] *)

Section NewEndpointFacts.
Import Endpoint.
Context {any : Type} `{!Runtime any}.

Lemma copy_over_defaults (defaults custom : gmap string (MimeTypeHandler any)) :
  map_fold (λ mime handler mimeHandlers, <[mime := handler]> mimeHandlers) defaults custom
  = custom ∪ defaults.
Proof.
  apply (map_fold_weak_ind (λ r m, r = m ∪ defaults)).
  - by rewrite (left_id_L ∅ (∪)).
  - intros mime handler m r _ ->. by rewrite insert_union_l.
Qed.

Lemma Get_registered (handlers : gmap string (MimeTypeHandler any)) mime supported :
  mime ∈ supported →
  Get handlers (of_string mime) supported = handlers !! mime.
Proof.
  intros Hin. unfold Get, to_string, of_string.
  rewrite string_of_list_byte_of_string. by rewrite bool_decide_eq_true_2.
Qed.

(** C10. When the configuration carries a registry, the endpoint's registry
    is the default registry with the caller's entries copied on top: a mime
    type maps to the caller's codec if the caller has one, else to the
    default codec, so every default mime type stays registered, and is
    found by the negotiation for a handler that allows it. *)
Theorem NewEndpoint_registry (cfg : Config any) (handler : handlerTypeData any)
    (custom : gmap string (MimeTypeHandler any)) :
  MimeTypeHandlers cfg = Some custom →
  let handlers := registry (NewEndpoint cfg handler) in
  MimeTypeHandlers (config (NewEndpoint cfg handler)) = Some handlers ∧
  (∀ mime, handlers !! mime =
           match custom !! mime with
           | Some codec => Some codec
           | None => NewMimeTypeHandlers !! mime
           end) ∧
  (∀ mime, is_Some (NewMimeTypeHandlers !! mime) → is_Some (handlers !! mime)) ∧
  (∀ mime supported,
     is_Some (NewMimeTypeHandlers !! mime) → mime ∈ supported →
     is_Some (Get handlers (of_string mime) supported)).
Proof.
  intros Hcustom handlers.
  assert (MimeTypeHandlers (config (NewEndpoint cfg handler))
          = Some (custom ∪ NewMimeTypeHandlers)) as Hreg.
  { cbn. by rewrite Hcustom, copy_over_defaults. }
  assert (handlers = custom ∪ NewMimeTypeHandlers) as ->.
  { subst handlers. unfold registry. by rewrite Hreg. }
  assert (∀ mime, (custom ∪ NewMimeTypeHandlers) !! mime =
                  match custom !! mime with
                  | Some codec => Some codec
                  | None => NewMimeTypeHandlers !! mime
                  end) as Hlookup.
  { intros mime. rewrite lookup_union.
    by destruct (custom !! mime), (NewMimeTypeHandlers !! mime). }
  assert (∀ mime, is_Some (NewMimeTypeHandlers !! mime) →
                  is_Some ((custom ∪ NewMimeTypeHandlers) !! mime)) as Hkept.
  { intros mime Hd. rewrite Hlookup. by destruct (custom !! mime). }
  repeat split; [done | done | done |].
  intros mime supported Hd Hin. rewrite Get_registered by done. by apply Hkept.
Qed.

(** The fasthttp revision takes the caller's registry as it is. *)
Lemma FastHttp_NewEndpoint_registry (cfg : FastHttpEndpoint.Config any)
    (handler : FastHttpEndpoint.handlerTypeData any) custom :
  FastHttpEndpoint.MimeTypeHandlers cfg = Some custom →
  FastHttpEndpoint.MimeTypeHandlers
    (FastHttpEndpoint.config (FastHttpEndpoint.NewEndpoint cfg handler)) = Some custom.
Proof. intros H. cbn. by rewrite H. Qed.

End NewEndpointFacts.

Section NewEndpointTests.
Import Endpoint TestEndpoint TestRequesterEndpoint.

Lemma NewEndpoint_registry_witness :
  let self := NewEndpoint csvConfig (myEndpoint okHandler) in
  registry self !! "text/csv"%string = Some csvHandler ∧
  registry self !! "application/json"%string = Some jsonHandler ∧
  is_Some (Get (registry self) (of_string "application/json") ["application/json"%string]).
Proof.
  intros self.
  destruct (NewEndpoint_registry csvConfig (myEndpoint okHandler)
              {[ "text/csv"%string := csvHandler ]} eq_refl)
    as [_ [Hlookup [_ Hget]]].
  split; [| split].
  - rewrite Hlookup. vm_compute. reflexivity.
  - rewrite Hlookup. vm_compute. reflexivity.
  - apply Hget; [vm_compute; by eexists | apply elem_of_cons; by left].
Defined.

End NewEndpointTests.

(** ** Response validation *)

Section ResponseValidation.
Context {any : Type} `{!Runtime any}.

(** On a [Requester]: when the response validator runs and returns a
    failure, [Execute] returns what the error responder makes of the
    validator's status and failure. *)
Lemma processResponseBody_validation_failure (self : Endpoint.Endpoint any)
    (handlerAlloc : Endpoint.handlerAllocation any) (httpStatus : Z) (s s1 : ExecState any)
    (body : bytes) validator (status : Z) (failure : error any) :
  Endpoint.getHandlerResponseBody (responseMimeType s) (Endpoint.responseBody handlerAlloc) s
  = (Continue (body, None), s1) →
  Endpoint.ResponseValidator (Endpoint.config self) = Some validator →
  Endpoint.shouldValidateResponse (Endpoint.handlerData self) = true →
  ValidateResponse validator httpStatus body = Done (status, Some failure) →
  Endpoint.processResponseBody self handlerAlloc httpStatus s
  = Endpoint.fail self status (Some failure)
      (mkExecState (requester s1) (responseMimeType s1) (EvValidateResponse :: trace s1)).
Proof.
  intros Hbody Hv Hflag Hfail. unfold Endpoint.processResponseBody.
  rewrite bind_run. cbn [getResponseMimeType].
  rewrite bind_run, Hbody, Hv, Hflag.
  rewrite bind_bind_run. cbn [call]. rewrite Hfail.
  rewrite bind_run, !fail_run.
  by destruct (Endpoint.processErrorResponse _ _ _ _ _) as [[out|out|p] s'].
Qed.

(** On a fasthttp request context: the branch after the validator tests
    the error of [getHandlerResponseBody], which is nil there, so whatever
    the validator returns [Execute] goes on to the success return, with the
    validator's status and the encoded response body; the error responder
    is not called. *)
Lemma FastHttp_handleResponse_validation (self : FastHttpEndpoint.Endpoint any)
    (ctx : FastHttpEndpoint.Context) (handlerAlloc : FastHttpEndpoint.handlerAllocation any)
    (httpStatus : Z) (s s1 : ExecState any) (body : bytes) validator (status : Z)
    (failure : option (error any)) :
  FastHttpEndpoint.ShouldContinue ctx FastHttpEndpoint.BeforeResponse = true →
  FastHttpEndpoint.getHandlerResponseBody (responseMimeType s)
    (FastHttpEndpoint.responseBody handlerAlloc) s
  = (Continue (body, None), s1) →
  FastHttpEndpoint.ResponseValidator (FastHttpEndpoint.config self) = Some validator →
  FastHttpEndpoint.shouldValidateResponse (FastHttpEndpoint.handlerData self) = true →
  ValidateResponse validator httpStatus body = Done (status, failure) →
  FastHttpEndpoint.handleResponse self ctx handlerAlloc httpStatus s
  = (Returned (status, body),
     mkExecState (requester s1) (responseMimeType s1) (EvValidateResponse :: trace s1)).
Proof.
  intros Hpoll Hbody Hv Hflag Hfail.
  unfold FastHttpEndpoint.handleResponse, FastHttpEndpoint.poll.
  rewrite Hpoll. cbn [negb]. rewrite bind_run. cbn [ret].
  rewrite bind_run. cbn [getResponseMimeType].
  rewrite bind_run, Hbody, Hv, Hflag.
  rewrite bind_bind_run. cbn [call]. by rewrite Hfail.
Qed.

End ResponseValidation.

(** ** The executor on a fasthttp request context *)

Section FastHttpEndpoint.
Import FastHttpEndpoint.
Context {any : Type} `{!Runtime any}.
Implicit Types (self : Endpoint any) (ctx : Context) (s : ExecState any).

Lemma FastHttp_processErrorResponse_never (E : Event any → Prop) self mime httpStatus err :
  (∀ st e, ¬ E (EvHandleError st e)) → ¬ E EvMarshalError →
  preserves (never E) (processErrorResponse self mime httpStatus err).
Proof.
  intros H1 H2. unfold processErrorResponse.
  repeat preserves_step
    ltac:(intros ? ?; first [ by apply never_call; auto
                            | by (eapply never_same_trace; [| eassumption]) ]).
Qed.

Lemma FastHttp_fail_never {A} self httpStatus err :
  preserves (never (λ ev, ev = EvHandle)) (@fail any _ A self httpStatus err).
Proof.
  intros s Hs. unfold fail.
  by apply (preserves_exit _ (processErrorResponse self (responseMimeType s) httpStatus err));
    [apply FastHttp_processErrorResponse_never |].
Qed.

(** Nothing runs after the error response is returned. *)
Lemma FastHttp_bind_fail {A B} I self httpStatus err (k : A → M any B) :
  preserves I (@fail any _ A self httpStatus err) →
  preserves I (bind (fail self httpStatus err) k).
Proof.
  intros H s Hs. specialize (H s Hs). rewrite bind_run.
  unfold fail, exit in *. rewrite bind_run in *.
  by destruct (processErrorResponse _ _ _ _ s) as [[out|out|p] s'].
Qed.

Local Ltac never_side :=
  first
    [ intros ? ?;
      first [ apply never_call; [discriminate | assumption]
            | eapply never_same_trace; [| eassumption]; reflexivity ]
    | apply FastHttp_fail_never
    | apply FastHttp_bind_fail; apply FastHttp_fail_never ].

(** When the context is expired at the poll ahead of the handler, [Handle]
    is never called. *)
Lemma FastHttp_Execute_expired_before_handle self ctx r :
  ShouldContinue ctx BeforeHandle = false →
  EvHandle ∉ trace (Execute self ctx r).2.
Proof.
  intros Hpoll.
  assert (preserves (never (λ ev, ev = EvHandle)) (pipeline self ctx)) as Hp.
  { unfold pipeline, poll. rewrite Hpoll. cbn [negb].
    unfold setupMimeTypes, authentication, allocation, handleRequest, poll,
      setHandlerRequestBody.
    repeat preserves_step never_side. }
  specialize (Hp (mkExecState r None []) (never_nil _ r None)).
  assert (never (λ ev, ev = EvHandle) (Execute self ctx r).2) as Hn.
  { unfold Execute, withRecover.
    destruct (pipeline self ctx _) as [[out|out|p] s]; simpl in *; [done | done |].
    unfold recovery.
    pose proof (FastHttp_processErrorResponse_never (λ ev, ev = EvHandle) self
                  (responseMimeType s) httpstatus.InternalServerError (Some ErrorPanic)
                  ltac:(discriminate) ltac:(discriminate) s Hp) as H.
    by destruct (processErrorResponse _ _ _ _ s) as [[out|out|p'] s']. }
  intros Hin. by apply (Hn _ Hin).
Qed.

(** The deferred function does not look at the payload of the panic. *)
Lemma FastHttp_recovery_ignores_payload self (p p' : any) s :
  recovery self p s = recovery self p' s.
Proof. reflexivity. Qed.

End FastHttpEndpoint.

Section FastHttpEndpointTests.
Import FastHttpEndpoint TestEndpoint TestFastHttpEndpoint.

(** C1 on the fasthttp revision. The response validator is configured, the
    handler asks for validation, and the validator rejects the response with
    (422, failure): [Execute] returns 422 with the encoded response body of
    the success case, and the error responder is never called. *)
Theorem FastHttp_Execute_drops_validation_failure :
  let self := createTestEndpoint in
  let out := Execute self live request in
  ResponseValidator (config self) = Some strictResponseValidator ∧
  shouldValidateResponse (handlerData self) = true ∧
  ValidateResponse strictResponseValidator 200 (of_string responseText)
  = Done (422, Some (New "response rejected" [])) ∧
  EvValidateResponse ∈ trace out.2 ∧
  out.1 = Done (422, of_string responseText) ∧
  (∀ httpStatus err, EvHandleError httpStatus err ∉ trace out.2).
Proof.
  vm_compute. repeat split.
  - apply elem_of_cons. by left.
  - intros httpStatus err H.
    repeat (apply elem_of_cons in H as [H | H]; [discriminate H |]).
    by apply not_elem_of_nil in H.
Qed.

(** On this revision a handler without a response body is served without
    a look at the Accept header. *)
Example FastHttp_Execute_skips_Accept :
  let self := NewEndpoint testConfig bodilessEndpoint in
  (Execute self live requestWithoutAccept).1 = Done (200, []).
Proof. vm_compute. reflexivity. Qed.

End FastHttpEndpointTests.

Section RequesterValidationTests.
Import Endpoint TestEndpoint TestRequesterEndpoint.

(** The same endpoint and request on a [Requester]: the failure goes to the
    error responder, with the validator's status. *)
Example Execute_surfaces_validation_failure :
  let self := withResponseValidator strictResponseValidator
                (createTestEndpoint myErrorHandler okHandler) in
  let out := Execute self live request in
  out.1 = Done (422, of_string "message:response rejected") ∧
  EvHandleError 422 (Some (New "response rejected" [])) ∈ trace out.2.
Proof.
  vm_compute. split; [reflexivity |].
  apply elem_of_cons. right. apply elem_of_cons. by left.
Qed.

End RequesterValidationTests.
(** * Further properties *)

(** ** endpoint/etag.go: what a fingerprint looks like *)

Section FingerprintFacts.
Import GoBytes ETag.

Local Ltac in_alphabet := apply (bool_decide_unpack _); vm_compute; exact I.

Lemma of_string_cons (c : ascii) (s : string) :
  of_string (String c s) = byte_of_ascii c :: of_string s.
Proof. reflexivity. Qed.

Lemma of_string_app (a b : string) :
  of_string (a ++ b) = of_string a ++ of_string b.
Proof.
  induction a as [|c a IH]; [done |].
  change (String c a ++ b)%string with (String c (a ++ b)).
  by rewrite !of_string_cons, IH.
Qed.

Lemma of_string_inj (a b : string) : of_string a = of_string b → a = b.
Proof.
  intros H. rewrite <- (string_of_list_byte_of_string a), <- (string_of_list_byte_of_string b).
  unfold of_string in H. by rewrite H.
Qed.

Lemma uint_bytes (d : Decimal.uint) :
  Forall (λ b, b ∈ fingerprintBytes) (of_string (NilEmpty.string_of_uint d)).
Proof.
  induction d; cbn [NilEmpty.string_of_uint]; [constructor | ..];
    rewrite of_string_cons; (constructor; [in_alphabet | assumption]).
Qed.

Lemma Itoa_bytes (n : Z) : Forall (λ b, b ∈ fingerprintBytes) (of_string (Itoa n)).
Proof.
  unfold Itoa, NilZero.string_of_int.
  assert (∀ d, Forall (λ b, b ∈ fingerprintBytes) (of_string (NilZero.string_of_uint d))) as Hu.
  { intros d. unfold NilZero.string_of_uint.
    destruct d; try apply uint_bytes. constructor; [in_alphabet | constructor]. }
  destruct (Z.to_int n) as [d | d]; [apply Hu |].
  rewrite of_string_cons. constructor; [in_alphabet | apply Hu].
Qed.

Lemma digit_byte (n : N) : byte_of_ascii (Hex.digit n) ∈ fingerprintBytes.
Proof.
  unfold Hex.digit. generalize (N.to_nat n). intros k.
  do 16 (destruct k as [|k]; [in_alphabet |]). in_alphabet.
Qed.

Lemma hex_bytes (b : bytes) :
  Forall (λ b, b ∈ fingerprintBytes) (of_string (Hex.EncodeToString b)).
Proof.
  induction b as [|x b IH]; [constructor |].
  cbn [Hex.EncodeToString]. rewrite !of_string_cons.
  constructor; [apply digit_byte |]. constructor; [apply digit_byte | exact IH].
Qed.

Lemma eTagValue_bytes (body : bytes) :
  Forall (λ b, b ∈ fingerprintBytes) (of_string (eTagValue body)).
Proof.
  unfold eTagValue. rewrite !of_string_app. apply Forall_app. split; [apply Itoa_bytes |].
  apply Forall_app. split; [| apply hex_bytes].
  constructor; [in_alphabet | constructor].
Qed.

Lemma eTagValue_nonempty (body : bytes) : of_string (eTagValue body) ≠ [].
Proof.
  unfold eTagValue. rewrite !of_string_app. intros H.
  apply app_eq_nil in H as [_ H]. discriminate H.
Qed.

Lemma eTagValue_not_anything (body : bytes) : of_string (eTagValue body) ≠ of_string anything.
Proof.
  intros H. pose proof (eTagValue_bytes body) as Hb. rewrite H in Hb.
  apply Forall_cons in Hb as [Hb _]. revert Hb. apply (bool_decide_unpack _). vm_compute. exact I.
Qed.

Lemma Split_plain (s : bytes) (sep : byte) : sep ∉ s → Split s sep = [s].
Proof.
  induction s as [|c s IH]; [done |]. intros Hs. cbn [Split].
  apply not_elem_of_cons in Hs as [Hc Hs].
  rewrite bool_decide_eq_false_2 by done. by rewrite IH.
Qed.

Lemma stripSpace_apart (pats : list bytes) (b : byte) (s : bytes) :
  apart pats b = true → stripSpace pats (b :: s) = None.
Proof.
  unfold stripSpace. induction pats as [|p pats IH]; [done |].
  cbn [apart forallb]. intros [Hp Hpats]%andb_true_iff.
  cbn [List.find]. destruct p as [|x p]; [done |].
  apply negb_true_iff in Hp. cbn [HasPrefix]. rewrite Hp. cbn [andb]. by apply IH.
Qed.

Lemma fingerprintBytes_apart (b : byte) :
  b ∈ fingerprintBytes →
  apart spaces b = true ∧ apart (List.map (@rev byte) spaces) b = true.
Proof.
  revert b. apply Forall_forall. apply (bool_decide_unpack _). vm_compute. exact I.
Qed.

(** White space is trimmed off neither end of a sequence of fingerprint
    bytes. *)
Lemma TrimSpace_plain (s : bytes) :
  Forall (λ b, b ∈ fingerprintBytes) s → TrimSpace s = s.
Proof.
  intros Hs. destruct s as [|b s]; [done |]. unfold TrimSpace.
  assert (trimLeft spaces (length (b :: s)) (b :: s) = b :: s) as ->.
  { cbn [length trimLeft]. rewrite stripSpace_apart; [done |].
    apply fingerprintBytes_apart. by apply Forall_cons in Hs as [? _]. }
  destruct (rev (b :: s)) as [|c t] eqn:Hrev.
  { apply (f_equal length) in Hrev. rewrite length_rev in Hrev. discriminate Hrev. }
  assert (c ∈ fingerprintBytes) as Hc.
  { rewrite Forall_forall in Hs. apply Hs. apply list_elem_of_In, in_rev.
    rewrite Hrev. by left. }
  rewrite <- (length_rev (b :: s)), Hrev. cbn [length trimLeft].
  rewrite stripSpace_apart by (by apply fingerprintBytes_apart).
  by rewrite <- Hrev, rev_involutive.
Qed.

(** A header that holds one fingerprint has that fingerprint as its only
    token. *)
Lemma fingerprint_tokens (body : bytes) :
  trimTags (Split (of_string (eTagValue body)) comma) = [of_string (eTagValue body)].
Proof.
  pose proof (eTagValue_bytes body) as Hb.
  rewrite Split_plain.
  - unfold trimTags. cbn [List.map]. by rewrite TrimSpace_plain.
  - intros Hin. rewrite Forall_forall in Hb. specialize (Hb _ Hin).
    revert Hb. apply (bool_decide_unpack _). vm_compute. exact I.
Qed.

End FingerprintFacts.

(** ** endpoint/etag.go: revalidation *)

Section ETagRevalidation.
Import GoBytes ETag.

Implicit Types (r : Requester) (body : bytes).

Lemma unskipped r (httpStatus : Z) body :
  200 ≤ httpStatus < 300 → body ≠ [] →
  (∀ pre post, PeekHeader r httpheader.CacheControl ≠ pre ++ of_string noCache ++ post) →
  PeekHeader r httpheader.IfNoneMatch ≠ [] ∨ PeekHeader r httpheader.IfMatch ≠ [] →
  skipped r httpStatus body = false.
Proof.
  intros Hst Hbody Hcc Hcond. destruct (skipped r httpStatus body) eqn:Hs; [| done].
  apply skipped_true in Hs as [? | [? | [[pre [post ?]] | [? ?]]]];
    [lia | done | by destruct (Hcc pre post) | by destruct Hcond].
Qed.

(** X1. Revalidation with If-None-Match: a client that sends back, as its
    If-None-Match header, the fingerprint of a body it holds gets (304, empty
    body) if that is the fingerprint of the current body, and the current
    status and body otherwise; either way the ETag header carries the current
    fingerprint. *)
Theorem HandleETag_revalidates r (maxAgeSeconds httpStatus : Z) body held :
  200 ≤ httpStatus < 300 → body ≠ [] →
  (∀ pre post, PeekHeader r httpheader.CacheControl ≠ pre ++ of_string "no-cache" ++ post) →
  PeekHeader r httpheader.IfNoneMatch = of_string (eTagValue held) →
  let out := HandleETag r maxAgeSeconds httpStatus body in
  responseHeaders out.1 !! httpheader.ETag = Some (eTagValue body) ∧
  (eTagValue held = eTagValue body → out.2 = (304, [])) ∧
  (eTagValue held ≠ eTagValue body → out.2 = (httpStatus, body)).
Proof.
  intros Hst Hbody Hcc Hinm out.
  assert (skipped r httpStatus body = false) as Hs.
  { apply unskipped; [done | done | done |]. left. rewrite Hinm. apply eTagValue_nonempty. }
  split; [by apply HandleETag_sets_ETag |].
  subst out. rewrite (HandleETag_unskipped _ _ _ _ Hs). cbn [snd].
  unfold isCacheFresh. rewrite Hinm.
  destruct (len (of_string (eTagValue held)) =? 0) eqn:E.
  { apply len_zero in E. by destruct (eTagValue_nonempty held). }
  cbn [negb fst snd]. rewrite fingerprint_tokens. cbn [checkEtagNoneMatch].
  rewrite (proj2 (Equal_false _ _) (eTagValue_not_anything held)). cbn [orb].
  split.
  - intros ->. by rewrite (proj2 (Equal_true _ _) eq_refl).
  - intros Hne. rewrite (proj2 (Equal_false _ _)); [done |].
    intros H. by apply of_string_inj in H.
Qed.

Lemma HandleETag_revalidates_witness :
  let r := Fixtures.request [("If-None-Match", Fixtures.cachedETag)] in
  (HandleETag r 0 200 Fixtures.uncachedResponse).2 = (304, []) ∧
  (HandleETag r 0 200 (of_string "another response")).2 = (200, of_string "another response").
Proof.
  intros r. split.
  - destruct (HandleETag_revalidates r 0 200 Fixtures.uncachedResponse Fixtures.uncachedResponse)
      as [_ [H _]]; [lia | discriminate | | vm_compute; reflexivity | by apply H].
    intros pre post H. destruct pre; discriminate H.
  - destruct (HandleETag_revalidates r 0 200 (of_string "another response")
                Fixtures.uncachedResponse)
      as [_ [_ H]]; [lia | discriminate | | vm_compute; reflexivity | apply H].
    + intros pre post H. destruct pre; discriminate H.
    + vm_compute. discriminate.
Defined.

(** X2. Precondition with If-Match: a client that sends, as its only
    conditional header, the fingerprint of a body it holds gets the current
    status and body if that is the fingerprint of the current body, and
    (412, empty body) otherwise. *)
Theorem HandleETag_precondition r (maxAgeSeconds httpStatus : Z) body held :
  200 ≤ httpStatus < 300 → body ≠ [] →
  (∀ pre post, PeekHeader r httpheader.CacheControl ≠ pre ++ of_string "no-cache" ++ post) →
  PeekHeader r httpheader.IfNoneMatch = [] →
  PeekHeader r httpheader.IfMatch = of_string (eTagValue held) →
  let out := HandleETag r maxAgeSeconds httpStatus body in
  (eTagValue held = eTagValue body → out.2 = (httpStatus, body)) ∧
  (eTagValue held ≠ eTagValue body → out.2 = (412, [])).
Proof.
  intros Hst Hbody Hcc Hinm Him out.
  assert (skipped r httpStatus body = false) as Hs.
  { apply unskipped; [done | done | done |]. right. rewrite Him. apply eTagValue_nonempty. }
  subst out. rewrite (HandleETag_unskipped _ _ _ _ Hs). cbn [snd].
  unfold isCacheFresh. rewrite Hinm, Him. cbn [len length Z.of_nat Z.eqb negb fst snd].
  rewrite fingerprint_tokens. cbn [checkEtagMatch].
  rewrite (proj2 (Equal_false _ _) (eTagValue_not_anything held)).
  split.
  - intros ->. by rewrite (proj2 (Equal_true _ _) eq_refl).
  - intros Hne. rewrite (proj2 (Equal_false _ _)); [done |].
    intros H. by apply of_string_inj in H.
Qed.

Lemma HandleETag_precondition_witness :
  let r := Fixtures.request [("If-Match", Fixtures.cachedETag)] in
  (HandleETag r 0 200 Fixtures.uncachedResponse).2 = (200, Fixtures.uncachedResponse) ∧
  (HandleETag r 0 200 (of_string "another response")).2 = (412, []).
Proof.
  intros r. split.
  - destruct (HandleETag_precondition r 0 200 Fixtures.uncachedResponse Fixtures.uncachedResponse)
      as [H _]; [lia | discriminate | | reflexivity | vm_compute; reflexivity | by apply H].
    intros pre post H. destruct pre; discriminate H.
  - destruct (HandleETag_precondition r 0 200 (of_string "another response")
                Fixtures.uncachedResponse)
      as [_ H]; [lia | discriminate | | reflexivity | vm_compute; reflexivity | apply H].
    + intros pre post H. destruct pre; discriminate H.
    + vm_compute. discriminate.
Defined.

(** X3. The answers of [HandleETag]: the status and body it was given; or
    (304, empty body), only for a non-empty 2xx response to a request with
    an If-None-Match header; or (412, empty body), only for a non-empty 2xx
    response to a request with an If-Match header and no If-None-Match
    header. *)
Theorem HandleETag_answers r (maxAgeSeconds httpStatus : Z) body :
  let out := HandleETag r maxAgeSeconds httpStatus body in
  out.2 = (httpStatus, body) ∨
  (out.2 = (304, []) ∧ 200 ≤ httpStatus < 300 ∧ body ≠ [] ∧
   PeekHeader r httpheader.IfNoneMatch ≠ []) ∨
  (out.2 = (412, []) ∧ 200 ≤ httpStatus < 300 ∧ body ≠ [] ∧
   PeekHeader r httpheader.IfNoneMatch = [] ∧ PeekHeader r httpheader.IfMatch ≠ []).
Proof.
  intros out. subst out.
  destruct (skipped r httpStatus body) eqn:Hs.
  { left. unfold HandleETag. by rewrite Hs. }
  assert (200 ≤ httpStatus < 300 ∧ body ≠ [] ∧
          (PeekHeader r httpheader.IfNoneMatch = [] → PeekHeader r httpheader.IfMatch ≠ []))
    as [Hst [Hbody Hcond]].
  { repeat split.
    - destruct (Z.le_gt_cases 200 httpStatus) as [Hle | Hgt]; [done |].
      assert (skipped r httpStatus body = true) as H; [| congruence].
      apply skipped_true. left. lia.
    - destruct (Z.lt_ge_cases httpStatus 300) as [Hlt | Hge]; [done |].
      assert (skipped r httpStatus body = true) as H; [| congruence].
      apply skipped_true. left. lia.
    - intros ->. assert (skipped r httpStatus []  = true) as H; [| congruence].
      apply skipped_true. right. by left.
    - intros H1 H2. assert (skipped r httpStatus body = true) as H; [| congruence].
      apply skipped_true. by repeat right. }
  rewrite (HandleETag_unskipped _ _ _ _ Hs). cbn [snd]. unfold isCacheFresh.
  destruct (len (PeekHeader r httpheader.IfNoneMatch) =? 0) eqn:E; cbn [negb fst snd].
  - apply len_zero in E.
    destruct (checkEtagMatch _ _); [right; right | by left].
    repeat split; [lia | lia | done | done | by apply Hcond].
  - destruct (checkEtagNoneMatch _ _); [right; left | by left].
    repeat split; [lia | lia | done |].
    intros H. apply len_zero in H. congruence.
Qed.

(** X4. What [HandleETag] leaves alone: the request side of the requester,
    the response content type, and every response header other than ETag
    and Cache-Control. *)
Theorem HandleETag_frame r (maxAgeSeconds httpStatus : Z) body :
  let r' := (HandleETag r maxAgeSeconds httpStatus body).1 in
  RequestId r' = RequestId r ∧ ContentType r' = ContentType r ∧ Accept r' = Accept r ∧
  RequestBody r' = RequestBody r ∧ requestHeaders r' = requestHeaders r ∧
  responseContentType r' = responseContentType r ∧
  ∀ key, key ≠ httpheader.ETag → key ≠ httpheader.CacheControl →
         responseHeaders r' !! key = responseHeaders r !! key.
Proof.
  intros r'. subst r'. unfold HandleETag.
  destruct (skipped r httpStatus body); [done |]. cbv zeta.
  destruct (isCacheFresh _ _ _) as [st []]; destruct (negb (maxAgeSeconds =? 0));
    cbn; repeat split; intros key H1 H2; by rewrite ?lookup_insert_ne.
Qed.

(** X5. The two checks are complementary: on the same tokens the If-Match
    check reports a failed precondition exactly when the If-None-Match check
    finds no match; so a header value sent as If-Match gives 412 exactly when
    the same value sent as If-None-Match would not give 304. *)
Theorem isCacheFresh_complementary (header eTag : bytes) :
  header ≠ [] →
  isCacheFresh header [] eTag
  = (304, checkEtagNoneMatch (trimTags (Split header comma)) eTag) ∧
  isCacheFresh [] header eTag
  = (412, negb (checkEtagNoneMatch (trimTags (Split header comma)) eTag)).
Proof.
  intros Hne. unfold isCacheFresh.
  destruct (len header =? 0) eqn:E; [by apply len_zero in E |].
  cbn [len length Z.of_nat Z.eqb negb]. split; [done |]. f_equal.
  induction (trimTags (Split header comma)) as [|t tags IH]; [done |].
  cbn [checkEtagMatch checkEtagNoneMatch].
  destruct (Equal t (of_string anything)); [done |].
  destruct (Equal t eTag); [done |]. exact IH.
Qed.

Lemma isCacheFresh_complementary_witness :
  isCacheFresh (of_string "a, *") [] (of_string "b") = (304, true) ∧
  isCacheFresh [] (of_string "a, *") (of_string "b") = (412, false).
Proof.
  destruct (isCacheFresh_complementary (of_string "a, *") (of_string "b")) as [H1 H2];
    [discriminate |].
  split; [exact H1 | exact H2].
Defined.

End ETagRevalidation.

(** ** The executor on a [Requester]: phase by phase *)

Section RequesterPhases.
Import Endpoint.
Context {any : Type} `{!Runtime any}.
Implicit Types (self : Endpoint any) (ctx : Context) (s : ExecState any).

Lemma fail_not_Continue {A} self httpStatus err s (a : A) s' :
  fail self httpStatus err s ≠ (Continue a, s').
Proof.
  rewrite fail_run. by destruct (processErrorResponse _ _ _ _ s) as [[out|out|p] s''].
Qed.

(** Nothing runs after the error response is returned. *)
Lemma bind_fail_run {A B} self httpStatus err (k : A → M any B) s :
  bind (fail self httpStatus err) k s = fail self httpStatus err s.
Proof.
  rewrite bind_run, !fail_run.
  by destruct (processErrorResponse _ _ _ _ s) as [[out|out|p] s'].
Qed.

Lemma call_run {A} (ev : Event any) (res : result any A) s :
  call ev res s =
  (match res with Done a => Continue a | Panics p => Panicked p end, pushed ev s).
Proof. reflexivity. Qed.

Lemma allocation_run self s :
  allocation self s =
  match setResources (handlerData self) (Resources (config self)) with
  | Panics p => (Panicked p, pushed EvSetResources s)
  | Done (Some e) =>
      fail self 500 (Some (Wrap (Some e) ErrInternalServerError)) (pushed EvSetResources s)
  | Done None =>
      let s1 := pushed EvSetResources s in
      match setPathParameters (handlerData self) (requester s) with
      | Panics p => (Panicked p, pushed EvSetPathParameters s1)
      | Done (Some e) =>
          fail self 400 (Some (Wrap (Some e) ErrBadRequest)) (pushed EvSetPathParameters s1)
      | Done None =>
          let s2 := pushed EvSetPathParameters s1 in
          match setQueryParameters (handlerData self) (requester s) with
          | Panics p => (Panicked p, pushed EvSetQueryParameters s2)
          | Done (Some e) =>
              fail self 400 (Some (Wrap (Some e) ErrBadRequest)) (pushed EvSetQueryParameters s2)
          | Done None =>
              (Continue (allocateHandler (handlerData self)), pushed EvSetQueryParameters s2)
          end
      end
  end.
Proof.
  unfold allocation. rewrite bind_run, call_run.
  destruct (setResources _ _) as [[e|]|p]; [done | | done].
  rewrite bind_run. cbn [getRequester]. rewrite bind_run, call_run. cbn [pushed requester].
  destruct (setPathParameters _ _) as [[e|]|p]; [done | | done].
  rewrite bind_run, call_run.
  by destruct (setQueryParameters _ _) as [[e|]|p].
Qed.

Lemma authorization_run self handlerAlloc s :
  authorization self handlerAlloc s =
  match auth handlerAlloc with
  | None => (Continue tt, s)
  | Some None => fail self 500 (Some (Wrap None ErrInternalServerError)) s
  | Some (Some asAuthorizer) =>
      match Authorization asAuthorizer (PeekHeader (requester s)) with
      | Panics p => (Panicked p, pushed EvAuthorization s)
      | Done (httpStatus, Some e) => fail self httpStatus (Some e) (pushed EvAuthorization s)
      | Done (_, None) => (Continue tt, pushed EvAuthorization s)
      end
  end.
Proof.
  unfold authorization. destruct (auth handlerAlloc) as [[a|]|]; [| done | done].
  rewrite bind_run. cbn [getRequester]. rewrite bind_run, call_run.
  by destruct (Authorization _ _) as [[st [e|]]|p].
Qed.

Lemma processRequestBody_run self requestMimeType handlerAlloc s :
  processRequestBody self requestMimeType handlerAlloc s =
  let validate s :=
    match RequestValidator (config self) with
    | Some validator =>
        if shouldValidateRequest (handlerData self) then
          match ValidateRequest validator (RequestBody (requester s)) with
          | Panics p => (Panicked p, pushed EvValidateRequest s)
          | Done (httpStatus, Some failure) =>
              fail self httpStatus (Some failure) (pushed EvValidateRequest s)
          | Done (_, None) => (Continue tt, pushed EvValidateRequest s)
          end
        else (Continue tt, s)
    | None => (Continue tt, s)
    end in
  if hasRequestBody (handlerData self) then
    match requestBody handlerAlloc with
    | None => validate s
    | Some target =>
        match requestMimeType with
        | None => (Panicked nilDereference, s)
        | Some codec =>
            match Unmarshal codec (RequestBody (requester s)) target with
            | Panics p => (Panicked p, pushed EvUnmarshal s)
            | Done (Some e) =>
                fail self 400 (Some (Wrap (Some e) ErrBadRequest)) (pushed EvUnmarshal s)
            | Done None => validate (pushed EvUnmarshal s)
            end
        end
    end
  else (Continue tt, s).
Proof.
  cbv zeta. unfold processRequestBody.
  destruct (hasRequestBody (handlerData self)); [| done].
  rewrite bind_run. cbn [getRequester]. rewrite bind_run.
  assert (∀ s0,
    (match RequestValidator (config self) with
     | Some validator =>
         if shouldValidateRequest (handlerData self)
         then bind (call EvValidateRequest (ValidateRequest validator (RequestBody (requester s))))
                (λ x, let '(httpStatus, validationFailure) := x in
                      match validationFailure with
                      | Some failure => fail self httpStatus (Some failure)
                      | None => ret tt
                      end)
         else ret tt
     | None => ret tt
     end) s0 =
    match RequestValidator (config self) with
    | Some validator =>
        if shouldValidateRequest (handlerData self) then
          match ValidateRequest validator (RequestBody (requester s)) with
          | Panics p => (Panicked p, pushed EvValidateRequest s0)
          | Done (httpStatus, Some failure) =>
              fail self httpStatus (Some failure) (pushed EvValidateRequest s0)
          | Done (_, None) => (Continue tt, pushed EvValidateRequest s0)
          end
        else (Continue tt, s0)
    | None => (Continue tt, s0)
    end) as Hv.
  { intros s0. destruct (RequestValidator (config self)) as [v|]; [| done].
    destruct (shouldValidateRequest (handlerData self)); [| done].
    rewrite bind_run, call_run. by destruct (ValidateRequest _ _) as [[st [f|]]|p]. }
  unfold setHandlerRequestBody.
  destruct (requestBody handlerAlloc) as [target|]; [| cbn [ret]; apply Hv].
  destruct requestMimeType as [codec|]; [| done].
  rewrite !bind_run, call_run.
  destruct (Unmarshal _ _ _) as [[e|]|p]; cbn [ret]; [done | | done].
  apply Hv.
Qed.

Lemma processResponseBody_run self handlerAlloc httpStatus s :
  processResponseBody self handlerAlloc httpStatus s =
  let conclude body httpStatus s :=
    if eTagEnabled (handlerData self)
    then handleETag (maxAgeSeconds (handlerData self)) httpStatus body s
    else (Returned (httpStatus, body), s) in
  let finish body s :=
    match ResponseValidator (config self) with
    | Some validator =>
        if shouldValidateResponse (handlerData self) then
          match ValidateResponse validator httpStatus body with
          | Panics p => (Panicked p, pushed EvValidateResponse s)
          | Done (httpStatus, Some failure) =>
              fail self httpStatus (Some failure) (pushed EvValidateResponse s)
          | Done (httpStatus, None) => conclude body httpStatus (pushed EvValidateResponse s)
          end
        else conclude body httpStatus s
    | None => conclude body httpStatus s
    end in
  match responseBody handlerAlloc with
  | None => finish [] s
  | Some value =>
      match responseMimeType s with
      | None => (Panicked nilDereference, s)
      | Some mime =>
          let s1 :=
            mkExecState (SetResponseContentType (requester s) (MimeType mime))
              (responseMimeType s) (EvMarshal :: trace s) in
          match Marshal mime value with
          | Panics p => (Panicked p, s1)
          | Done (_, Some e) =>
              fail self 500 (Some (Wrap (Some e) ErrInternalServerError)) s1
          | Done (body, None) =>
              if (GoBytes.len body =? 4) && GoBytes.Equal body nullBytes
              then fail self 500 (Some (Wrap None ErrInternalServerError)) s1
              else finish body s1
          end
      end
  end.
Proof.
  cbv zeta. unfold processResponseBody. rewrite bind_run. cbn [getResponseMimeType].
  assert (∀ body s0,
    bind
      match ResponseValidator (config self) with
      | Some validator =>
          if shouldValidateResponse (handlerData self)
          then bind (call EvValidateResponse (ValidateResponse validator httpStatus body))
                 (λ x : Z * option (error any),
                    let '(httpStatus, validationFailure) := x in
                    match validationFailure return M any Z with
                    | Some failure => fail self httpStatus (Some failure)
                    | None => ret httpStatus
                    end)
          else ret httpStatus
      | None => ret httpStatus
      end
      (λ httpStatus,
         if eTagEnabled (handlerData self)
         then handleETag (maxAgeSeconds (handlerData self)) httpStatus body
         else Return (httpStatus, body) : M any (Z * bytes)) s0 =
    match ResponseValidator (config self) with
    | Some validator =>
        if shouldValidateResponse (handlerData self) then
          match ValidateResponse validator httpStatus body with
          | Panics p => (Panicked p, pushed EvValidateResponse s0)
          | Done (httpStatus, Some failure) =>
              fail self httpStatus (Some failure) (pushed EvValidateResponse s0)
          | Done (httpStatus, None) =>
              if eTagEnabled (handlerData self)
              then handleETag (maxAgeSeconds (handlerData self)) httpStatus body
                     (pushed EvValidateResponse s0)
              else (Returned (httpStatus, body), pushed EvValidateResponse s0)
          end
        else
          if eTagEnabled (handlerData self)
          then handleETag (maxAgeSeconds (handlerData self)) httpStatus body s0
          else (Returned (httpStatus, body), s0)
    | None =>
        if eTagEnabled (handlerData self)
        then handleETag (maxAgeSeconds (handlerData self)) httpStatus body s0
        else (Returned (httpStatus, body), s0)
    end) as Hfinish.
  { intros body s0. rewrite bind_run.
    destruct (ResponseValidator (config self)) as [v|];
      [destruct (shouldValidateResponse _) |];
      try (cbn [ret]; by destruct (eTagEnabled _)).
    rewrite bind_run, call_run.
    destruct (ValidateResponse v _ _) as [[st [f|]]|p]; [| | done].
    - cbv beta iota. rewrite !fail_run.
      by destruct (processErrorResponse _ _ _ _ _) as [[out|out|p] s'].
    - cbn [ret]. by destruct (eTagEnabled _). }
  unfold getHandlerResponseBody. rewrite bind_run.
  destruct (responseBody handlerAlloc) as [value|]; [| cbn [ret]; apply Hfinish].
  destruct s as [r [mime|] t]; cbn [requester responseMimeType trace]; [| done].
  rewrite bind_run. cbn [setContentType]. rewrite bind_run, call_run. unfold pushed at 1.
  cbn [requester responseMimeType trace].
  destruct (Marshal mime value) as [[body [e|]]|p]; cbn [ret]; [done | | done].
  destruct (_ && _); [done |]. cbn [ret]. apply Hfinish.
Qed.

Lemma fromHandle_run self ctx handlerAlloc s :
  fromHandle self ctx handlerAlloc s =
  if ShouldContinue ctx BeforeHandle then
    match Handle (handler handlerAlloc) with
    | Panics p => (Panicked p, pushed EvHandle s)
    | Done (httpStatus, Some e) => fail self httpStatus (Some e) (pushed EvHandle s)
    | Done (httpStatus, None) =>
        if ShouldContinue ctx AfterHandle
        then processResponseBody self handlerAlloc httpStatus (pushed EvHandle s)
        else fail self 408 (Some ErrRequestTimeout) (pushed EvHandle s)
    end
  else fail self 408 (Some ErrRequestTimeout) s.
Proof.
  unfold fromHandle. destruct (ShouldContinue ctx BeforeHandle); [| done].
  cbn [negb]. rewrite bind_run, call_run.
  destruct (Handle _) as [[st [e|]]|p]; [done | | done].
  by destruct (ShouldContinue ctx AfterHandle).
Qed.

End RequesterPhases.

(** ** The executor on a [Requester]: which requests reach the handler *)

Section RequesterAdmission.
Import Endpoint.
Context {any : Type} `{!Runtime any}.
Implicit Types (self : Endpoint any) (ctx : Context) (s : ExecState any).

(** A negotiation that passes hands on the codec registered for the
    Content-Type header. *)
Lemma setupMimeTypes_codec self s requestMimeType s' :
  responseMimeType s = None →
  setupMimeTypes self s = (Continue requestMimeType, s') →
  requestMimeType = requestCodec self (requester s).
Proof.
  intros Hnone. unfold setupMimeTypes, requestCodec, registry.
  set (handlers := default ∅ (MimeTypeHandlers (config self))).
  rewrite bind_run. cbn [getRequester].
  destruct (hasRequestBody (handlerData self)).
  - destruct (GoBytes.len (ContentType (requester s)) =? 0).
    { rewrite bind_fail_run. intros Hf. by apply fail_not_Continue in Hf. }
    destruct (Get handlers (ContentType (requester s)) _) as [rm|].
    2:{ rewrite bind_fail_run. intros Hf. by apply fail_not_Continue in Hf. }
    rewrite bind_run. cbn [ret].
    destruct (GoBytes.len (Accept (requester s)) =? 0).
    { intros Hf. by apply fail_not_Continue in Hf. }
    rewrite bind_run. cbn [setResponseMimeType].
    destruct (Get handlers (Accept (requester s)) _) as [mime|].
    + rewrite bind_run. cbn [setContentType ret]. by intros [= <- _].
    + intros Hf. by apply fail_not_Continue in Hf.
  - rewrite bind_run. cbn [ret].
    destruct (GoBytes.len (Accept (requester s)) =? 0).
    { intros Hf. by apply fail_not_Continue in Hf. }
    rewrite bind_run. cbn [setResponseMimeType].
    destruct (Get handlers (Accept (requester s)) _) as [mime|].
    + rewrite bind_run. cbn [setContentType ret]. by intros [= <- _].
    + intros Hf. by apply fail_not_Continue in Hf.
Qed.

(** Binding, authorization and the request body go through exactly when
    the binders, the authorizer, the request codec and the request
    validator all return nil; the state then differs only in the calls. *)
Lemma binding_admits self s :
  bound self (requester s) → authorized self (requester s) → decoded self (requester s) →
  ∃ calls,
    binding self (requestCodec self (requester s)) s =
    (Continue (allocateHandler (handlerData self)),
     mkExecState (requester s) (responseMimeType s) calls).
Proof.
  intros (Hres & Hpath & Hquery) Hauth Hdec.
  unfold binding. rewrite bind_run, allocation_run, Hres, Hpath, Hquery. cbv beta iota zeta.
  rewrite bind_run, authorization_run. unfold authorized in Hauth.
  set (s1 := pushed EvSetQueryParameters _).
  assert (∃ s2, requester s2 = requester s ∧ responseMimeType s2 = responseMimeType s ∧
                match auth (allocateHandler (handlerData self)) with
                | None => (Continue tt, s1)
                | Some None => fail self 500 (Some (Wrap None ErrInternalServerError)) s1
                | Some (Some asAuthorizer) =>
                    match Authorization asAuthorizer (PeekHeader (requester s1)) with
                    | Panics p => (Panicked p, pushed EvAuthorization s1)
                    | Done (httpStatus, Some e) =>
                        fail self httpStatus (Some e) (pushed EvAuthorization s1)
                    | Done (_, None) => (Continue tt, pushed EvAuthorization s1)
                    end
                end = (@Continue any unit tt, s2)) as (s2 & Hr2 & Hm2 & ->).
  { destruct (auth _) as [[a|]|]; [| done | by exists s1].
    destruct Hauth as [st Hst]. cbn [s1 pushed requester]. rewrite Hst.
    by exists (pushed EvAuthorization s1). }
  rewrite bind_run, processRequestBody_run. cbv zeta.
  unfold decoded in Hdec.
  destruct s2 as [r2 m2 t2]. simpl in Hr2, Hm2. subst r2 m2.
  unfold pushed. cbn [requester responseMimeType trace].
  assert (requestValid self (requester s) →
          ∀ s3, requester s3 = requester s → responseMimeType s3 = responseMimeType s →
          ∃ calls,
            match RequestValidator (config self) with
            | Some validator =>
                if shouldValidateRequest (handlerData self) then
                  match ValidateRequest validator (RequestBody (requester s)) with
                  | Panics p => (Panicked p, pushed EvValidateRequest s3)
                  | Done (httpStatus, Some failure) =>
                      fail self httpStatus (Some failure) (pushed EvValidateRequest s3)
                  | Done (_, None) => (Continue tt, pushed EvValidateRequest s3)
                  end
                else (Continue tt, s3)
            | None => (Continue tt, s3)
            end = (@Continue any unit tt,
                   mkExecState (requester s) (responseMimeType s) calls)) as Hvalid.
  { unfold requestValid. intros Hv [r3 m3 t3] Hr3 Hm3. simpl in Hr3, Hm3. subst r3 m3.
    destruct (RequestValidator (config self)) as [v|]; [| by eexists].
    destruct Hv as [-> | [st ->]]; [by eexists |].
    destruct (shouldValidateRequest _); by eexists. }
  unfold pushed in Hvalid.
  destruct (hasRequestBody (handlerData self)) eqn:Hbody; [| by eexists].
  destruct Hdec as [? | [Hslot Hv]]; [done |].
  destruct (requestBody _) as [target|].
  - destruct Hslot as (codec & -> & ->).
    destruct (Hvalid Hv (mkExecState (requester s) (responseMimeType s) (EvUnmarshal :: t2))
                eq_refl eq_refl) as [calls Hc].
    cbn [requester responseMimeType trace] in Hc. rewrite Hc. by eexists.
  - destruct (Hvalid Hv (mkExecState (requester s) (responseMimeType s) t2)
                eq_refl eq_refl) as [calls Hc].
    cbn [requester responseMimeType trace] in Hc. rewrite Hc. by eexists.
Qed.

(** A step that ends in the error response does not go on. *)
Local Ltac refute_fail :=
  rewrite ?fail_run;
  match goal with
  | |- context [processErrorResponse ?a ?b ?c ?d ?e] =>
      by destruct (processErrorResponse a b c d e) as [[?|?|?] ?]
  end.

Lemma binding_continues self s handlerAlloc s' :
  binding self (requestCodec self (requester s)) s = (Continue handlerAlloc, s') →
  bound self (requester s) ∧ authorized self (requester s) ∧ decoded self (requester s).
Proof.
  unfold binding, bound, authorized, decoded, requestValid.
  rewrite bind_run, allocation_run.
  destruct (setResources _ _) as [[e|]|p]; [refute_fail | | done].
  destruct (setPathParameters _ _) as [[e|]|p]; [refute_fail | | done].
  destruct (setQueryParameters _ _) as [[e|]|p]; [refute_fail | | done].
  cbv beta iota zeta. rewrite bind_run, authorization_run.
  unfold pushed. cbn [requester responseMimeType trace].
  intros Hrun. split; [done |]. revert Hrun.
  assert (∀ s1, requester s1 = requester s →
            match processRequestBody self (requestCodec self (requester s))
                    (allocateHandler (handlerData self)) s1 with
            | (Continue _, s2) => ret (allocateHandler (handlerData self)) s2
            | (Returned r, s2) => (Returned r, s2)
            | (Panicked p, s2) => (Panicked p, s2)
            end = (Continue handlerAlloc, s') →
            hasRequestBody (handlerData self) = false ∨
            (match requestBody (allocateHandler (handlerData self)) with
             | Some target =>
                 ∃ codec, requestCodec self (requester s) = Some codec ∧
                          Unmarshal codec (RequestBody (requester s)) target = Done None
             | None => True
             end ∧
             match RequestValidator (config self) with
             | Some validator =>
                 shouldValidateRequest (handlerData self) = false ∨
                 (∃ httpStatus,
                    ValidateRequest validator (RequestBody (requester s)) = Done (httpStatus, None))
             | None => True
             end)) as Hbody.
  { intros [r1 m1 t1] Hr1. simpl in Hr1. subst r1.
    rewrite processRequestBody_run. cbv zeta. unfold pushed.
    cbn [requester responseMimeType trace].
    destruct (hasRequestBody (handlerData self)); [| by left].
    intros Hb. right.
    assert (∀ s2,
      match
        match RequestValidator (config self) with
        | Some validator =>
            if shouldValidateRequest (handlerData self) then
              match ValidateRequest validator (RequestBody (requester s)) with
              | Panics p =>
                  (Panicked p,
                   mkExecState (requester s2) (responseMimeType s2) (EvValidateRequest :: trace s2))
              | Done (httpStatus, Some failure) =>
                  fail self httpStatus (Some failure)
                    (mkExecState (requester s2) (responseMimeType s2)
                       (EvValidateRequest :: trace s2))
              | Done (_, None) =>
                  (Continue tt,
                   mkExecState (requester s2) (responseMimeType s2) (EvValidateRequest :: trace s2))
              end
            else (Continue tt, s2)
        | None => (Continue tt, s2)
        end
      with
      | (Continue _, s3) => ret (allocateHandler (handlerData self)) s3
      | (Returned r, s3) => (Returned r, s3)
      | (Panicked p, s3) => (Panicked p, s3)
      end = (Continue handlerAlloc, s') →
      match RequestValidator (config self) with
      | Some validator =>
          shouldValidateRequest (handlerData self) = false ∨
          (∃ httpStatus,
             ValidateRequest validator (RequestBody (requester s)) = Done (httpStatus, None))
      | None => True
      end) as Hvalid.
    { intros s2. destruct (RequestValidator (config self)) as [v|]; [| done].
      destruct (shouldValidateRequest _); [| by left].
      destruct (ValidateRequest v _) as [[st [f|]]|p]; [refute_fail | | done].
      intros _. right. by eexists. }
    revert Hb. destruct (requestBody _) as [target|].
    - destruct (requestCodec self (requester s)) as [codec|]; [| done].
      destruct (Unmarshal codec _ target) as [[e|]|p] eqn:Hun; [refute_fail | | done].
      intros Hb. split; [by eexists |].
      by apply (Hvalid (mkExecState (requester s) m1 (EvUnmarshal :: t1))).
    - intros Hb. split; [done |].
      by apply (Hvalid (mkExecState (requester s) m1 t1)). }
  destruct (auth _) as [[a|]|].
  - destruct (Authorization a _) as [[st [e|]]|p]; [refute_fail | | done].
    cbv beta iota. rewrite bind_run. intros Hrun.
    split; [by eexists | by eapply Hbody; [| exact Hrun]].
  - refute_fail.
  - cbv beta iota. rewrite bind_run. intros Hrun.
    split; [done | by eapply Hbody; [| exact Hrun]].
Qed.

Lemma beforeHandle_admits self r mime :
  admits self r mime →
  ∃ calls,
    beforeHandle self (mkExecState r None []) =
    (Continue (allocateHandler (handlerData self)),
     mkExecState (negotiated r mime) (Some mime) calls).
Proof.
  intros ((Hacc & Hfound & Hreq) & Hbound & Hauth & Hdec). rewrite beforeHandle_run.
  destruct (setupMimeTypes_run self (started r) eq_refl)
    as [[body [Hno _]] | [rm [mime' [_ [Hfound' [_ Hrun]]]]]];
    cbn [started requester Accept SetResponseHeader] in *.
  { by destruct Hno as [? | [? | ?]]; [| congruence |]. }
  assert (mime' = mime) as -> by congruence.
  pose proof (setupMimeTypes_codec self (started r) _ _ eq_refl Hrun) as ->. rewrite Hrun.
  apply (binding_admits self (mkExecState (negotiated r mime) (Some mime) [])); assumption.
Qed.

Lemma beforeHandle_continues self r handlerAlloc s :
  beforeHandle self (mkExecState r None []) = (Continue handlerAlloc, s) →
  admitted self r.
Proof.
  rewrite beforeHandle_run.
  destruct (setupMimeTypes_run self (started r) eq_refl)
    as [[body [_ ->]] | [rm [mime [Hacc [Hfound [Hreq Hrun]]]]]]; [done |];
    cbn [started requester Accept SetResponseHeader] in *.
  pose proof (setupMimeTypes_codec self (started r) _ _ eq_refl Hrun) as ->. rewrite Hrun.
  intros Hb. exists mime. split; [done |].
  apply (binding_continues self (mkExecState (negotiated r mime) (Some mime) []) _ _ Hb).
Qed.

(** *** Calls are never taken back *)

Section Called.
Variable ev : Event any.

Local Ltac called_side :=
  first
    [ intros ? ?; unfold called in *; cbn [trace];
      first [ assumption | by apply list_elem_of_further ]
    | apply preserves_bind; [apply preserves_getResponseMimeType | intros ?]
    | assumption ].

Lemma processErrorResponse_called self mime httpStatus err :
  preserves (called ev) (processErrorResponse self mime httpStatus err).
Proof. unfold processErrorResponse. repeat preserves_step called_side. Qed.

Lemma fail_called {A} self httpStatus err :
  preserves (called ev) (@fail any _ A self httpStatus err).
Proof.
  intros s Hs. unfold fail.
  by apply (preserves_exit _ (processErrorResponse self (responseMimeType s) httpStatus err));
    [apply processErrorResponse_called |].
Qed.

Lemma handleETag_called {A} maxAgeSeconds httpStatus responseBody :
  preserves (called ev) (@handleETag any A maxAgeSeconds httpStatus responseBody).
Proof.
  intros s Hs. unfold handleETag. by destruct (ETag.HandleETag _ _ _ _) as [r' out].
Qed.

Lemma processResponseBody_called self handlerAlloc httpStatus :
  preserves (called ev) (processResponseBody self handlerAlloc httpStatus).
Proof.
  unfold processResponseBody, getHandlerResponseBody.
  repeat preserves_step
    ltac:(first [ apply fail_called | apply handleETag_called | called_side ]).
Qed.

Lemma recovery_called self payload s : called ev s → called ev (recovery self payload s).2.
Proof.
  intros Hs. unfold recovery.
  pose proof (processErrorResponse_called self (responseMimeType s)
                httpstatus.InternalServerError
                (Some (Wrap (Some (Recover payload)) ErrInternalServerError)) s Hs) as H.
  by destruct (processErrorResponse _ _ _ _ s) as [[out|out|p] s'].
Qed.

Lemma withRecover_called self x : called ev x.2 → called ev (withRecover self x).2.
Proof. destruct x as [[out|out|p] s]; [done | done | apply recovery_called]. Qed.

End Called.

End RequesterAdmission.

Section RequesterExecution.
Import Endpoint.
Context {any : Type} `{!Runtime any}.
Implicit Types (self : Endpoint any) (ctx : Context) (s : ExecState any).

Lemma withRecover_never (E : Event any → Prop) self x :
  (∀ st e, ¬ E (EvHandleError st e)) → ¬ E EvMarshalError →
  never E x.2 → never E (withRecover self x).2.
Proof.
  intros H1 H2. destruct x as [[out|out|p] s]; [done | done | by apply recovery_never].
Qed.

(** The handler has been called at the end exactly for the admitted
    requests whose context is live ahead of it; otherwise neither the
    handler nor a later phase has been called. *)
Lemma Execute_handler_reached self ctx r :
  (¬ (admitted self r ∧ ShouldContinue ctx BeforeHandle = true) ∧
   never fromHandleOn (Execute self ctx r).2) ∨
  (admitted self r ∧ ShouldContinue ctx BeforeHandle = true ∧
   called EvHandle (Execute self ctx r).2).
Proof.
  assert (∀ st e, ¬ fromHandleOn (EvHandleError st e : Event any)) as H1
    by (unfold fromHandleOn, afterHandle; intuition discriminate).
  assert (¬ fromHandleOn (EvMarshalError : Event any)) as H2
    by (unfold fromHandleOn, afterHandle; intuition discriminate).
  pose proof (beforeHandle_never fromHandleOn self (or_introl eq_refl)
                (mkExecState r None []) (never_nil _ r None)) as Hnever.
  unfold Execute, pipeline. rewrite bind_run.
  destruct (beforeHandle self _) as [[handlerAlloc|out|p] s1] eqn:Hb; cbn [snd] in Hnever.
  - pose proof (beforeHandle_continues _ _ _ _ Hb) as Hadm.
    destruct (ShouldContinue ctx BeforeHandle) eqn:Hpoll.
    + right. do 2 (split; [done |]). apply withRecover_called.
      unfold fromHandle. rewrite Hpoll. cbn [negb]. rewrite bind_run, call_run.
      assert (called EvHandle (pushed EvHandle s1)) as Hcalled by apply list_elem_of_here.
      destruct (Handle _) as [[st [e|]]|p]; [by apply fail_called | | done].
      destruct (negb _); [by apply fail_called | by apply processResponseBody_called].
    + left. split; [by intros [_ ?] |].
      apply withRecover_never; [done | done |]. by apply fromHandle_never_expired.
  - left. split; [| by apply (withRecover_never _ self (Returned out, s1))].
    intros [[mime Hadm] _].
    destruct (beforeHandle_admits self r mime Hadm) as [calls Hc]. congruence.
  - left. split; [| by apply (withRecover_never _ self (Panicked p, s1))].
    intros [[mime Hadm] _].
    destruct (beforeHandle_admits self r mime Hadm) as [calls Hc]. congruence.
Qed.

(** A negotiation that does not pass answers 415 in plain text with an
    [ErrInvalidMimeType] error, printed with the verb v. *)
Lemma setupMimeTypes_rejects self s :
  responseMimeType s = None →
  Accept (requester s) = [] ∨
  Get (registry self) (Accept (requester s)) (responseMimeTypes (handlerData self)) = None ∨
  ¬ requestTypeAccepted self (requester s) →
  ∃ detail,
    setupMimeTypes self s =
    (Returned (415, Sprintf "%v" (Some (Wrap (Some ErrInvalidMimeType) detail))),
     mkExecState (SetResponseContentType (requester s) mimeTypeTextPlain) None (trace s)).
Proof.
  intros Hnone Hno. unfold setupMimeTypes, requestTypeAccepted, registry in *.
  set (handlers := default ∅ (MimeTypeHandlers (config self))) in *.
  destruct s as [r m t]. simpl in Hnone. subst m. cbn [requester trace] in *.
  rewrite bind_run. cbn [getRequester requester].
  assert (∀ requestMimeType : option (MimeTypeHandler any),
    (∃ detail,
      ((if GoBytes.len (Accept r) =? 0
        then fail self httpstatus.UnsupportedMediaType
               (Some (Wrap (Some ErrInvalidMimeType) (New "Accept MIME type not provided" [])))
        else
          bind (setResponseMimeType
                  (Get handlers (Accept r) (responseMimeTypes (handlerData self))))
            (λ _, match Get handlers (Accept r) (responseMimeTypes (handlerData self)) with
                  | None =>
                      fail self httpstatus.UnsupportedMediaType
                        (Some (Wrap (Some ErrInvalidMimeType)
                                 (New "Accept MIME type not supported: %s" [Accept r])))
                  | Some mime => bind (setContentType (MimeType mime)) (λ _, ret requestMimeType)
                  end)) : M any (option (MimeTypeHandler any))) (mkExecState r None t) =
      (Returned (415, Sprintf "%v" (Some (Wrap (Some ErrInvalidMimeType) detail))),
       mkExecState (SetResponseContentType r mimeTypeTextPlain) None t)) ∨
    (Accept r ≠ [] ∧
     is_Some (Get handlers (Accept r) (responseMimeTypes (handlerData self))))) as Haccept.
  { intros rm. destruct (GoBytes.len (Accept r) =? 0) eqn:Hacc.
    { left. eexists. by rewrite fail_plain. }
    assert (Accept r ≠ []) as Hane.
    { intros Hz. apply len_zero in Hz. congruence. }
    destruct (Get handlers (Accept r) _) as [mime|] eqn:Hmime.
    - right. split; [done | by eexists].
    - left. eexists. rewrite bind_run. cbn [setResponseMimeType]. by rewrite fail_plain. }
  destruct (hasRequestBody (handlerData self)) eqn:Hreq.
  - destruct (GoBytes.len (ContentType r) =? 0) eqn:Hct.
    { eexists. by rewrite bind_run, fail_plain. }
    destruct (Get handlers (ContentType r) _) as [rm|] eqn:Hrm.
    2:{ eexists. by rewrite bind_run, fail_plain. }
    assert (ContentType r ≠ []) as Hne.
    { intros Hz. apply len_zero in Hz. congruence. }
    rewrite bind_run. cbn [ret].
    destruct (Haccept (Some rm)) as [[detail Hrun] | [Hane [mime Hmime]]]; [by exists detail |].
    destruct Hno as [? | [? | Hno]]; [done | congruence |].
    destruct Hno. right. split; [done | by eexists].
  - rewrite bind_run. cbn [ret].
    destruct (Haccept None) as [[detail Hrun] | [Hane [mime Hmime]]]; [by exists detail |].
    destruct Hno as [? | [? | Hno]]; [done | congruence |].
    destruct Hno. by left.
Qed.

(** X6. A request whose Accept header is absent or names no registered,
    allowed type, or whose Content-Type (when a request body is declared)
    is absent or names no registered, allowed type, is answered 415 with
    an [ErrInvalidMimeType] error printed as plain text; the request id is
    on the response, and no collaborator is called: neither the binder,
    nor the handler, nor the error handler. *)
Theorem Execute_unsupported_media_type self ctx r :
  Accept r = [] ∨
  Get (registry self) (Accept r) (responseMimeTypes (handlerData self)) = None ∨
  ¬ requestTypeAccepted self r →
  ∃ detail,
    Execute self ctx r =
    (Done (415, Sprintf "%v" (Some (Wrap (Some ErrInvalidMimeType) detail))),
     mkExecState
       (SetResponseContentType (SetResponseHeader r httpheader.XRequestId (RequestId r))
          mimeTypeTextPlain)
       None []).
Proof.
  intros Hno. rewrite Execute_run.
  destruct (setupMimeTypes_rejects self (started r) eq_refl Hno) as [detail ->].
  by exists detail.
Qed.

(** X7. [Execute] calls the handler exactly when the negotiation resolves
    a response codec (and a request codec, if a request body is declared),
    the three binders return nil, the auth object (if any) is an authorizer
    that returns nil, the request body (if any) decodes and validates, and
    the context is still live ahead of the handler. *)
Theorem Execute_calls_handler self ctx r :
  called EvHandle (Execute self ctx r).2 ↔
  admitted self r ∧ ShouldContinue ctx BeforeHandle = true.
Proof.
  destruct (Execute_handler_reached self ctx r) as [[Hno Hnever] | (Hadm & Hpoll & Hcalled)].
  - split; [intros Hcalled | done]. destruct (Hnever _ Hcalled). by left.
  - done.
Qed.

(** X8. The response phase comes after the handler: when the response
    codec or the response validator has been called, the handler has been
    called. *)
Theorem Execute_response_after_handler self ctx r (ev : Event any) :
  afterHandle ev → called ev (Execute self ctx r).2 → called EvHandle (Execute self ctx r).2.
Proof.
  intros Hev Hcalled.
  destruct (Execute_handler_reached self ctx r) as [[_ Hnever] | (_ & _ & ?)]; [| done].
  destruct (Hnever _ Hcalled). by right.
Qed.

End RequesterExecution.

(** ** The executor on a [Requester]: what an admitted request is answered *)

Section RequesterOutcomes.
Import Endpoint.
Context {any : Type} `{!Runtime any}.
Implicit Types (self : Endpoint any) (ctx : Context) (s : ExecState any).

(** The error response once a codec is negotiated, when the error handler
    returns and its payload encodes. *)
Lemma fail_encoded {A} self mime h httpStatus err httpStatus' payload body s :
  responseMimeType s = Some mime →
  ErrorHandler (config self) = Some h →
  HandleError h httpStatus err = Done (httpStatus', payload) →
  Marshal mime payload = Done (body, None) →
  @fail any _ A self httpStatus err s =
  (Returned (httpStatus', body),
   mkExecState (requester s) (Some mime)
     (EvMarshalError :: EvHandleError httpStatus err :: trace s)).
Proof.
  intros Hm Hh Hhe Hma. rewrite fail_run. destruct s as [r m t]. simpl in Hm. subst m.
  cbn [responseMimeType]. unfold processErrorResponse. rewrite Hh. cbv beta iota.
  rewrite bind_run, call_run, Hhe. cbv beta iota.
  by rewrite bind_run, call_run, Hma.
Qed.

(** An admitted request reaches the poll ahead of the handler with the
    negotiated codec and content type, and no call of the handler or of a
    later phase. *)
Lemma beforeHandle_admitted self r mime :
  admits self r mime →
  ∃ calls,
    beforeHandle self (mkExecState r None []) =
    (Continue (allocateHandler (handlerData self)),
     mkExecState (negotiated r mime) (Some mime) calls) ∧
    ∀ ev, ev ∈ calls → ¬ fromHandleOn ev.
Proof.
  intros Hadm. destruct (beforeHandle_admits self r mime Hadm) as [calls Hb].
  exists calls. split; [done |].
  pose proof (beforeHandle_never fromHandleOn self (or_introl eq_refl)
                (mkExecState r None []) (never_nil _ r None)) as Hnever.
  by rewrite Hb in Hnever.
Qed.

(** X9. An error of the handler ends the request: the status and the error
    the handler returned go to the error handler as they are, the answer is
    the error handler's status with its payload encoded by the negotiated
    codec, under the negotiated content type, and the response phase
    (response codec, response validator) is not entered. *)
Theorem Execute_handler_error self ctx r mime h httpStatus e httpStatus' payload body :
  admits self r mime →
  ShouldContinue ctx BeforeHandle = true →
  Handle (handler (allocateHandler (handlerData self))) = Done (httpStatus, Some e) →
  ErrorHandler (config self) = Some h →
  HandleError h httpStatus (Some e) = Done (httpStatus', payload) →
  Marshal mime payload = Done (body, None) →
  (Execute self ctx r).1 = Done (httpStatus', body) ∧
  requester (Execute self ctx r).2 = negotiated r mime ∧
  never afterHandle (Execute self ctx r).2.
Proof.
  intros Hadm Hpoll Hhandle Hh Hhe Hma.
  destruct (beforeHandle_admitted self r mime Hadm) as (calls & Hb & Hcalls).
  unfold Execute, pipeline. rewrite bind_run, Hb, fromHandle_run, Hpoll, Hhandle.
  rewrite (fail_encoded self mime h httpStatus (Some e) httpStatus' payload body) by done.
  cbn [withRecover fst snd requester trace pushed]. do 2 (split; [done |]).
  intros ev Hin Hev. repeat apply elem_of_cons in Hin as [-> | Hin].
  - destruct Hev; discriminate.
  - destruct Hev; discriminate.
  - destruct Hev; discriminate.
  - apply (Hcalls ev Hin). by right.
Qed.

(** The test for the literal null, on length and content, is an equality. *)
Lemma null_length (body : bytes) :
  (GoBytes.len body =? 4) && GoBytes.Equal body nullBytes = true ↔ body = nullBytes.
Proof.
  rewrite andb_true_iff, Equal_true. split; [by intros [_ ?] | intros ->]. by split.
Qed.

(** X10. A request that goes through: the handler returns a status and a
    nil error, the response body is encoded by the negotiated codec and is
    not the literal null, and the response validator (if it is to run)
    returns a nil failure and a status. The answer is then that status,
    the validator's and not the handler's, with the encoded body; with
    ETags enabled it is what [HandleETag] makes of that status and body on
    the negotiated requester. *)
Theorem Execute_success self ctx r mime httpStatus value body httpStatus' :
  admits self r mime →
  ShouldContinue ctx BeforeHandle = true →
  ShouldContinue ctx AfterHandle = true →
  Handle (handler (allocateHandler (handlerData self))) = Done (httpStatus, None) →
  responseBody (allocateHandler (handlerData self)) = Some value →
  Marshal mime value = Done (body, None) →
  body ≠ nullBytes →
  validated self httpStatus body httpStatus' →
  let answer :=
    if eTagEnabled (handlerData self)
    then ETag.HandleETag (negotiated r mime) (maxAgeSeconds (handlerData self)) httpStatus' body
    else (negotiated r mime, (httpStatus', body)) in
  (Execute self ctx r).1 = Done answer.2 ∧
  requester (Execute self ctx r).2 = answer.1.
Proof.
  intros Hadm Hpoll Hpoll' Hhandle Hslot Hma Hnull Hvalid.
  destruct (beforeHandle_admitted self r mime Hadm) as (calls & Hb & _).
  unfold Execute, pipeline. rewrite bind_run, Hb, fromHandle_run, Hpoll, Hhandle, Hpoll'.
  rewrite processResponseBody_run. cbv zeta. rewrite Hslot.
  unfold pushed. cbn [requester responseMimeType trace]. rewrite Hma.
  destruct (_ && _) eqn:Hn; [by apply null_length in Hn |].
  unfold validated in Hvalid. unfold handleETag.
  change (SetResponseContentType (negotiated r mime) (MimeType mime)) with (negotiated r mime).
  destruct (ResponseValidator (config self)) as [v|];
    [destruct (shouldValidateResponse _); [rewrite Hvalid | subst httpStatus'] |
     subst httpStatus'];
    destruct (eTagEnabled _); cbn [requester responseMimeType trace];
    try (by destruct (ETag.HandleETag _ _ _ _) as [r' out]); done.
Qed.

(** X11. A handler without a response body: the codec is not called, the
    body is empty, and the answer is the status of the handler, or of the
    response validator if it is to run; ETags, enabled or not, leave an
    empty body as it is and set no header. *)
Theorem Execute_no_response_body self ctx r mime httpStatus httpStatus' :
  admits self r mime →
  ShouldContinue ctx BeforeHandle = true →
  ShouldContinue ctx AfterHandle = true →
  Handle (handler (allocateHandler (handlerData self))) = Done (httpStatus, None) →
  responseBody (allocateHandler (handlerData self)) = None →
  validated self httpStatus [] httpStatus' →
  (Execute self ctx r).1 = Done (httpStatus', []) ∧
  requester (Execute self ctx r).2 = negotiated r mime ∧
  ¬ called EvMarshal (Execute self ctx r).2.
Proof.
  intros Hadm Hpoll Hpoll' Hhandle Hslot Hvalid.
  destruct (beforeHandle_admitted self r mime Hadm) as (calls & Hb & Hcalls).
  unfold Execute, pipeline. rewrite bind_run, Hb, fromHandle_run, Hpoll, Hhandle, Hpoll'.
  rewrite processResponseBody_run. cbv zeta. rewrite Hslot.
  unfold pushed. cbn [requester responseMimeType trace].
  unfold validated in Hvalid. unfold handleETag, called.
  assert (∀ st, ETag.HandleETag (negotiated r mime) (maxAgeSeconds (handlerData self)) st []
                = (negotiated r mime, (st, []))) as Hskip.
  { intros st. unfold ETag.HandleETag.
    assert (ETag.skipped (negotiated r mime) st [] = true) as ->; [| done].
    apply skipped_true. by right; left. }
  assert (EvMarshal ∉ calls) as Hno.
  { intros Hin. apply (Hcalls _ Hin). right. by left. }
  destruct (ResponseValidator (config self)) as [v|];
    [destruct (shouldValidateResponse _); [rewrite Hvalid | subst httpStatus'] |
     subst httpStatus'];
    destruct (eTagEnabled _); cbn [requester responseMimeType trace];
    rewrite ?Hskip; cbn [withRecover fst snd requester trace];
    (do 2 (split; [done |]));
    intros Hin; repeat apply elem_of_cons in Hin as [? | Hin]; done.
Qed.

(** X12. A response body that does not encode, or encodes to the literal
    null, is an internal server error: the error handler is given 500 and
    [ErrInternalServerError] wrapping the codec's error (nothing, for
    null), its payload encoded by the negotiated codec is the answer, and
    the response validator is not called. *)
Theorem Execute_response_not_encoded self ctx r mime h httpStatus value body cause
    httpStatus' payload body' :
  admits self r mime →
  ShouldContinue ctx BeforeHandle = true →
  ShouldContinue ctx AfterHandle = true →
  Handle (handler (allocateHandler (handlerData self))) = Done (httpStatus, None) →
  responseBody (allocateHandler (handlerData self)) = Some value →
  Marshal mime value = Done (body, cause) →
  cause ≠ None ∨ body = nullBytes →
  ErrorHandler (config self) = Some h →
  HandleError h 500 (Some (Wrap cause ErrInternalServerError)) = Done (httpStatus', payload) →
  Marshal mime payload = Done (body', None) →
  (Execute self ctx r).1 = Done (httpStatus', body') ∧
  requester (Execute self ctx r).2 = negotiated r mime ∧
  ¬ called EvValidateResponse (Execute self ctx r).2.
Proof.
  intros Hadm Hpoll Hpoll' Hhandle Hslot Hma Hbad Hh Hhe Hma'.
  destruct (beforeHandle_admitted self r mime Hadm) as (calls & Hb & Hcalls).
  unfold Execute, pipeline. rewrite bind_run, Hb, fromHandle_run, Hpoll, Hhandle, Hpoll'.
  rewrite processResponseBody_run. cbv zeta. rewrite Hslot.
  unfold pushed, called. cbn [requester responseMimeType trace]. rewrite Hma.
  change (SetResponseContentType (negotiated r mime) (MimeType mime)) with (negotiated r mime).
  assert (EvValidateResponse ∉ calls) as Hno.
  { intros Hin. apply (Hcalls _ Hin). right. by right. }
  assert (∀ s,
    s = mkExecState (negotiated r mime) (Some mime) (EvMarshal :: EvHandle :: calls) →
    let out := withRecover self
                 (fail self 500 (Some (Wrap cause ErrInternalServerError)) s) in
    out.1 = Done (httpStatus', body') ∧
    requester out.2 = negotiated r mime ∧ EvValidateResponse ∉ trace out.2) as Hfail.
  { intros s ->. cbv zeta.
    rewrite (fail_encoded self mime h 500 _ httpStatus' payload body') by done.
    cbn [withRecover fst snd requester trace]. do 2 (split; [done |]).
    intros Hin. repeat apply elem_of_cons in Hin as [? | Hin]; done. }
  destruct cause as [e|].
  - by apply Hfail.
  - destruct Hbad as [? | ->]; [done |].
    assert ((GoBytes.len nullBytes =? 4) && GoBytes.Equal nullBytes nullBytes = true) as ->
      by by apply null_length.
    by apply Hfail.
Qed.

(** X13. A response the validator rejects is not sent: the validator's
    status and failure go to the error handler, its payload encoded by the
    negotiated codec is the answer, and no ETag processing takes place:
    the response headers are those the negotiation left. *)
Theorem Execute_response_rejected self ctx r mime h validator httpStatus value body
    failedStatus failure httpStatus' payload body' :
  admits self r mime →
  ShouldContinue ctx BeforeHandle = true →
  ShouldContinue ctx AfterHandle = true →
  Handle (handler (allocateHandler (handlerData self))) = Done (httpStatus, None) →
  responseBody (allocateHandler (handlerData self)) = Some value →
  Marshal mime value = Done (body, None) →
  body ≠ nullBytes →
  ResponseValidator (config self) = Some validator →
  shouldValidateResponse (handlerData self) = true →
  ValidateResponse validator httpStatus body = Done (failedStatus, Some failure) →
  ErrorHandler (config self) = Some h →
  HandleError h failedStatus (Some failure) = Done (httpStatus', payload) →
  Marshal mime payload = Done (body', None) →
  (Execute self ctx r).1 = Done (httpStatus', body') ∧
  requester (Execute self ctx r).2 = negotiated r mime.
Proof.
  intros Hadm Hpoll Hpoll' Hhandle Hslot Hma Hnull Hv Hshould Hreject Hh Hhe Hma'.
  destruct (beforeHandle_admitted self r mime Hadm) as (calls & Hb & _).
  unfold Execute, pipeline. rewrite bind_run, Hb, fromHandle_run, Hpoll, Hhandle, Hpoll'.
  rewrite processResponseBody_run. cbv zeta. rewrite Hslot.
  unfold pushed. cbn [requester responseMimeType trace]. rewrite Hma.
  destruct (_ && _) eqn:Hn; [by apply null_length in Hn |].
  rewrite Hv, Hshould, Hreject.
  by rewrite (fail_encoded self mime h failedStatus _ httpStatus' payload body').
Qed.

End RequesterOutcomes.

(** ** The executor on a [Requester]: requests turned away before the handler *)

Section RequesterRejections.
Import Endpoint.
Context {any : Type} `{!Runtime any}.
Implicit Types (self : Endpoint any) (ctx : Context) (s : ExecState any).

Lemma negotiation_run self r mime :
  negotiates self r mime →
  setupMimeTypes self (started r) =
  (Continue (requestCodec self r), mkExecState (negotiated r mime) (Some mime) []).
Proof.
  intros (Hacc & Hfound & Hreq).
  destruct (setupMimeTypes_run self (started r) eq_refl)
    as [[body [Hno _]] | [rm [mime' [_ [Hfound' [_ Hrun]]]]]];
    cbn [started requester Accept SetResponseHeader] in *.
  { by destruct Hno as [? | [? | ?]]; [| congruence |]. }
  assert (mime' = mime) as -> by congruence.
  by pose proof (setupMimeTypes_codec self (started r) _ _ eq_refl Hrun) as ->.
Qed.

(** Membership in a trace that is written out. *)
Local Ltac trace_check :=
  let ev := fresh "ev" in
  let Hin := fresh "Hin" in
  let Hev := fresh "Hev" in
  intros ev Hin Hev;
  repeat (apply elem_of_cons in Hin as [-> | Hin]);
  [ .. | by apply not_elem_of_nil in Hin ];
  unfold afterBinding, afterAuthorization, fromHandleOn, afterHandle in Hev;
  intuition discriminate.

(** X14. A binder that returns an error ends the request before the
    authorization: resources that cannot be bound are an internal server
    error, path or query parameters that cannot be bound a bad request. The
    error handler is given 500 (400) and [ErrInternalServerError]
    ([ErrBadRequest]) wrapping the binder's error, and its encoded payload
    is the answer. *)
Theorem Execute_not_bound self ctx r mime h e httpStatus wrapped httpStatus' payload body :
  negotiates self r mime →
  (setResources (handlerData self) (Resources (config self)) = Done (Some e) ∧
   httpStatus = 500 ∧ wrapped = ErrInternalServerError) ∨
  (setResources (handlerData self) (Resources (config self)) = Done None ∧
   (setPathParameters (handlerData self) (negotiated r mime) = Done (Some e) ∨
    (setPathParameters (handlerData self) (negotiated r mime) = Done None ∧
     setQueryParameters (handlerData self) (negotiated r mime) = Done (Some e))) ∧
   httpStatus = 400 ∧ wrapped = ErrBadRequest) →
  ErrorHandler (config self) = Some h →
  HandleError h httpStatus (Some (Wrap (Some e) wrapped)) = Done (httpStatus', payload) →
  Marshal mime payload = Done (body, None) →
  (Execute self ctx r).1 = Done (httpStatus', body) ∧
  requester (Execute self ctx r).2 = negotiated r mime ∧
  never afterBinding (Execute self ctx r).2.
Proof.
  intros Hneg Hbinder Hh Hhe Hma.
  rewrite Execute_run, (negotiation_run self r mime Hneg), bind_run.
  unfold binding. rewrite bind_run, allocation_run. cbn [requester].
  destruct Hbinder as [(Hres & -> & ->) | (Hres & Hparams & -> & ->)]; rewrite Hres.
  - rewrite (fail_encoded self mime h _ _ httpStatus' payload body) by done.
    cbn [withRecover fst snd requester trace pushed]. do 2 (split; [done |]). trace_check.
  - cbv zeta. destruct Hparams as [Hpath | [Hpath Hquery]]; rewrite Hpath; [| rewrite Hquery];
      rewrite (fail_encoded self mime h _ _ httpStatus' payload body) by done;
      cbn [withRecover fst snd requester trace pushed]; (do 2 (split; [done |])); trace_check.
Qed.

(** X15. An auth object decides before the request body is read: an
    authorizer that returns an error ends the request with the status and
    the error it returned, and an auth object that is no authorizer is an
    internal server error. The error handler's encoded payload is the
    answer; the request body is neither decoded nor validated and the
    handler is not called. *)
Theorem Execute_not_authorized self ctx r mime h httpStatus err httpStatus' payload body :
  negotiates self r mime →
  bound self (negotiated r mime) →
  match auth (allocateHandler (handlerData self)) with
  | Some (Some asAuthorizer) =>
      ∃ e, Authorization asAuthorizer (PeekHeader (negotiated r mime)) = Done (httpStatus, Some e) ∧
           err = e
  | Some None => httpStatus = 500 ∧ err = Wrap None ErrInternalServerError
  | None => False
  end →
  ErrorHandler (config self) = Some h →
  HandleError h httpStatus (Some err) = Done (httpStatus', payload) →
  Marshal mime payload = Done (body, None) →
  (Execute self ctx r).1 = Done (httpStatus', body) ∧
  requester (Execute self ctx r).2 = negotiated r mime ∧
  never afterAuthorization (Execute self ctx r).2.
Proof.
  intros Hneg (Hres & Hpath & Hquery) Hauth Hh Hhe Hma.
  rewrite Execute_run, (negotiation_run self r mime Hneg), bind_run.
  unfold binding. rewrite bind_run, allocation_run. cbn [requester].
  rewrite Hres, Hpath, Hquery. cbv beta iota zeta.
  rewrite bind_run, authorization_run. unfold pushed. cbn [requester responseMimeType trace].
  destruct (auth _) as [[a|]|]; [| | done].
  - destruct Hauth as (e & -> & ->).
    rewrite (fail_encoded self mime h _ _ httpStatus' payload body) by done.
    cbn [withRecover fst snd requester trace]. do 2 (split; [done |]). trace_check.
  - destruct Hauth as [-> ->].
    rewrite (fail_encoded self mime h _ _ httpStatus' payload body) by done.
    cbn [withRecover fst snd requester trace]. do 2 (split; [done |]). trace_check.
Qed.

(** X16. A request body that cannot be used ends the request before the
    handler: a body the request codec cannot decode is a bad request (400,
    [ErrBadRequest] wrapping the codec's error), and a decoded body the
    request validator rejects is answered with the validator's status and
    failure. The error handler's encoded payload is the answer, and the
    handler is not called. *)
Theorem Execute_request_rejected self ctx r mime h httpStatus err httpStatus' payload body :
  negotiates self r mime →
  bound self (negotiated r mime) →
  authorized self (negotiated r mime) →
  hasRequestBody (handlerData self) = true →
  (∃ target codec e,
     requestBody (allocateHandler (handlerData self)) = Some target ∧
     requestCodec self r = Some codec ∧
     Unmarshal codec (RequestBody r) target = Done (Some e) ∧
     httpStatus = 400 ∧ err = Wrap (Some e) ErrBadRequest) ∨
  (match requestBody (allocateHandler (handlerData self)) with
   | Some target =>
       ∃ codec, requestCodec self r = Some codec ∧
                Unmarshal codec (RequestBody r) target = Done None
   | None => True
   end ∧
   ∃ validator,
     RequestValidator (config self) = Some validator ∧
     shouldValidateRequest (handlerData self) = true ∧
     ValidateRequest validator (RequestBody r) = Done (httpStatus, Some err)) →
  ErrorHandler (config self) = Some h →
  HandleError h httpStatus (Some err) = Done (httpStatus', payload) →
  Marshal mime payload = Done (body, None) →
  (Execute self ctx r).1 = Done (httpStatus', body) ∧
  requester (Execute self ctx r).2 = negotiated r mime ∧
  never fromHandleOn (Execute self ctx r).2.
Proof.
  intros Hneg (Hres & Hpath & Hquery) Hauth Hreq Hbody Hh Hhe Hma.
  rewrite Execute_run, (negotiation_run self r mime Hneg), bind_run.
  unfold binding. rewrite bind_run, allocation_run. cbn [requester].
  rewrite Hres, Hpath, Hquery. cbv beta iota zeta.
  rewrite bind_run, authorization_run. unfold pushed. cbn [requester responseMimeType trace].
  unfold authorized in Hauth.
  assert (∀ calls,
    (∀ ev, ev ∈ calls → ¬ fromHandleOn ev) →
    let out :=
      withRecover self
        match
          bind (processRequestBody self (requestCodec self r)
                  (allocateHandler (handlerData self)))
            (λ _, ret (allocateHandler (handlerData self)))
            (mkExecState (negotiated r mime) (Some mime) calls)
        with
        | (Continue a, s') => fromHandle self ctx a s'
        | (Returned out, s') => (Returned out, s')
        | (Panicked p, s') => (Panicked p, s')
        end in
    out.1 = Done (httpStatus', body) ∧
    requester out.2 = negotiated r mime ∧ never fromHandleOn out.2) as Hrest.
  { intros calls Hcalls. cbv zeta. rewrite bind_run, processRequestBody_run. cbv zeta.
    rewrite Hreq. unfold pushed. cbn [requester responseMimeType trace RequestBody negotiated
      SetResponseContentType SetResponseHeader].
    destruct Hbody as [(target & codec & e & -> & -> & -> & -> & ->) |
                       (Hslot & validator & -> & -> & Hv)].
    - rewrite (fail_encoded self mime h _ _ httpStatus' payload body) by done.
      cbn [withRecover fst snd requester trace]. do 2 (split; [done |]).
      intros ev Hin Hev. repeat (apply elem_of_cons in Hin as [-> | Hin]);
        [destruct Hev as [? | [? | ?]]; discriminate .. | by apply (Hcalls ev)].
    - destruct (requestBody _) as [target|]; [destruct Hslot as (codec & -> & ->) |];
        rewrite Hv;
        rewrite (fail_encoded self mime h _ _ httpStatus' payload body) by done;
        cbn [withRecover fst snd requester trace]; (do 2 (split; [done |]));
        (intros ev Hin Hev; repeat (apply elem_of_cons in Hin as [-> | Hin]);
         [destruct Hev as [? | [? | ?]]; discriminate .. | by apply (Hcalls ev)]). }
  destruct (auth _) as [[a|]|]; [| done |].
  - destruct Hauth as [st ->]. cbv beta iota. apply Hrest.
    intros ev Hin Hev. repeat (apply elem_of_cons in Hin as [-> | Hin]);
      [destruct Hev as [? | [? | ?]]; discriminate .. | by apply not_elem_of_nil in Hin].
  - cbv beta iota. apply Hrest.
    intros ev Hin Hev. repeat (apply elem_of_cons in Hin as [-> | Hin]);
      [destruct Hev as [? | [? | ?]]; discriminate .. | by apply not_elem_of_nil in Hin].
Qed.

End RequesterRejections.

(** ** The executor on a [Requester]: what it writes to the requester *)

Section RequesterFrame.
Import Endpoint.
Context {any : Type} `{!Runtime any}.
Implicit Types (self : Endpoint any) (ctx : Context) (s : ExecState any).

Section Stable.
Variables (self : Endpoint any) (Q : Requester → Prop).
Hypothesis content_type : ∀ r mime, Q r → Q (SetResponseContentType r mime).
Hypothesis etag :
  eTagEnabled (handlerData self) = true →
  ∀ r maxAgeSeconds httpStatus body, Q r → Q (ETag.HandleETag r maxAgeSeconds httpStatus body).1.

Local Ltac stable_side :=
  first
    [ intros ? ?; unfold stable in *; cbn [requester];
      first [ assumption | by apply content_type ]
    | apply preserves_bind; [apply preserves_getResponseMimeType | intros ?]
    | assumption ].

Lemma processErrorResponse_stable mime httpStatus err :
  preserves (stable Q) (processErrorResponse self mime httpStatus err).
Proof. unfold processErrorResponse. repeat preserves_step stable_side. Qed.

Lemma fail_stable {A} httpStatus err : preserves (stable Q) (@fail any _ A self httpStatus err).
Proof.
  intros s Hs. unfold fail.
  by apply (preserves_exit _ (processErrorResponse self (responseMimeType s) httpStatus err));
    [apply processErrorResponse_stable |].
Qed.

Lemma handleETag_stable {A} maxAgeSeconds httpStatus body :
  eTagEnabled (handlerData self) = true →
  preserves (stable Q) (@handleETag any A maxAgeSeconds httpStatus body).
Proof.
  intros He s Hs. unfold handleETag, stable.
  pose proof (etag He (requester s) maxAgeSeconds httpStatus body Hs) as H.
  by destruct (ETag.HandleETag _ _ _ _) as [r' out].
Qed.

Lemma conclude_stable httpStatus body :
  preserves (stable Q)
    (if eTagEnabled (handlerData self)
     then handleETag (maxAgeSeconds (handlerData self)) httpStatus body
     else Return (httpStatus, body) : M any (Z * bytes)).
Proof.
  pose proof (@handleETag_stable (Z * bytes) (maxAgeSeconds (handlerData self)) httpStatus body)
    as H.
  destruct (eTagEnabled (handlerData self)); [by apply H | apply preserves_Return].
Qed.

Lemma pipeline_stable ctx requestMimeType :
  preserves (stable Q) (bind (binding self requestMimeType) (fromHandle self ctx)).
Proof.
  unfold binding, allocation, authorization, processRequestBody, setHandlerRequestBody,
    fromHandle, processResponseBody, getHandlerResponseBody.
  repeat first
    [ apply conclude_stable
    | preserves_step ltac:(first [ apply fail_stable | stable_side ]) ].
Qed.

Lemma setupMimeTypes_stable : preserves (stable Q) (setupMimeTypes self).
Proof.
  unfold setupMimeTypes.
  repeat preserves_step ltac:(first [ apply fail_stable | stable_side ]).
Qed.

Lemma Execute_stable ctx r :
  Q (SetResponseHeader r httpheader.XRequestId (RequestId r)) →
  Q (requester (Execute self ctx r).2).
Proof.
  intros Hstart. rewrite Execute_run.
  pose proof (setupMimeTypes_stable (started r) Hstart) as Hneg.
  destruct (setupMimeTypes self (started r)) as [[rm|out|p] s1]; cbn [snd] in Hneg.
  - pose proof (pipeline_stable ctx rm s1 Hneg) as Hp.
    destruct (bind _ _ s1) as [[out|out|p] s2]; cbn [withRecover snd] in *; [done | done |].
    unfold recovery.
    pose proof (processErrorResponse_stable (responseMimeType s2)
                  httpstatus.InternalServerError
                  (Some (Wrap (Some (Recover p)) ErrInternalServerError)) s2 Hp) as H.
    by destruct (processErrorResponse _ _ _ _ s2) as [[out|out|p'] s'].
  - done.
  - cbn [withRecover]. unfold recovery.
    pose proof (processErrorResponse_stable (responseMimeType s1)
                  httpstatus.InternalServerError
                  (Some (Wrap (Some (Recover p)) ErrInternalServerError)) s1 Hneg) as H.
    by destruct (processErrorResponse _ _ _ _ s1) as [[out|out|p'] s'].
Qed.

End Stable.

(** X17. What [Execute] writes to the requester, however the request
    ends (answer, error response or recovered panic): the request side is
    left as it was; the X-Request-Id response header is the request id;
    every other response header except ETag and Cache-Control is left as it
    was; and with ETags disabled the X-Request-Id header is the only one
    written. *)
Theorem Execute_frame self ctx r :
  let r' := requester (Execute self ctx r).2 in
  sameRequest r r' ∧
  responseHeaders r' !! httpheader.XRequestId = Some (RequestId r) ∧
  (∀ key, key ≠ httpheader.XRequestId → key ≠ httpheader.ETag →
          key ≠ httpheader.CacheControl →
          responseHeaders r' !! key = responseHeaders r !! key) ∧
  (eTagEnabled (handlerData self) = false →
   responseHeaders r' = <[httpheader.XRequestId := RequestId r]> (responseHeaders r)).
Proof.
  intros r'. subst r'.
  pose proof (Execute_stable self
    (λ r', sameRequest r r' ∧
           ∀ key, key ≠ httpheader.ETag → key ≠ httpheader.CacheControl →
                  responseHeaders r' !! key =
                  <[httpheader.XRequestId := RequestId r]> (responseHeaders r) !! key)) as H1.
  cbv beta in H1. destruct (H1 ltac:(by intros ? ? [? ?])) with (ctx := ctx) (r := r)
    as [Hsame Hkeys].
  - intros _ r0 maxAgeSeconds httpStatus body [Hsame Hkeys]. unfold ETag.HandleETag.
    destruct (ETag.skipped r0 httpStatus body); [done |]. cbv zeta.
    destruct (ETag.isCacheFresh _ _ _) as [st []]; destruct (negb (maxAgeSeconds =? 0));
      cbn; (split; [done |]); intros key Hk1 Hk2; rewrite ?lookup_insert_ne by done;
      by apply Hkeys.
  - by split.
  - split; [done |]. split; [by rewrite Hkeys, ?lookup_insert_eq |].
    split; [by intros key Hk Hk1 Hk2; rewrite Hkeys, ?lookup_insert_ne |].
    intros He.
    apply (Execute_stable self
             (λ r', responseHeaders r' =
                    <[httpheader.XRequestId := RequestId r]> (responseHeaders r)));
      [done | congruence | done].
Qed.

End RequesterFrame.

(** ** Endpoints as [NewEndpoint] builds them *)

Section NewEndpointExecution.
Import Endpoint.
Context {any : Type} `{!Runtime any}.
Implicit Types (self : Endpoint any) (ctx : Context) (s : ExecState any).

Local Ltac validation_side :=
  first
    [ intros ? ?;
      first [ apply never_call; [unfold validation; intuition discriminate | assumption]
            | eapply never_same_trace; [| eassumption]; reflexivity ]
    | apply preserves_bind; [apply preserves_getResponseMimeType | intros ?]
    | apply handleETag_never
    | apply fail_never; unfold validation; intuition discriminate
    | assumption ].

(** An endpoint without validators calls none. *)
Lemma pipeline_never_validation self ctx :
  RequestValidator (config self) = None →
  ResponseValidator (config self) = None →
  preserves (never validation) (pipeline self ctx).
Proof.
  intros Hrequest Hresponse.
  unfold pipeline, beforeHandle, negotiation, binding, setupMimeTypes, allocation,
    authorization, processRequestBody, setHandlerRequestBody, fromHandle,
    processResponseBody, getHandlerResponseBody.
  rewrite Hrequest, Hresponse.
  repeat preserves_step validation_side.
Qed.

(** X18. [NewEndpoint] does not carry the validators of the configuration
    over to the endpoint: whatever request and response validators the
    configuration holds, executing the endpoint calls neither. *)
Theorem NewEndpoint_drops_validators (cfg : Config any) (handler : handlerTypeData any) ctx r :
  RequestValidator (config (NewEndpoint cfg handler)) = None ∧
  ResponseValidator (config (NewEndpoint cfg handler)) = None ∧
  never validation (Execute (NewEndpoint cfg handler) ctx r).2.
Proof.
  do 2 (split; [done |]).
  apply Execute_never; [unfold validation; intuition discriminate .. |].
  by apply pipeline_never_validation.
Qed.

(** X19. [NewEndpoint] completes a configuration once and for all: the
    endpoint has an error handler, a registry, resources and a non-zero
    timeout, and building an endpoint from the configuration of an
    endpoint changes nothing. *)
Theorem NewEndpoint_idempotent (cfg : Config any) (handler handler' : handlerTypeData any) :
  let self := NewEndpoint cfg handler in
  is_Some (ErrorHandler (config self)) ∧
  is_Some (MimeTypeHandlers (config self)) ∧
  is_Some (Resources (config self)) ∧
  Timeout (config self) ≠ 0 ∧
  NewEndpoint (config self) handler' = NewEndpoint cfg handler'.
Proof.
  intros self. subst self. unfold NewEndpoint. cbn [config handlerData ErrorHandler
    MimeTypeHandlers Resources Timeout RequestValidator ResponseValidator].
  assert ((if Timeout cfg =? 0 then 30 * 1000000000 else Timeout cfg) ≠ 0) as Htimeout.
  { destruct (Timeout cfg =? 0) eqn:Hz; [done | by apply Z.eqb_neq]. }
  split; [by destruct (ErrorHandler cfg) |].
  split; [by destruct (MimeTypeHandlers cfg) |].
  split; [by destruct (Resources cfg) |].
  split; [done |].
  f_equal. f_equal.
  - by destruct (ErrorHandler cfg).
  - destruct (MimeTypeHandlers cfg) as [custom|]; rewrite !copy_over_defaults.
    + by rewrite <- (assoc_L (∪)), (idemp_L (∪)).
    + by rewrite (idemp_L (∪)).
  - by destruct (Resources cfg).
  - apply Z.eqb_neq in Htimeout. by rewrite Htimeout.
Qed.

End NewEndpointExecution.

(** ** The executor on a fasthttp request context *)

Section FastHttpExecution.
Import FastHttpEndpoint.
Context {any : Type} `{!Runtime any}.
Implicit Types (self : Endpoint any) (ctx : Context) (s : ExecState any).

Lemma FastHttp_fail_never_error {A} (E : Event any → Prop) self httpStatus err :
  (∀ st e, ¬ E (EvHandleError st e)) → ¬ E EvMarshalError →
  preserves (never E) (@fail any _ A self httpStatus err).
Proof.
  intros H1 H2 s Hs. unfold fail.
  by apply (preserves_exit _ (processErrorResponse self (responseMimeType s) httpStatus err));
    [apply FastHttp_processErrorResponse_never |].
Qed.

Lemma FastHttp_Execute_never (E : Event any → Prop) self ctx r :
  (∀ st e, ¬ E (EvHandleError st e)) → ¬ E EvMarshalError →
  preserves (never E) (pipeline self ctx) →
  never E (Execute self ctx r).2.
Proof.
  intros H1 H2 Hp. unfold Execute, withRecover.
  specialize (Hp (mkExecState r None []) (never_nil E r None)).
  destruct (pipeline self ctx _) as [[out|out|p] s]; simpl in *; [done | done |].
  unfold recovery.
  pose proof (FastHttp_processErrorResponse_never E self (responseMimeType s)
                httpstatus.InternalServerError (Some ErrorPanic) H1 H2 s Hp) as H.
  by destruct (processErrorResponse _ _ _ _ s) as [[out|out|p'] s'].
Qed.

Lemma FastHttp_bind_bind_fail {A B C} I self httpStatus err (k : A → M any B)
    (k' : B → M any C) :
  preserves I (@fail any _ A self httpStatus err) →
  preserves I (bind (bind (fail self httpStatus err) k) k').
Proof.
  intros H s Hs. specialize (H s Hs). rewrite bind_bind_run.
  unfold fail, exit in *. rewrite bind_run in *.
  by destruct (processErrorResponse _ _ _ _ s) as [[out|out|p] s'].
Qed.

Local Ltac later_side :=
  first
    [ intros ? ?;
      first [ apply never_call; [unfold laterThan; intuition discriminate | assumption]
            | eapply never_same_trace; [| eassumption]; reflexivity ]
    | apply FastHttp_fail_never_error; unfold laterThan; intuition discriminate
    | apply FastHttp_bind_fail; apply FastHttp_fail_never_error;
      unfold laterThan; intuition discriminate
    | apply preserves_bind; [apply preserves_getResponseMimeType | intros ?] ].

(** X21. The context is polled at five places, and a request that is
    canceled or past its deadline at one of them goes no further: none of
    the collaborators that come after that place is called, be it the
    auther, the binders, the request codec and validator, the handler, or
    the response codec and validator. *)
Theorem FastHttp_Execute_expired self ctx r (site : PollSite) :
  ShouldContinue ctx site = false →
  never (laterThan site) (Execute self ctx r).2.
Proof.
  intros Hpoll.
  apply FastHttp_Execute_never;
    [destruct site; unfold laterThan; intuition discriminate .. |].
  unfold pipeline, handleRequest, handleResponse, poll.
  destruct site; rewrite Hpoll; cbn [negb];
    unfold setupMimeTypes, authentication, allocation, setHandlerRequestBody,
      getHandlerResponseBody;
    repeat first
      [ apply FastHttp_bind_bind_fail; apply FastHttp_fail_never_error;
        unfold laterThan; intuition discriminate
      | preserves_step later_side ].
Qed.

End FastHttpExecution.

(** ** The response content type after the negotiation *)

Section RequesterContentType.
Import Endpoint.
Context {any : Type} `{!Runtime any}.
Implicit Types (self : Endpoint any) (ctx : Context) (s : ExecState any).

Lemma encodeFailed_grows self mime s s' :
  (∀ ev, ev ∈ trace s → ev ∈ trace s') → encodeFailed self mime s → encodeFailed self mime s'.
Proof.
  intros Hsub (h & st & err & st' & x & b & e & Hh & Hin & Hhe & Hma).
  exists h, st, err, st', x, b, e. repeat split; try assumption. by apply Hsub.
Qed.

Section Settled.
Variables (self : Endpoint any) (mime : MimeTypeHandler any).

Lemma settled_grows s r' calls :
  settled self mime s →
  responseContentType r' = responseContentType (requester s) →
  (∀ ev, ev ∈ trace s → ev ∈ calls) →
  settled self mime (mkExecState r' (responseMimeType s) calls).
Proof.
  intros [Hm Hct] Hr Hsub. split; [done |]. cbn [requester]. rewrite Hr.
  destruct Hct as [? | [? Hfailed]]; [by left | right]. split; [done |].
  by apply (encodeFailed_grows self mime s).
Qed.

Lemma processErrorResponse_settled httpStatus err :
  preserves (settled self mime) (processErrorResponse self (Some mime) httpStatus err).
Proof.
  intros s Hs. unfold processErrorResponse.
  destruct (ErrorHandler (config self)) as [h|] eqn:Hh; [| done].
  rewrite bind_run. cbn [call].
  destruct (HandleError h httpStatus err) as [[st' x]|p] eqn:Hhe.
  2:{ cbn [snd]. apply settled_grows; [done | done |]. intros ev ?. by apply list_elem_of_further. }
  rewrite bind_run. cbn [call].
  destruct (Marshal mime x) as [[b [e|]]|p] eqn:Hma; cbn [snd requester responseMimeType trace].
  - split; [apply Hs |]. right. split; [done |].
    exists h, httpStatus, err, st', x, b, e. repeat split; try assumption.
    unfold called. cbn [trace]. apply list_elem_of_further, list_elem_of_here.
  - apply settled_grows; [done | done |].
    intros ev ?. by do 2 apply list_elem_of_further.
  - apply settled_grows; [done | done |].
    intros ev ?. by do 2 apply list_elem_of_further.
Qed.

Lemma fail_settled {A} httpStatus err :
  preserves (settled self mime) (@fail any _ A self httpStatus err).
Proof.
  intros s Hs. unfold fail. rewrite (proj1 Hs).
  by apply (preserves_exit _ (processErrorResponse self (Some mime) httpStatus err));
    [apply processErrorResponse_settled |].
Qed.

Lemma bind_getResponseMimeType_settled {B} (k : option (MimeTypeHandler any) → M any B) :
  preserves (settled self mime) (k (Some mime)) →
  preserves (settled self mime) (bind getResponseMimeType k).
Proof.
  intros Hk s Hs. rewrite bind_run. cbn [getResponseMimeType].
  rewrite (proj1 Hs). by apply Hk.
Qed.

Lemma handleETag_settled {A} maxAgeSeconds httpStatus body :
  preserves (settled self mime) (@handleETag any A maxAgeSeconds httpStatus body).
Proof.
  intros s Hs. unfold handleETag.
  pose proof (HandleETag_content_type (requester s) maxAgeSeconds httpStatus body) as Hct.
  destruct (ETag.HandleETag _ _ _ _) as [r' out]. by apply settled_grows.
Qed.

Local Ltac settled_side :=
  first
    [ apply fail_settled
    | apply bind_getResponseMimeType_settled
    | apply handleETag_settled
    | intros ? ?; apply settled_grows;
      [assumption | reflexivity | intros ? ?; by apply list_elem_of_further]
    | intros ? [? ?]; split; [assumption | by left] ].

Lemma afterSetup_settled ctx requestMimeType :
  preserves (settled self mime) (bind (binding self requestMimeType) (fromHandle self ctx)).
Proof.
  unfold binding, allocation, authorization, processRequestBody, setHandlerRequestBody,
    fromHandle, processResponseBody, getHandlerResponseBody.
  repeat preserves_step settled_side.
Qed.

Lemma recovery_settled payload s :
  settled self mime s → settled self mime (recovery self payload s).2.
Proof.
  intros Hs. unfold recovery. rewrite (proj1 Hs).
  pose proof (processErrorResponse_settled httpstatus.InternalServerError
                (Some (Wrap (Some (Recover payload)) ErrInternalServerError)) s Hs) as H.
  by destruct (processErrorResponse _ _ _ _ s) as [[out|out|p'] s''].
Qed.

Lemma afterNegotiation_settled ctx requestMimeType s :
  settled self mime s →
  settled self mime
    (withRecover self (bind (binding self requestMimeType) (fromHandle self ctx) s)).2.
Proof.
  intros Hs. pose proof (afterSetup_settled ctx requestMimeType s Hs) as Hp.
  unfold withRecover.
  destruct (bind _ _ s) as [[out|out|p] s']; cbn [snd] in *; [done | done |].
  by apply recovery_settled.
Qed.

End Settled.

(** The pipeline: 415 from the negotiation, or a run that ends in a
    state where the codec for the Accept header is the negotiated one. *)
Lemma pipeline_run self ctx r :
  (∃ body s,
     (Accept r = [] ∨
      Get (registry self) (Accept r) (responseMimeTypes (handlerData self)) = None ∨
      ¬ requestTypeAccepted self r) ∧
     pipeline self ctx (mkExecState r None []) = (Returned (415, body), s)) ∨
  (∃ mime,
     Accept r ≠ [] ∧
     Get (registry self) (Accept r) (responseMimeTypes (handlerData self)) = Some mime ∧
     requestTypeAccepted self r ∧
     settled self mime (pipeline self ctx (mkExecState r None [])).2).
Proof.
  assert (pipeline self ctx (mkExecState r None []) =
          match setupMimeTypes self (started r) with
          | (Continue requestMimeType, s) =>
              bind (binding self requestMimeType) (fromHandle self ctx) s
          | (Returned out, s) => (Returned out, s)
          | (Panicked p, s) => (Panicked p, s)
          end) as ->.
  { unfold pipeline, beforeHandle, negotiation. rewrite bind_bind_run, !bind_run. reflexivity. }
  destruct (setupMimeTypes_run self (started r) eq_refl)
    as [[body [Hwhy ->]] | [rm [mime [Hacc [Hfound [Hreq ->]]]]]];
    cbn [started requester Accept SetResponseHeader] in *.
  - left. by eexists _, _.
  - right. exists mime. do 3 (split; [done |]).
    apply (afterSetup_settled self mime ctx rm). split; [done | by left].
Qed.

(** The deferred function, once a codec is negotiated and the error
    handler returns. *)
Lemma recovery_run self mime h payload httpStatus errStruct s :
  responseMimeType s = Some mime →
  ErrorHandler (config self) = Some h →
  HandleError h 500 (Some (Wrap (Some (Recover payload)) ErrInternalServerError))
  = Done (httpStatus, errStruct) →
  (recovery self payload s).1 =
  match Marshal mime errStruct with
  | Done (body, None) => Done (httpStatus, body)
  | Done (_, Some e) => Done (500, Sprintf "%s" (Some (Wrap (Some e) ErrInternalServerError)))
  | Panics p => Panics p
  end.
Proof.
  intros Hm Hh Hhe. unfold recovery. rewrite Hm. unfold processErrorResponse.
  rewrite Hh, bind_run. cbn [call]. change httpstatus.InternalServerError with 500.
  rewrite Hhe, bind_run. cbn [call].
  by destruct (Marshal mime errStruct) as [[b [e|]]|p].
Qed.

End RequesterContentType.

(** ** The response content type on the fasthttp revision *)

Section FastHttpContentType.
Import FastHttpEndpoint.
Context {any : Type} `{!Runtime any}.
Implicit Types (self : Endpoint any) (ctx : Context) (s : ExecState any).

Lemma FastHttp_fail_run {A} self httpStatus err s :
  @fail any _ A self httpStatus err s =
  match processErrorResponse self (responseMimeType s) httpStatus err s with
  | (Continue out, s') | (Returned out, s') => (Returned out, s')
  | (Panicked p, s') => (Panicked p, s')
  end.
Proof.
  unfold fail, exit. rewrite bind_run.
  by destruct (processErrorResponse _ _ _ _ s) as [[out|out|p] s'].
Qed.

(** Before a codec is negotiated the error responder answers in plain
    text with the status it is given. *)
Lemma FastHttp_fail_plain {A} self httpStatus err s :
  responseMimeType s = None →
  @fail any _ A self httpStatus err s =
  (Returned (httpStatus, Sprintf "%#v" err),
   mkExecState (SetResponseContentType (requester s) mimeTypeTextPlain) None (trace s)).
Proof. intros H. rewrite FastHttp_fail_run. destruct s as [r m t]. simpl in H. by subst m. Qed.

(** The negotiation of a handler with a response body: 415 in plain text,
    or the codec for the Accept header is resolved and the response content
    type set. *)
Lemma FastHttp_setupMimeTypes_run self s :
  hasResponseBody (handlerData self) = true →
  responseMimeType s = None →
  let accept := Accept (requester s) in
  let found := Get (FastHttp_registry self) accept (responseMimeTypes (handlerData self)) in
  (∃ body,
     (accept = [] ∨ found = None ∨ ¬ FastHttp_requestTypeAccepted self (requester s)) ∧
     setupMimeTypes self s =
     (Returned (415, body),
      mkExecState (SetResponseContentType (requester s) mimeTypeTextPlain) None (trace s))) ∨
  (∃ requestMimeType mime,
     accept ≠ [] ∧ found = Some mime ∧ FastHttp_requestTypeAccepted self (requester s) ∧
     setupMimeTypes self s =
     (Continue requestMimeType,
      mkExecState (SetResponseContentType (requester s) (MimeType mime)) (Some mime) (trace s))).
Proof.
  intros Hbody Hnone accept found. subst accept found.
  unfold setupMimeTypes, FastHttp_requestTypeAccepted, FastHttp_registry.
  set (handlers := default ∅ (MimeTypeHandlers (config self))).
  destruct s as [r m t]. simpl in Hnone. subst m. cbn [requester].
  rewrite bind_run, Hbody. cbn [getRequester requester].
  assert (∀ requestMimeType : option (MimeTypeHandler any),
    Get handlers (Accept r) (responseMimeTypes (handlerData self)) = None ∨ Accept r = [] →
    ∃ body,
      ((if GoBytes.len (Accept r) =? 0
        then fail self httpstatus.UnsupportedMediaType
               (Some (NewCoded "InternalCodeResponseMimeTypeMissing"
                        "Accept MIME type not provided" []))
        else
          bind (setResponseMimeType
                  (Get handlers (Accept r) (responseMimeTypes (handlerData self))))
            (λ _, match Get handlers (Accept r) (responseMimeTypes (handlerData self)) with
                  | None =>
                      fail self httpstatus.UnsupportedMediaType
                        (Some (NewCoded "InternalCodeResponseMimeTypeUnsupported"
                                 "Accept MIME type not supported: %s" [Accept r]))
                  | Some mime => bind (setContentType (MimeType mime)) (λ _, ret requestMimeType)
                  end)) : M any (option (MimeTypeHandler any))) (mkExecState r None t) =
      (Returned (415, body),
       mkExecState (SetResponseContentType r mimeTypeTextPlain) None t)) as Hreject.
  { intros rm Hno. destruct (GoBytes.len (Accept r) =? 0) eqn:Hacc.
    { eexists. by rewrite FastHttp_fail_plain. }
    destruct Hno as [Hno | Hno]; [| apply len_zero in Hno; congruence].
    rewrite Hno. eexists. rewrite bind_run. cbn [setResponseMimeType].
    by rewrite FastHttp_fail_plain. }
  assert (∀ (requestMimeType : option (MimeTypeHandler any)) mime,
    Get handlers (Accept r) (responseMimeTypes (handlerData self)) = Some mime →
    Accept r ≠ [] →
    ((if GoBytes.len (Accept r) =? 0
      then fail self httpstatus.UnsupportedMediaType
             (Some (NewCoded "InternalCodeResponseMimeTypeMissing"
                      "Accept MIME type not provided" []))
      else
        bind (setResponseMimeType
                (Get handlers (Accept r) (responseMimeTypes (handlerData self))))
          (λ _, match Get handlers (Accept r) (responseMimeTypes (handlerData self)) with
                | None =>
                    fail self httpstatus.UnsupportedMediaType
                      (Some (NewCoded "InternalCodeResponseMimeTypeUnsupported"
                               "Accept MIME type not supported: %s" [Accept r]))
                | Some mime => bind (setContentType (MimeType mime)) (λ _, ret requestMimeType)
                end)) : M any (option (MimeTypeHandler any))) (mkExecState r None t) =
    (Continue requestMimeType,
     mkExecState (SetResponseContentType r (MimeType mime)) (Some mime) t)) as Haccept.
  { intros rm mime Hfound Hacc.
    assert ((GoBytes.len (Accept r) =? 0) = false) as ->.
    { destruct (GoBytes.len (Accept r) =? 0) eqn:Hz; [by apply len_zero in Hz | done]. }
    by rewrite Hfound. }
  assert (Accept r = [] ∨ Accept r ≠ []) as [Hacc | Hacc]
    by (destruct (Accept r); [by left | by right]).
  - left. destruct (hasRequestBody (handlerData self)).
    + destruct (GoBytes.len (ContentType r) =? 0) eqn:Hct.
      { eexists. split; [by left | by rewrite bind_run, FastHttp_fail_plain]. }
      destruct (Get handlers (ContentType r) _) as [rm|] eqn:Hrm.
      2:{ eexists. split; [by left | by rewrite bind_run, FastHttp_fail_plain]. }
      rewrite bind_run. cbn [ret].
      destruct (Hreject (Some rm) (or_intror Hacc)) as [body ->]. exists body. by split; [left |].
    + rewrite bind_run. cbn [ret].
      destruct (Hreject None (or_intror Hacc)) as [body ->]. exists body. by split; [left |].
  - destruct (Get handlers (Accept r) (responseMimeTypes (handlerData self)))
      as [mime|] eqn:Hfound.
    + destruct (hasRequestBody (handlerData self)).
      * destruct (GoBytes.len (ContentType r) =? 0) eqn:Hct.
        { left. eexists. split; [| by rewrite bind_run, FastHttp_fail_plain].
          right. right. apply len_zero in Hct. intros [? | [? ?]]; congruence. }
        destruct (Get handlers (ContentType r) _) as [rm|] eqn:Hrm.
        2:{ left. eexists. split; [| by rewrite bind_run, FastHttp_fail_plain].
            right. right. intros [? | [? [? ?]]]; congruence. }
        right. exists (Some rm), mime. rewrite bind_run. cbn [ret].
        rewrite (Haccept (Some rm) mime) by done.
        do 2 (split; [done |]). split; [| done]. right. split; [| by eexists].
        intros Hz. apply len_zero in Hz. congruence.
      * right. exists None, mime. rewrite bind_run. cbn [ret].
        rewrite (Haccept None mime) by done. do 2 (split; [done |]). split; [by left | done].
    + left. destruct (hasRequestBody (handlerData self)).
      * destruct (GoBytes.len (ContentType r) =? 0) eqn:Hct.
        { eexists. split; [by right; left | by rewrite bind_run, FastHttp_fail_plain]. }
        destruct (Get handlers (ContentType r) _) as [rm|] eqn:Hrm.
        2:{ eexists. split; [by right; left | by rewrite bind_run, FastHttp_fail_plain]. }
        rewrite bind_run. cbn [ret].
        destruct (Hreject (Some rm) (or_introl eq_refl)) as [body ->].
        exists body. by split; [right; left |].
      * rewrite bind_run. cbn [ret].
        destruct (Hreject None (or_introl eq_refl)) as [body ->].
        exists body. by split; [right; left |].
Qed.

Section FastHttpSettled.
Variables (self : Endpoint any) (mime : MimeTypeHandler any).

Lemma FastHttp_settled_grows s r' calls :
  FastHttp_settled self mime s →
  responseContentType r' = responseContentType (requester s) →
  (∀ ev, ev ∈ trace s → ev ∈ calls) →
  FastHttp_settled self mime (mkExecState r' (responseMimeType s) calls).
Proof.
  intros [Hm Hct] Hr Hsub. split; [done |]. cbn [requester]. rewrite Hr.
  destruct Hct as [? | [? (h & st & err & st' & x & b & e & Hh & Hin & Hhe & Hma)]];
    [by left | right].
  split; [done |]. exists h, st, err, st', x, b, e. repeat split; try assumption.
  by apply Hsub.
Qed.

Lemma FastHttp_processErrorResponse_settled httpStatus err :
  preserves (FastHttp_settled self mime) (processErrorResponse self (Some mime) httpStatus err).
Proof.
  intros s Hs. unfold processErrorResponse.
  destruct (ErrorHandler (config self)) as [h|] eqn:Hh; [| done].
  rewrite bind_run. cbn [call].
  destruct (HandleError h httpStatus err) as [[st' x]|p] eqn:Hhe.
  2:{ cbn [snd]. apply FastHttp_settled_grows; [done | done |].
      intros ev ?. by apply list_elem_of_further. }
  rewrite bind_run. cbn [call].
  destruct (Marshal mime x) as [[b [e|]]|p] eqn:Hma; cbn [snd requester responseMimeType trace].
  - split; [apply Hs |]. right. split; [done |].
    exists h, httpStatus, err, st', x, b, e. repeat split; try assumption.
    cbn [trace]. apply list_elem_of_further, list_elem_of_here.
  - apply FastHttp_settled_grows; [done | done |].
    intros ev ?. by do 2 apply list_elem_of_further.
  - apply FastHttp_settled_grows; [done | done |].
    intros ev ?. by do 2 apply list_elem_of_further.
Qed.

Lemma FastHttp_fail_settled {A} httpStatus err :
  preserves (FastHttp_settled self mime) (@fail any _ A self httpStatus err).
Proof.
  intros s Hs. unfold fail. rewrite (proj1 Hs).
  by apply (preserves_exit _ (processErrorResponse self (Some mime) httpStatus err));
    [apply FastHttp_processErrorResponse_settled |].
Qed.

Lemma FastHttp_bind_getResponseMimeType_settled {B}
    (k : option (MimeTypeHandler any) → M any B) :
  preserves (FastHttp_settled self mime) (k (Some mime)) →
  preserves (FastHttp_settled self mime) (bind getResponseMimeType k).
Proof.
  intros Hk s Hs. rewrite bind_run. cbn [getResponseMimeType].
  rewrite (proj1 Hs). by apply Hk.
Qed.

Local Ltac settled_side :=
  first
    [ apply FastHttp_fail_settled
    | apply FastHttp_bind_fail; apply FastHttp_fail_settled
    | apply FastHttp_bind_getResponseMimeType_settled
    | intros ? ?; apply FastHttp_settled_grows;
      [assumption | reflexivity | intros ? ?; by apply list_elem_of_further]
    | intros ? [? ?]; split; [assumption | by left] ].

(** What [Execute] does after the negotiation. *)
Lemma FastHttp_afterSetup_settled ctx requestMimeType :
  preserves (FastHttp_settled self mime)
    (bind (ret requestMimeType)
       (λ requestMimeType,
          bind (poll self ctx AfterMimeTypes) (λ _,
          bind (authentication self) (λ _,
          bind (poll self ctx AfterAuth) (λ _,
          bind (allocation self) (λ handlerAlloc,
          bind (handleRequest self ctx requestMimeType handlerAlloc) (λ _,
          bind (poll self ctx BeforeHandle) (λ _,
          bind (call EvHandle (Handle (handler handlerAlloc))) (λ x,
            let '(httpStatus, err) := x in
            match err with
            | Some e => fail self httpStatus (Some e)
            | None => handleResponse self ctx handlerAlloc httpStatus
            end))))))))).
Proof.
  unfold poll, authentication, allocation, handleRequest, handleResponse, poll,
    setHandlerRequestBody, getHandlerResponseBody.
  repeat preserves_step settled_side.
Qed.

Lemma FastHttp_recovery_settled payload s :
  FastHttp_settled self mime s → FastHttp_settled self mime (recovery self payload s).2.
Proof.
  intros Hs. unfold recovery. rewrite (proj1 Hs).
  pose proof (FastHttp_processErrorResponse_settled httpstatus.InternalServerError
                (Some ErrorPanic) s Hs) as H.
  by destruct (processErrorResponse _ _ _ _ s) as [[out|out|p'] s''].
Qed.

End FastHttpSettled.

(** The pipeline of a handler with a response body: 415 from the
    negotiation, or a run that ends in a state where the codec for the
    Accept header is the negotiated one. *)
Lemma FastHttp_pipeline_run self ctx r :
  hasResponseBody (handlerData self) = true →
  (∃ body s,
     (Accept r = [] ∨
      Get (FastHttp_registry self) (Accept r) (responseMimeTypes (handlerData self)) = None ∨
      ¬ FastHttp_requestTypeAccepted self r) ∧
     pipeline self ctx (mkExecState r None []) = (Returned (415, body), s)) ∨
  (∃ mime,
     Accept r ≠ [] ∧
     Get (FastHttp_registry self) (Accept r) (responseMimeTypes (handlerData self)) = Some mime ∧
     FastHttp_requestTypeAccepted self r ∧
     FastHttp_settled self mime (pipeline self ctx (mkExecState r None [])).2).
Proof.
  intros Hbody. unfold pipeline. rewrite bind_run.
  destruct (FastHttp_setupMimeTypes_run self (mkExecState r None []) Hbody eq_refl)
    as [[body [Hwhy ->]] | [rm [mime [Hacc [Hfound [Hreq ->]]]]]];
    cbn [requester Accept] in *.
  - left. by eexists _, _.
  - right. exists mime. do 3 (split; [done |]).
    apply (FastHttp_afterSetup_settled self mime ctx rm). split; [done | by left].
Qed.

Section FastHttpUnnegotiated.
Variables (self : Endpoint any) (r : Requester).

Lemma unnegotiated_call (ev : Event any) s :
  ev ≠ EvMarshal → ev ≠ EvMarshalError → (∀ httpStatus err, ev ≠ EvHandleError httpStatus err) →
  unnegotiated r s →
  unnegotiated r (mkExecState (requester s) (responseMimeType s) (ev :: trace s)).
Proof.
  intros H1 H2 H3 (Hm & Hct & Hcalls). do 2 (split; [done |]).
  intros ev' [-> | Hin]%elem_of_cons; [done | by apply Hcalls].
Qed.

Lemma FastHttp_fail_unnegotiated {A} httpStatus err :
  preserves (unnegotiated r) (@fail any _ A self httpStatus err).
Proof.
  intros s Hs. rewrite FastHttp_fail_plain by apply Hs.
  destruct Hs as (Hm & Hct & Hcalls). split; [done |]. split; [by right | done].
Qed.

Lemma FastHttp_bind_getResponseMimeType_unnegotiated {B}
    (k : option (MimeTypeHandler any) → M any B) :
  preserves (unnegotiated r) (k None) →
  preserves (unnegotiated r) (bind getResponseMimeType k).
Proof.
  intros Hk s Hs. rewrite bind_run. cbn [getResponseMimeType].
  rewrite (proj1 Hs). by apply Hk.
Qed.

Local Ltac unnegotiated_side :=
  first
    [ apply FastHttp_fail_unnegotiated
    | apply FastHttp_bind_fail; apply FastHttp_fail_unnegotiated
    | apply FastHttp_bind_getResponseMimeType_unnegotiated
    | intros ? ?; by apply unnegotiated_call ].

(** A handler without a response body: the Accept header is not looked
    at and no codec is negotiated, up to the end of [Execute]. *)
Lemma FastHttp_pipeline_unnegotiated ctx :
  hasResponseBody (handlerData self) = false →
  unnegotiated r (pipeline self ctx (mkExecState r None [])).2.
Proof.
  intros Hbody.
  assert (preserves (unnegotiated r) (pipeline self ctx)) as Hp.
  { unfold pipeline, setupMimeTypes. rewrite Hbody.
    unfold poll, authentication, allocation, handleRequest, handleResponse, poll,
      setHandlerRequestBody, getHandlerResponseBody.
    repeat preserves_step unnegotiated_side. }
  apply Hp. split; [done |]. split; [by left |].
  intros ev Hin. by apply not_elem_of_nil in Hin.
Qed.

(** Without a codec the deferred function answers 500 in plain text. *)
Lemma FastHttp_recovery_plain payload s :
  responseMimeType s = None →
  recovery self payload s =
  (Done (500, Sprintf "%#v" (Some ErrorPanic)),
   mkExecState (SetResponseContentType (requester s) mimeTypeTextPlain) None (trace s)).
Proof. intros Hm. unfold recovery. destruct s as [r0 m t]. simpl in Hm. by subst m. Qed.

Lemma FastHttp_Execute_unnegotiated ctx :
  hasResponseBody (handlerData self) = false →
  unnegotiated r (Execute self ctx r).2.
Proof.
  intros Hbody. pose proof (FastHttp_pipeline_unnegotiated ctx Hbody) as Hp.
  unfold Execute, withRecover.
  destruct (pipeline self ctx _) as [[out|out|p] s']; cbn [snd] in *; [done | done |].
  rewrite FastHttp_recovery_plain by apply Hp. destruct Hp as (Hm & Hct & Hcalls).
  split; [done |]. split; [by right | done].
Qed.

End FastHttpUnnegotiated.

(** The deferred function, once a codec is negotiated and the error
    handler returns. *)
Lemma FastHttp_recovery_run self mime h payload httpStatus errStruct s :
  responseMimeType s = Some mime →
  ErrorHandler (config self) = Some h →
  HandleError h 500 (Some ErrorPanic) = Done (httpStatus, errStruct) →
  (recovery self payload s).1 =
  match Marshal mime errStruct with
  | Done (body, None) => Done (httpStatus, body)
  | Done (_, Some _) =>
      Done (500, Sprintf "%s"
                   (Some (NewCoded "InternalCodeErrorParseFailure" "Internal server error" [])))
  | Panics p => Panics p
  end.
Proof.
  intros Hm Hh Hhe. unfold recovery. rewrite Hm. unfold processErrorResponse.
  rewrite Hh, bind_run. cbn [call]. change httpstatus.InternalServerError with 500.
  rewrite Hhe, bind_run. cbn [call].
  by destruct (Marshal mime errStruct) as [[b [e|]]|p].
Qed.

(** Panics of the other collaborators stay inside: when the error handler
    and the negotiated codec do not panic, [Execute] returns a status and a
    body. *)
Lemma FastHttp_Execute_returns self ctx r h :
  ErrorHandler (config self) = Some h →
  (∀ httpStatus err p, HandleError h httpStatus err ≠ Panics p) →
  (∀ mime,
     Get (FastHttp_registry self) (Accept r) (responseMimeTypes (handlerData self)) = Some mime →
     ∀ x p, Marshal mime x ≠ Panics p) →
  ∃ httpStatus body, (Execute self ctx r).1 = Done (httpStatus, body).
Proof.
  intros Hh Hhandler Hcodec. unfold Execute.
  destruct (hasResponseBody (handlerData self)) eqn:Hbody.
  - destruct (FastHttp_pipeline_run self ctx r Hbody)
      as [(body & s & _ & ->) | (mime & _ & Hfound & _ & Hs)]; [by eexists _, _ |].
    destruct (pipeline self ctx _) as [[[st b]|[st b]|p] s];
      [by eexists _, _ | by eexists _, _ |].
    cbn [withRecover snd] in *.
    destruct (HandleError h 500 (Some ErrorPanic)) as [[st x]|p'] eqn:Hhe;
      [| by destruct (Hhandler _ _ _ Hhe)].
    rewrite (FastHttp_recovery_run self mime h p st x s (proj1 Hs) Hh Hhe).
    destruct (Marshal mime x) as [[b [e|]]|p'] eqn:Hma;
      [by eexists _, _ | by eexists _, _ | by destruct (Hcodec _ Hfound _ _ Hma)].
  - pose proof (FastHttp_pipeline_unnegotiated self r ctx Hbody) as Hp.
    destruct (pipeline self ctx _) as [[[st b]|[st b]|p] s];
      [by eexists _, _ | by eexists _, _ |].
    cbn [withRecover snd] in *. rewrite FastHttp_recovery_plain by apply Hp. by eexists _, _.
Qed.

End FastHttpContentType.

(** ** The negotiated content type, on both revisions *)

Section ContentTypeNegotiation.
Context {any : Type} `{!Runtime any}.

(** C2, as the code has it. On the Requester revision [Execute] negotiates
    the response content type from the Accept header for every request,
    whatever the handler declares: when the header is absent or not found
    in the registry for the handler's allowed subset the result is 415. On
    the fasthttp revision it does so only for a handler that declares a
    response body; for one that declares none the Accept header is not
    looked at and no codec is negotiated. On both, once a codec is resolved
    the response content type is that codec's type and ends as that type,
    unless in this execution the error handler was called and the codec did
    not encode the payload it returned: then it ends as text/plain. *)
Theorem Execute_response_content_type
    (self : Endpoint.Endpoint any) (ctx : Endpoint.Context)
    (self' : FastHttpEndpoint.Endpoint any) (ctx' : FastHttpEndpoint.Context)
    (r : Requester) :
  (let found :=
     Get (Endpoint.registry self) (Accept r)
       (Endpoint.responseMimeTypes (Endpoint.handlerData self)) in
   let out := Endpoint.Execute self ctx r in
   let contentType := responseContentType (requester out.2) in
   (Accept r = [] ∨ found = None → ∃ body, out.1 = Done (415, body)) ∧
   (∀ mime, Accept r ≠ [] → found = Some mime → Endpoint.requestTypeAccepted self r →
      responseMimeType out.2 = Some mime ∧
      (contentType = Some (MimeType mime) ∨
       (contentType = Some mimeTypeTextPlain ∧ encodeFailed self mime out.2)) ∧
      (Endpoint.encodesErrors self mime → contentType = Some (MimeType mime)))) ∧
  (let found :=
     Get (FastHttp_registry self') (Accept r)
       (FastHttpEndpoint.responseMimeTypes (FastHttpEndpoint.handlerData self')) in
   let out := FastHttpEndpoint.Execute self' ctx' r in
   let contentType := responseContentType (requester out.2) in
   (FastHttpEndpoint.hasResponseBody (FastHttpEndpoint.handlerData self') = true →
      (Accept r = [] ∨ found = None → ∃ body, out.1 = Done (415, body)) ∧
      (∀ mime, Accept r ≠ [] → found = Some mime → FastHttp_requestTypeAccepted self' r →
         responseMimeType out.2 = Some mime ∧
         (contentType = Some (MimeType mime) ∨
          (contentType = Some mimeTypeTextPlain ∧ FastHttp_encodeFailed self' mime out.2)))) ∧
   (FastHttpEndpoint.hasResponseBody (FastHttpEndpoint.handlerData self') = false →
      unnegotiated r out.2)).
Proof.
  split.
  - intros found out contentType. subst contentType out found.
    rewrite Execute_run.
    destruct (setupMimeTypes_run self (Endpoint.started r) eq_refl)
      as [[body [Hwhy ->]] | [rm [mime [Hacc [Hfound [Hreq ->]]]]]];
      cbn [Endpoint.started requester Accept SetResponseHeader] in *.
    + split; [intros _; by exists body |].
      intros mime Hacc Hfound Hreq.
      destruct Hwhy as [? | [? | ?]]; [done | congruence | done].
    + split; [intros [? | ?]; [done | congruence] |].
      intros mime' _ Hfound' _. assert (mime' = mime) as -> by congruence.
      set (s1 := mkExecState _ (Some mime) _).
      assert (settled self mime s1) as Hs1 by (split; [done | by left]).
      pose proof (afterNegotiation_settled self mime ctx rm s1 Hs1) as [Hm Hct].
      do 2 (split; [done |]). intros Henc.
      destruct Hct as [? | [_ (h & st & err & st' & x & b & e & Hh & _ & Hhe & Hma)]];
        [done |].
      by destruct (Henc _ _ _ _ _ _ _ Hh Hhe Hma).
  - intros found out contentType. subst contentType out found. split.
    + intros Hbody. unfold FastHttpEndpoint.Execute.
      destruct (FastHttp_pipeline_run self' ctx' r Hbody)
        as [(body & s & Hwhy & ->) | (mime & Hacc & Hfound & Hreq & Hs)].
      * split; [intros _; by exists body |].
        intros mime Hacc Hfound Hreq.
        destruct Hwhy as [? | [? | ?]]; [done | congruence | done].
      * split; [intros [? | ?]; [done | congruence] |].
        intros mime' _ Hfound' _. assert (mime' = mime) as -> by congruence.
        destruct (FastHttpEndpoint.pipeline self' ctx' _) as [[out|out|p] s];
          cbn [FastHttpEndpoint.withRecover snd] in *; [done | done |].
        by apply FastHttp_recovery_settled.
    + apply FastHttp_Execute_unnegotiated.
Qed.

End ContentTypeNegotiation.

Section ContentTypeNegotiationTests.
Import TestEndpoint.

Lemma Execute_response_content_type_witness :
  responseContentType
    (requester
       (Endpoint.Execute
          (TestRequesterEndpoint.createTestEndpoint myErrorHandler
             TestRequesterEndpoint.failingHandler)
          TestRequesterEndpoint.live request).2)
  = Some "application/json"%string ∧
  (∃ body,
     (FastHttpEndpoint.Execute TestFastHttpEndpoint.createTestEndpoint
        TestFastHttpEndpoint.live requestWithoutAccept).1 = Done (415, body)) ∧
  unnegotiated request
    (FastHttpEndpoint.Execute
       (FastHttpEndpoint.NewEndpoint TestFastHttpEndpoint.testConfig
          TestFastHttpEndpoint.bodilessEndpoint)
       TestFastHttpEndpoint.live request).2.
Proof.
  split; [| split].
  - destruct (Execute_response_content_type
                (TestRequesterEndpoint.createTestEndpoint myErrorHandler
                   TestRequesterEndpoint.failingHandler)
                TestRequesterEndpoint.live
                TestFastHttpEndpoint.createTestEndpoint TestFastHttpEndpoint.live request)
      as [[_ H] _].
    destruct (H jsonHandler) as [_ [_ Hfixed]].
    + vm_compute. discriminate.
    + vm_compute. reflexivity.
    + right. split; [vm_compute; discriminate | eexists; vm_compute; reflexivity].
    + apply Hfixed. apply myErrorHandler_encodes.
  - destruct (Execute_response_content_type
                (TestRequesterEndpoint.createTestEndpoint myErrorHandler
                   TestRequesterEndpoint.okHandler)
                TestRequesterEndpoint.live
                TestFastHttpEndpoint.createTestEndpoint TestFastHttpEndpoint.live
                requestWithoutAccept)
      as [_ [H _]].
    destruct H as [H _]; [reflexivity |]. apply H. by left.
  - destruct (Execute_response_content_type
                (TestRequesterEndpoint.createTestEndpoint myErrorHandler
                   TestRequesterEndpoint.okHandler)
                TestRequesterEndpoint.live
                (FastHttpEndpoint.NewEndpoint TestFastHttpEndpoint.testConfig
                   TestFastHttpEndpoint.bodilessEndpoint)
                TestFastHttpEndpoint.live request)
      as [_ [_ H]].
    apply H. reflexivity.
Defined.

(** C2, as the claim has it, fails twice. On the fasthttp revision a
    handler that declares no response body is served without a look at
    the Accept header: the request has none and is answered 200, not 415.
    On the Requester revision the codec for application/json is resolved
    and the handler's error goes to the error responder; the payload does
    not encode, and the response ends as text/plain. *)
Lemma Execute_content_type_not_fixed :
  (let self := FastHttpEndpoint.NewEndpoint TestFastHttpEndpoint.testConfig
                 TestFastHttpEndpoint.bodilessEndpoint in
   let out := FastHttpEndpoint.Execute self TestFastHttpEndpoint.live requestWithoutAccept in
   FastHttpEndpoint.hasResponseBody (FastHttpEndpoint.handlerData self) = false ∧
   Accept requestWithoutAccept = [] ∧
   out.1 = Done (200, []) ∧
   (∀ body, out.1 ≠ Done (415, body)) ∧
   responseMimeType out.2 = None) ∧
  (let self := TestRequesterEndpoint.createTestEndpoint channelErrorHandler
                 TestRequesterEndpoint.failingHandler in
   let out := Endpoint.Execute self TestRequesterEndpoint.live request in
   Accept request ≠ [] ∧
   Get (Endpoint.registry self) (Accept request)
     (Endpoint.responseMimeTypes (Endpoint.handlerData self)) = Some jsonHandler ∧
   MimeType jsonHandler = "application/json"%string ∧
   responseContentType (requester out.2) = Some "text/plain"%string ∧
   responseContentType (requester out.2) ≠ Some (MimeType jsonHandler)).
Proof.
  split.
  - vm_compute. repeat split; discriminate.
  - vm_compute. repeat split; discriminate.
Qed.

End ContentTypeNegotiationTests.

(** ** The recovery boundary, on both revisions *)

Section PanicRecovery.
Context {any : Type} `{!Runtime any}.

(** C4, as the code has it. When a phase of the pipeline panics, the
    deferred function of [Execute] recovers and answers through the error
    responder with 500 and an internal error: [ErrInternalServerError]
    wrapping the recovered value on the Requester revision, the fixed
    [ErrorPanic] on the fasthttp revision, where the answer does not depend
    on the payload of the panic. A codec is negotiated by then, except for
    a fasthttp handler without a response body, which is answered 500 in
    plain text; with a codec the answer is the status the error handler
    returns for 500 with its payload encoded, or 500 in plain text when
    the payload does not encode. When the error handler and the negotiated
    codec do not panic, [Execute] returns a status and a body whatever the
    other collaborators do. *)
Theorem Execute_recovers
    (self : Endpoint.Endpoint any) (ctx : Endpoint.Context)
    (self' : FastHttpEndpoint.Endpoint any) (ctx' : FastHttpEndpoint.Context)
    (r : Requester) :
  (let out := Endpoint.Execute self ctx r in
   let found :=
     Get (Endpoint.registry self) (Accept r)
       (Endpoint.responseMimeTypes (Endpoint.handlerData self)) in
   (∀ payload s,
      Endpoint.pipeline self ctx (mkExecState r None []) = (Panicked payload, s) →
      let err := Some (Wrap (Some (Recover payload)) Endpoint.ErrInternalServerError) in
      ∃ mime,
        found = Some mime ∧ responseMimeType s = Some mime ∧
        ∀ h httpStatus errStruct,
          Endpoint.ErrorHandler (Endpoint.config self) = Some h →
          HandleError h 500 err = Done (httpStatus, errStruct) →
          (∀ body, Marshal mime errStruct = Done (body, None) →
                   out.1 = Done (httpStatus, body)) ∧
          (∀ body e, Marshal mime errStruct = Done (body, Some e) →
             out.1 = Done (500, Sprintf "%s"
                                  (Some (Wrap (Some e) Endpoint.ErrInternalServerError))) ∧
             responseContentType (requester out.2) = Some mimeTypeTextPlain)) ∧
   (∀ h,
      Endpoint.ErrorHandler (Endpoint.config self) = Some h →
      (∀ httpStatus err p, HandleError h httpStatus err ≠ Panics p) →
      (∀ mime, found = Some mime → ∀ x p, Marshal mime x ≠ Panics p) →
      ∃ httpStatus body, out.1 = Done (httpStatus, body))) ∧
  (let out := FastHttpEndpoint.Execute self' ctx' r in
   let found :=
     Get (FastHttp_registry self') (Accept r)
       (FastHttpEndpoint.responseMimeTypes (FastHttpEndpoint.handlerData self')) in
   let err := Some FastHttpEndpoint.ErrorPanic in
   (∀ payload s,
      FastHttpEndpoint.pipeline self' ctx' (mkExecState r None []) = (Panicked payload, s) →
      (∀ payload', out = FastHttpEndpoint.withRecover self' (Panicked payload', s)) ∧
      (FastHttpEndpoint.hasResponseBody (FastHttpEndpoint.handlerData self') = false →
         out.1 = Done (500, Sprintf "%#v" err) ∧
         responseContentType (requester out.2) = Some mimeTypeTextPlain) ∧
      (FastHttpEndpoint.hasResponseBody (FastHttpEndpoint.handlerData self') = true →
         ∃ mime,
           found = Some mime ∧ responseMimeType s = Some mime ∧
           ∀ h httpStatus errStruct,
             FastHttpEndpoint.ErrorHandler (FastHttpEndpoint.config self') = Some h →
             HandleError h 500 err = Done (httpStatus, errStruct) →
             (∀ body, Marshal mime errStruct = Done (body, None) →
                      out.1 = Done (httpStatus, body)) ∧
             (∀ body e, Marshal mime errStruct = Done (body, Some e) →
                out.1 = Done (500, Sprintf "%s"
                                     (Some (NewCoded "InternalCodeErrorParseFailure"
                                              "Internal server error" [])))))) ∧
   (∀ h,
      FastHttpEndpoint.ErrorHandler (FastHttpEndpoint.config self') = Some h →
      (∀ httpStatus err p, HandleError h httpStatus err ≠ Panics p) →
      (∀ mime, found = Some mime → ∀ x p, Marshal mime x ≠ Panics p) →
      ∃ httpStatus body, out.1 = Done (httpStatus, body))).
Proof.
  split.
  - intros out found. subst out found. split; [| apply Execute_returns].
    intros payload s Hp err.
    destruct (pipeline_run self ctx r) as [(body & s0 & _ & Hr) | (mime & _ & Hfound & _ & Hs)];
      [congruence |].
    rewrite Hp in Hs. cbn [snd] in Hs. exists mime. do 2 (split; [done || apply Hs |]).
    intros h httpStatus errStruct Hh Hhe.
    assert (Endpoint.Execute self ctx r = Endpoint.recovery self payload s) as ->
      by (unfold Endpoint.Execute; by rewrite Hp).
    pose proof (recovery_run self mime h payload httpStatus errStruct s (proj1 Hs) Hh Hhe)
      as Hrun.
    split.
    + intros body Hma. by rewrite Hrun, Hma.
    + intros body e Hma. split; [by rewrite Hrun, Hma |].
      unfold Endpoint.recovery. rewrite (proj1 Hs). unfold Endpoint.processErrorResponse.
      rewrite Hh, bind_run. cbn [call]. change httpstatus.InternalServerError with 500.
      fold err. rewrite Hhe, bind_run. cbn [call]. by rewrite Hma.
  - intros out found err. subst out found err. split; [| apply FastHttp_Execute_returns].
    intros payload s Hp.
    assert (FastHttpEndpoint.Execute self' ctx' r = FastHttpEndpoint.recovery self' payload s)
      as Hout by (unfold FastHttpEndpoint.Execute; by rewrite Hp).
    split; [intros payload'; by rewrite Hout |]. split.
    + intros Hbody. pose proof (FastHttp_pipeline_unnegotiated self' r ctx' Hbody) as Hs.
      rewrite Hp in Hs. cbn [snd] in Hs.
      by rewrite Hout, FastHttp_recovery_plain by apply Hs.
    + intros Hbody.
      destruct (FastHttp_pipeline_run self' ctx' r Hbody)
        as [(body & s0 & _ & Hr) | (mime & _ & Hfound & _ & Hs)]; [congruence |].
      rewrite Hp in Hs. cbn [snd] in Hs. exists mime. do 2 (split; [done || apply Hs |]).
      intros h httpStatus errStruct Hh Hhe. rewrite Hout.
      rewrite (FastHttp_recovery_run self' mime h payload httpStatus errStruct s (proj1 Hs) Hh Hhe).
      split; [intros body Hma | intros body e Hma]; by rewrite Hma.
Qed.

End PanicRecovery.

Section PanicRecoveryTests.
Import TestEndpoint.

Lemma Execute_recovers_witness :
  (Endpoint.Execute
     (TestRequesterEndpoint.createTestEndpoint myErrorHandler
        TestRequesterEndpoint.panickingHandler)
     TestRequesterEndpoint.live request).1
  = Done (500, of_string "message:ErrInternalServerError: panic: index out of range") ∧
  (FastHttpEndpoint.Execute TestFastHttpEndpoint.panickingEndpoint
     TestFastHttpEndpoint.live request).1
  = Done (500, of_string "message:ErrorPanic").
Proof.
  destruct (Execute_recovers
              (TestRequesterEndpoint.createTestEndpoint myErrorHandler
                 TestRequesterEndpoint.panickingHandler)
              TestRequesterEndpoint.live
              TestFastHttpEndpoint.panickingEndpoint TestFastHttpEndpoint.live request)
    as [[H _] [H' _]].
  split.
  - edestruct H as (mime & Hfound & _ & Hout); [vm_compute; reflexivity |].
    assert (mime = jsonHandler) as ->.
    { vm_compute in Hfound. by injection Hfound. }
    edestruct Hout as [Hbody _]; [reflexivity | reflexivity |].
    apply Hbody. reflexivity.
  - edestruct H' as (_ & _ & Hcodec); [vm_compute; reflexivity |].
    destruct Hcodec as (mime & Hfound & _ & Hout); [reflexivity |].
    assert (mime = jsonHandler) as ->.
    { vm_compute in Hfound. by injection Hfound. }
    edestruct Hout as [Hbody _]; [reflexivity | reflexivity |].
    apply Hbody. reflexivity.
Defined.

(** C4, as the claim has it, fails on three counts, on the Requester
    revision, with a handler that panics or returns an error. The error
    handler panics while the handler's error is rendered; the deferred
    function recovers and calls the same error handler, and its panic
    leaves [Execute]: no status is returned and the payload reaches the
    caller. The status is the error handler's: one that answers 200 makes
    the recovered panic a 200. And the error handler is given the
    recovered value inside the error: one that reports the cause puts
    the payload of the panic into the body. *)
Lemma Execute_panics_in_recovery :
  (let self := TestRequesterEndpoint.createTestEndpoint brokenErrorHandler
                 TestRequesterEndpoint.failingHandler in
   (∃ s, Endpoint.pipeline self TestRequesterEndpoint.live (mkExecState request None [])
         = (Panicked "error handler: nil map"%string, s)) ∧
   (Endpoint.Execute self TestRequesterEndpoint.live request).1
   = Panics "error handler: nil map"%string) ∧
  (let self := TestRequesterEndpoint.createTestEndpoint remappingErrorHandler
                 TestRequesterEndpoint.panickingHandler in
   (∃ s, Endpoint.pipeline self TestRequesterEndpoint.live (mkExecState request None [])
         = (Panicked "index out of range"%string, s)) ∧
   (Endpoint.Execute self TestRequesterEndpoint.live request).1
   = Done (200, of_string "recovered")) ∧
  (let self := TestRequesterEndpoint.createTestEndpoint causeErrorHandler
                 TestRequesterEndpoint.panickingHandler in
   (∃ s, Endpoint.pipeline self TestRequesterEndpoint.live (mkExecState request None [])
         = (Panicked "index out of range"%string, s)) ∧
   (Endpoint.Execute self TestRequesterEndpoint.live request).1
   = Done (500, of_string "index out of range")).
Proof.
  split; [| split]; vm_compute; (split; [by eexists | reflexivity]).
Qed.

End PanicRecoveryTests.

(** ** Endpoints as the fasthttp [NewEndpoint] builds them *)

Section FastHttpNewEndpoint.
Import FastHttpEndpoint.
Context {any : Type} `{!Runtime any}.

Local Ltac configured_side :=
  first
    [ intros ? ?;
      first [ apply never_call; [unfold configured; intuition discriminate | assumption]
            | eapply never_same_trace; [| eassumption]; reflexivity ]
    | apply FastHttp_fail_never_error; unfold configured; intuition discriminate
    | apply FastHttp_bind_fail; apply FastHttp_fail_never_error;
      unfold configured; intuition discriminate
    | apply preserves_bind; [apply preserves_getResponseMimeType | intros ?] ].

(** X20. The fasthttp [NewEndpoint] carries neither the auther nor the
    validators of the configuration over to the endpoint: whatever the
    configuration holds, executing the endpoint authenticates nothing and
    validates nothing. *)
Theorem FastHttp_NewEndpoint_drops_collaborators (cfg : Config any)
    (handler : handlerTypeData any) (ctx : Context) (r : Requester) :
  Auther_ (config (NewEndpoint cfg handler)) = None ∧
  RequestValidator (config (NewEndpoint cfg handler)) = None ∧
  ResponseValidator (config (NewEndpoint cfg handler)) = None ∧
  never configured (Execute (NewEndpoint cfg handler) ctx r).2.
Proof.
  do 3 (split; [done |]).
  apply FastHttp_Execute_never; [unfold configured; intuition discriminate .. |].
  unfold pipeline, authentication, handleRequest, handleResponse.
  cbn [NewEndpoint config Auther_ RequestValidator ResponseValidator].
  unfold poll, setupMimeTypes, allocation, setHandlerRequestBody, getHandlerResponseBody.
  repeat preserves_step configured_side.
Qed.

End FastHttpNewEndpoint.

(** ** The further properties on the test endpoints *)

Section RequesterExecutionTests.
Import Endpoint TestEndpoint TestRequesterEndpoint.

Local Ltac computed := vm_compute; first [reflexivity | discriminate | exact I].

(** The test request is admitted by an endpoint over [endpointWith] or
    [myEndpoint] whose binders, authorizer and codec let it through. *)
Local Ltac admitted_request :=
  split;
  [ split; [computed | split; [computed | right; split; [computed | eexists; computed]]]
  | split;
    [ repeat split
    | split; [exact I | right; split; [eexists; split; computed | exact I]] ] ].

Lemma Execute_unsupported_media_type_witness :
  ∃ detail,
    Execute (createTestEndpoint myErrorHandler okHandler) live requestWithoutAccept =
    (Done (415, Sprintf "%v" (Some (Wrap (Some ErrInvalidMimeType) detail))),
     mkExecState
       (SetResponseContentType
          (SetResponseHeader requestWithoutAccept httpheader.XRequestId
             (RequestId requestWithoutAccept))
          mimeTypeTextPlain)
       None []).
Proof. apply Execute_unsupported_media_type. left. reflexivity. Defined.

Lemma Execute_response_after_handler_witness :
  called EvHandle (Execute (createTestEndpoint myErrorHandler okHandler) live request).2.
Proof.
  apply (Execute_response_after_handler _ _ _ EvMarshal); [by left |].
  vm_compute. apply list_elem_of_here.
Defined.

Lemma Execute_handler_error_witness :
  let out := Execute (createTestEndpoint myErrorHandler failingHandler) live request in
  out.1 = Done (422, of_string "message:invalid input") ∧
  requester out.2 = negotiated request jsonHandler ∧
  never afterHandle out.2.
Proof.
  apply (Execute_handler_error _ _ _ jsonHandler myErrorHandler 422
           (New "invalid input" []) 422 "message:invalid input"%string);
    [admitted_request | computed ..].
Defined.

Lemma Execute_success_witness :
  let out := Execute (createTestEndpoint myErrorHandler okHandler) live request in
  out.1 = Done (200, of_string responseText) ∧
  requester out.2 = negotiated request jsonHandler.
Proof.
  apply (Execute_success (createTestEndpoint myErrorHandler okHandler) live request
           jsonHandler 200 responseText (of_string responseText) 200);
    [admitted_request | computed ..].
Defined.

Lemma Execute_no_response_body_witness :
  let out := Execute (NewEndpoint (testConfig myErrorHandler) bodilessEndpoint) live request in
  out.1 = Done (200, []) ∧
  requester out.2 = negotiated request jsonHandler ∧
  ¬ called EvMarshal out.2.
Proof.
  apply (Execute_no_response_body (NewEndpoint (testConfig myErrorHandler) bodilessEndpoint)
           live request jsonHandler 200 200);
    [admitted_request | computed ..].
Defined.

Lemma Execute_response_not_encoded_witness :
  let out := Execute (NewEndpoint (testConfig myErrorHandler) nullEndpoint) live request in
  out.1 = Done (500, of_string "message:ErrInternalServerError") ∧
  requester out.2 = negotiated request jsonHandler ∧
  ¬ called EvValidateResponse out.2.
Proof.
  apply (Execute_response_not_encoded (NewEndpoint (testConfig myErrorHandler) nullEndpoint)
           live request jsonHandler myErrorHandler 200 "null"%string nullBytes None
           500 "message:ErrInternalServerError"%string);
    [admitted_request | computed | computed | computed | computed | computed | by right
    | computed ..].
Defined.

Lemma Execute_response_rejected_witness :
  let self := withResponseValidator strictResponseValidator
                (createTestEndpoint myErrorHandler okHandler) in
  let out := Execute self live request in
  out.1 = Done (422, of_string "message:response rejected") ∧
  requester out.2 = negotiated request jsonHandler.
Proof.
  apply (Execute_response_rejected
           (withResponseValidator strictResponseValidator
              (createTestEndpoint myErrorHandler okHandler))
           live request jsonHandler myErrorHandler strictResponseValidator 200 responseText
           (of_string responseText) 422 (New "response rejected" []) 422
           "message:response rejected"%string);
    [admitted_request | computed ..].
Defined.

Local Ltac negotiated_request :=
  split; [computed | split; [computed | right; split; [computed | eexists; computed]]].

Lemma Execute_not_bound_witness :
  let out := Execute (NewEndpoint (testConfig myErrorHandler) unboundEndpoint) live request in
  out.1 = Done (500, of_string "message:ErrInternalServerError: resource not found: db") ∧
  requester out.2 = negotiated request jsonHandler ∧
  never afterBinding out.2.
Proof.
  apply (Execute_not_bound (NewEndpoint (testConfig myErrorHandler) unboundEndpoint) live
           request jsonHandler myErrorHandler (New "resource not found: db" []) 500
           ErrInternalServerError 500
           "message:ErrInternalServerError: resource not found: db"%string);
    [negotiated_request | left; repeat split | computed ..].
Defined.

Lemma Execute_not_authorized_witness :
  let out := Execute (NewEndpoint (testConfig myErrorHandler) guardedEndpoint) live request in
  out.1 = Done (401, of_string "message:unauthorized") ∧
  requester out.2 = negotiated request jsonHandler ∧
  never afterAuthorization out.2.
Proof.
  apply (Execute_not_authorized (NewEndpoint (testConfig myErrorHandler) guardedEndpoint) live
           request jsonHandler myErrorHandler 401 (New "unauthorized" []) 401
           "message:unauthorized"%string);
    [negotiated_request | repeat split | by eexists | computed ..].
Defined.

Lemma Execute_request_rejected_witness :
  let self := withRequestValidator strictRequestValidator
                (createTestEndpoint myErrorHandler okHandler) in
  let out := Execute self live request in
  out.1 = Done (422, of_string "message:request rejected") ∧
  requester out.2 = negotiated request jsonHandler ∧
  never fromHandleOn out.2.
Proof.
  apply (Execute_request_rejected
           (withRequestValidator strictRequestValidator
              (createTestEndpoint myErrorHandler okHandler))
           live request jsonHandler myErrorHandler 422 (New "request rejected" []) 422
           "message:request rejected"%string);
    [negotiated_request | repeat split | exact I | computed | | computed ..].
  right. split; [eexists; split; computed |].
  exists strictRequestValidator. repeat split.
Defined.

End RequesterExecutionTests.

Section FastHttpExecutionTests.
Import FastHttpEndpoint TestEndpoint TestFastHttpEndpoint.

(** Past the deadline once the request is authenticated. *)
Lemma FastHttp_Execute_expired_witness :
  let ctx := {| Err := λ site, match site with
                               | AfterMimeTypes => CtxNil
                               | _ => DeadlineExceeded
                               end |} in
  never (laterThan AfterAuth) (Execute createTestEndpoint ctx request).2.
Proof. intros ctx. apply FastHttp_Execute_expired. reflexivity. Defined.

End FastHttpExecutionTests.
